(** * Host-side TPU driver: protocol and half-precision codec

    A shallow embedding of [drivers/tpu_driver.c] (the C driver) and of
    [drivers/tpu_driver.cpp] (the C++ driver, classes [FP16] and
    [TPUDriver]), and the properties of the codec, of the command
    protocol, of the matrix transfers and of the poll-until-done loop.

    Conventions.
    - A C integer of width w is a [Z]; every conversion to an unsigned
      type is written out as a reduction modulo 2^w ([u8], [u16], [u32]),
      the conversion to [int32_t] as [i32].
    - A [float] is its IEEE-754 binary32 bit pattern, a [Z] in
      [0, 2^32): both codecs only ever look at the pattern, which they
      obtain with [memcpy].
    - The serial line, the two clocks the drivers read, and [stderr] are
      the fields of an explicit [world] that every driver call threads.
      The POSIX branch of each [#ifdef _WIN32] is the one embedded.
    - A pointer the callee writes through ([uint8_t* data],
      [float* value], [TPUStatus* status]) is a returned [option]: [None]
      when the callee returned without writing.
    - A [while] loop without a bound takes a number of rounds, [fuel],
      and returns [None] when they are used up.
    - A message on [stderr] is recorded without its final newline;
      banners printed on [stdout] are left out. *)

From Stdlib Require Import ZArith List Bool String Ascii DecimalString Lia.
From Stdlib Require Import QArith Qabs.
Import ListNotations.
Local Open Scope Z_scope.

(** ** Machine integers *)

Definition u8 (z : Z) : Z := z mod 2 ^ 8.
Definition u16 (z : Z) : Z := z mod 2 ^ 16.
Definition u32 (z : Z) : Z := z mod 2 ^ 32.

(** Conversion of a 32-bit unsigned value to [int32_t] (two's complement). *)
Definition i32 (z : Z) : Z :=
  let r := u32 z in if r <? 2 ^ 31 then r else r - 2 ^ 32.

(** A C truth value: nonzero is true. *)
Definition truthy (z : Z) : bool := negb (z =? 0).

(** ** The half-precision codec of the C driver *)

(** [uint16_t float_to_fp16(float value)], tpu_driver.c lines 76-101. *)
Definition float_to_fp16 (value : Z) : Z :=
  let f32 := value in
  let sign := Z.land (Z.shiftr f32 31) 0x1 in
  let exp32 := Z.land (Z.shiftr f32 23) 0xFF in
  let mant32 := Z.land f32 0x7FFFFF in
  if exp32 =? 0xFF then
    u16 (Z.lor (Z.lor (u32 (Z.shiftl sign 15)) 0x7C00)
               (if truthy mant32 then 0x200 else 0))
  else if exp32 =? 0 then
    u16 (u32 (Z.shiftl sign 15))
  else
    let exp16 := i32 (u32 (u32 (exp32 - 127) + 15)) in
    if exp16 <=? 0 then u16 (u32 (Z.shiftl sign 15))
    else if exp16 >=? 31 then u16 (Z.lor (u32 (Z.shiftl sign 15)) 0x7C00)
    else
      let mant16 := u16 (Z.shiftr mant32 13) in
      u16 (Z.lor (Z.lor (u32 (Z.shiftl sign 15)) (u32 (Z.shiftl exp16 10)))
                 mant16).

(** [float fp16_to_float(uint16_t fp16)], tpu_driver.c lines 106-129. *)
Definition fp16_to_float (fp16 : Z) : Z :=
  let sign := Z.land (Z.shiftr fp16 15) 0x1 in
  let exp16 := Z.land (Z.shiftr fp16 10) 0x1F in
  let mant16 := Z.land fp16 0x3FF in
  if exp16 =? 0x1F then
    Z.lor (Z.lor (u32 (Z.shiftl sign 31)) 0x7F800000) (u32 (Z.shiftl mant16 13))
  else if exp16 =? 0 then
    u32 (Z.shiftl sign 31)
  else
    let exp32 := u32 (u32 (exp16 - 15) + 127) in
    let mant32 := u32 (Z.shiftl mant16 13) in
    Z.lor (Z.lor (u32 (Z.shiftl sign 31)) (u32 (Z.shiftl exp32 23))) mant32.

(** ** The world the drivers run in *)

(** One call on the serial file descriptor, with what the operating
    system answered. *)
Inductive event : Type :=
| Tx (buf : list Z) (ret : Z)      (* write(fd, buf, len) returned ret *)
| Rx (ret : Z) (data : Z).         (* read(fd, &b, 1) returned ret and stored data *)

(** What lies outside the driver: the peer on the serial line and the
    operating system, as functions of the calls made so far.
    [CLOCKS_PER_SEC] is the macro of <time.h>. *)
Record platform : Type := {
  write_ret : list event -> list Z -> Z;
  read_ret : list event -> Z -> Z * Z;
  io_wall_us : list event -> Z;
  io_cpu_ticks : list event -> Z;
  CLOCKS_PER_SEC : Z
}.

(** [hist] is in chronological order.  [wall_us] is the monotonic
    wall clock in microseconds, the clock of [std::chrono::steady_clock];
    [cpu_ticks] is the processor time the program has used, the clock of
    C's [clock()].  A sleeping or blocked program uses no processor
    time. *)
Record world : Type := {
  env : platform;
  hist : list event;
  wall_us : Z;
  cpu_ticks : Z;
  stderr : list string
}.

Definition io_step (ev : event) (w : world) : world :=
  {| env := env w;
     hist := hist w ++ [ev];
     wall_us := wall_us w + io_wall_us (env w) (hist w);
     cpu_ticks := cpu_ticks w + io_cpu_ticks (env w) (hist w);
     stderr := stderr w |}.

Definition fprintf_stderr (msg : string) (w : world) : world :=
  {| env := env w; hist := hist w; wall_us := wall_us w;
     cpu_ticks := cpu_ticks w; stderr := stderr w ++ [msg] |}.

(** [usleep(usec)] and [std::this_thread::sleep_for]: only the wall
    clock moves. *)
Definition usleep (usec : Z) (w : world) : world :=
  {| env := env w; hist := hist w; wall_us := wall_us w + usec;
     cpu_ticks := cpu_ticks w; stderr := stderr w |}.

Definition clock (w : world) : Z := cpu_ticks w.

Definition steady_clock_now (w : world) : Z := wall_us w.

(** The frames written on the line so far, oldest first. *)
Definition frames (evs : list event) : list (list Z) :=
  flat_map (fun ev => match ev with Tx buf _ => [buf] | Rx _ _ => [] end) evs.

Definition sent (w : world) : list (list Z) := frames (hist w).

(** ** Loops *)

(** [for (int i = i0; ...; i++) body], run for [n] rounds; the body
    either goes on with a new state or returns from the function. *)
Fixpoint for_range {S R : Type} (n : nat) (i : Z)
    (body : Z -> S -> S + R) (s : S) : S + R :=
  match n with
  | O => inl s
  | Datatypes.S n' =>
      match body i s with
      | inl s' => for_range n' (i + 1) body s'
      | inr r => inr r
      end
  end.

(** ** The C driver *)

Definition CMD_WRITE_WEIGHT : Z := 0x57.
Definition CMD_WRITE_ACTIVATION : Z := 0x41.
Definition CMD_START : Z := 0x53.
Definition CMD_READ_RESULT : Z := 0x52.
Definition CMD_STATUS : Z := 0x3F.

Definition WEIGHT_BASE : Z := 0.
Definition ACTIVATION_BASE : Z := 128.
Definition RESULT_BASE : Z := 192.

Definition STATUS_BUSY : Z := 0x01.
Definition STATUS_DONE : Z := 0x02.

Definition MATRIX_SIZE : nat := 8.

(** The literal ['K'] both acknowledgement checks compare with. *)
Definition ACK : Z := 0x4B.

Record TPUStatus : Type := { busy : Z; done : Z }.

(** [float m[MATRIX_SIZE][MATRIX_SIZE]]. *)
Definition matrix : Type := Z -> Z -> Z.

Definition matrix_set (m : matrix) (i j v : Z) : matrix :=
  fun i' j' => if (i' =? i) && (j' =? j) then v else m i' j'.

(** [int serial_write(handle, data, len)] *)
Definition serial_write (w : world) (data : list Z) (len : Z) : Z * world :=
  let buf := firstn (Z.to_nat len) data in
  let r := write_ret (env w) (hist w) buf in
  (r, io_step (Tx buf r) w).

(** [int serial_read(handle, buffer, len)]: the count and the byte
    stored at [buffer[0]]. *)
Definition serial_read (w : world) (len : Z) : Z * Z * world :=
  let '(r, b) := read_ret (env w) (hist w) len in
  (r, u8 b, io_step (Rx r (u8 b)) w).

(** [int tpu_write_byte(tpu, addr, data)], lines 284-303. *)
Definition tpu_write_byte (w : world) (addr data : Z) : Z * world :=
  let cmd_buf :=
    [ (if addr <? 128 then CMD_WRITE_WEIGHT else CMD_WRITE_ACTIVATION);
      addr; data ] in
  let '(n, w) := serial_write w cmd_buf 3 in
  if negb (n =? 3) then (-1, w) else
  let '(n, ack, w) := serial_read w 1 in
  if negb (n =? 1) then (-1, w) else
  ((if ack =? ACK then 0 else -1), w).

(** [int tpu_read_byte(tpu, addr, data)], lines 308-323; [*data] is
    written only when a byte was read. *)
Definition tpu_read_byte (w : world) (addr : Z) : Z * option Z * world :=
  let cmd_buf := [CMD_READ_RESULT; addr] in
  let '(n, w) := serial_write w cmd_buf 2 in
  if negb (n =? 2) then (-1, None, w) else
  let '(n, data, w) := serial_read w 1 in
  if negb (n =? 1) then (-1, None, w) else
  (0, Some data, w).

(** [int tpu_write_fp16(tpu, addr, value)], lines 328-342. *)
Definition tpu_write_fp16 (w : world) (addr value : Z) : Z * world :=
  if negb (Z.rem addr 2 =? 0) then
    (-1, fprintf_stderr "Error: FP16 address must be even" w)
  else
    let fp16 := float_to_fp16 value in
    let low := u8 (Z.land fp16 0xFF) in
    let high := u8 (Z.land (Z.shiftr fp16 8) 0xFF) in
    let '(r, w) := tpu_write_byte w addr low in
    if negb (r =? 0) then (-1, w) else
    let '(r, w) := tpu_write_byte w (u8 (addr + 1)) high in
    if negb (r =? 0) then (-1, w) else
    (0, w).

(** [int tpu_read_fp16(tpu, addr, value)], lines 347-361. *)
Definition tpu_read_fp16 (w : world) (addr : Z) : Z * option Z * world :=
  if negb (Z.rem addr 2 =? 0) then
    (-1, None, fprintf_stderr "Error: FP16 address must be even" w)
  else
    match tpu_read_byte w addr with
    | (0, Some low, w) =>
        match tpu_read_byte w (u8 (addr + 1)) with
        | (0, Some high, w) =>
            let fp16 := u16 (Z.lor (Z.shiftl (u16 high) 8) low) in
            (0, Some (fp16_to_float fp16), w)
        | (_, _, w) => (-1, None, w)
        end
    | (_, _, w) => (-1, None, w)
    end.

(** [%d] of [fprintf]. *)
Definition fmt_d (z : Z) : string := NilZero.string_of_int (Z.to_int z).

(** [int tpu_write_weights(tpu, weights)], lines 366-382. *)
Definition tpu_write_weights (w : world) (weights : matrix) : Z * world :=
  let addr := WEIGHT_BASE in
  match
    for_range MATRIX_SIZE 0 (fun i s =>
      for_range MATRIX_SIZE 0 (fun j '(addr, w) =>
        let '(r, w) := tpu_write_fp16 w addr (weights i j) in
        if negb (r =? 0) then
          inr (-1, fprintf_stderr
                     ("Error writing weight[" ++ fmt_d i ++ "][" ++ fmt_d j ++ "]") w)
        else inl (u8 (addr + 2), w)) s) (addr, w)
  with
  | inl (_, w) => (0, w)
  | inr r => r
  end.

(** [int tpu_write_activations(tpu, activations)], lines 387-403. *)
Definition tpu_write_activations (w : world) (activations : matrix) : Z * world :=
  let addr := ACTIVATION_BASE in
  match
    for_range MATRIX_SIZE 0 (fun i s =>
      for_range MATRIX_SIZE 0 (fun j '(addr, w) =>
        let '(r, w) := tpu_write_fp16 w addr (activations i j) in
        if negb (r =? 0) then
          inr (-1, fprintf_stderr
                     ("Error writing activation[" ++ fmt_d i ++ "][" ++ fmt_d j ++ "]") w)
        else inl (u8 (addr + 2), w)) s) (addr, w)
  with
  | inl (_, w) => (0, w)
  | inr r => r
  end.

(** [int tpu_start(tpu)], lines 408-422. *)
Definition tpu_start (w : world) : Z * world :=
  let cmd := CMD_START in
  let '(n, w) := serial_write w [cmd] 1 in
  if negb (n =? 1) then (-1, w) else
  let '(n, ack, w) := serial_read w 1 in
  if negb (n =? 1) then (-1, w) else
  ((if ack =? ACK then 0 else -1), w).

(** [int tpu_get_status(tpu, status)], lines 427-443; [*status] is
    written only on success. *)
Definition tpu_get_status (w : world) : Z * option TPUStatus * world :=
  let cmd := CMD_STATUS in
  let '(n, w) := serial_write w [cmd] 1 in
  if negb (n =? 1) then (-1, None, w) else
  let '(n, status_byte, w) := serial_read w 1 in
  if negb (n =? 1) then (-1, None, w) else
  (0,
   Some {| busy := if truthy (Z.land status_byte STATUS_BUSY) then 1 else 0;
           done := if truthy (Z.land status_byte STATUS_DONE) then 1 else 0 |},
   w).

(** The [while (1)] of [tpu_wait_until_done], lines 452-469, run for at
    most [fuel] rounds; [None] when the rounds are used up.  [start] and
    [now] are readings of [clock()]. *)
Fixpoint tpu_wait_until_done_loop (fuel : nat) (start timeout_ms : Z) (w : world)
    : option (Z * world) :=
  match fuel with
  | O => None
  | Datatypes.S fuel' =>
      match tpu_get_status w with
      | (0, Some status, w) =>
          if truthy (done status) then Some (0, w)
          else
            let now := clock w in
            if Z.quot ((now - start) * 1000) (CLOCKS_PER_SEC (env w)) >? timeout_ms
            then Some (-1, fprintf_stderr "Error: Timeout waiting for TPU" w)
            else tpu_wait_until_done_loop fuel' start timeout_ms (usleep 10000 w)
      | (_, _, w) => Some (-1, w)
      end
  end.

(** [int tpu_wait_until_done(tpu, timeout_ms)], lines 448-470. *)
Definition tpu_wait_until_done (fuel : nat) (w : world) (timeout_ms : Z)
    : option (Z * world) :=
  let start := clock w in
  tpu_wait_until_done_loop fuel start timeout_ms w.

(** [int tpu_read_results(tpu, results)], lines 475-491. *)
Definition tpu_read_results (w : world) (results : matrix) : Z * matrix * world :=
  let addr := RESULT_BASE in
  match
    for_range MATRIX_SIZE 0 (fun i s =>
      for_range MATRIX_SIZE 0 (fun j '(addr, results, w) =>
        match tpu_read_fp16 w addr with
        | (0, Some value, w) => inl (u8 (addr + 2), matrix_set results i j value, w)
        | (_, _, w) =>
            inr (-1, results,
                 fprintf_stderr
                   ("Error reading result[" ++ fmt_d i ++ "][" ++ fmt_d j ++ "]") w)
        end) s) (addr, results, w)
  with
  | inl (_, results, w) => (0, results, w)
  | inr r => r
  end.

(** ** The C++ driver *)

Module Cpp.

Inductive exn : Type :=
| runtime_error (what : string)
| invalid_argument (what : string).

Inductive outcome (A : Type) : Type :=
| Returns (a : A)
| Throws (e : exn).
Arguments Returns {A} a.
Arguments Throws {A} e.

(** A member function: it runs in a world and either returns or throws. *)
Definition io (A : Type) : Type := world -> outcome A * world.

Definition ret {A : Type} (a : A) : io A := fun w => (Returns a, w).

Definition throw {A : Type} (e : exn) : io A := fun w => (Throws e, w).

Definition bind {A B : Type} (m : io A) (k : A -> io B) : io B :=
  fun w =>
    match m w with
    | (Returns a, w') => k a w'
    | (Throws e, w') => (Throws e, w')
    end.

Notation "x <- m ;; k" := (bind m (fun x => k))
  (at level 61, m at next level, right associativity).
Notation "' pat <- m ;; k" := (bind m (fun x => match x with pat => k end))
  (at level 61, pat pattern, m at next level, right associativity).

(** [enum class TPUCommand : uint8_t] and its [static_cast<uint8_t>]. *)
Inductive TPUCommand : Type :=
| WriteWeight | WriteActivation | Start | ReadResult | Status.

Definition code (c : TPUCommand) : Z :=
  match c with
  | WriteWeight => 0x57
  | WriteActivation => 0x41
  | Start => 0x53
  | ReadResult => 0x52
  | Status => 0x3F
  end.

Definition WEIGHT_BASE : Z := 0.
Definition ACTIVATION_BASE : Z := 128.
Definition RESULT_BASE : Z := 192.
Definition MATRIX_SIZE : nat := 8.

(** [struct TPUStatus], built from a status byte: each flag is the
    conversion to [bool] of the masked byte. *)
Record TPUStatus : Type := { busy : bool; done : bool }.

Definition TPUStatus_of_byte (status_byte : Z) : TPUStatus :=
  {| busy := truthy (Z.land status_byte 0x01);
     done := truthy (Z.land status_byte 0x02) |}.

Module FP16.

(** [static uint16_t fromFloat(float value)], tpu_driver.cpp lines 73-98. *)
Definition fromFloat (value : Z) : Z :=
  let f32 := value in
  let sign := Z.land (Z.shiftr f32 31) 0x1 in
  let exp32 := Z.land (Z.shiftr f32 23) 0xFF in
  let mant32 := Z.land f32 0x7FFFFF in
  if exp32 =? 0xFF then
    u16 (Z.lor (Z.lor (u32 (Z.shiftl sign 15)) 0x7C00)
               (if truthy mant32 then 0x200 else 0))
  else if exp32 =? 0 then
    u16 (u32 (Z.shiftl sign 15))
  else
    let exp16 := i32 (u32 (u32 (exp32 - 127) + 15)) in
    if exp16 <=? 0 then u16 (u32 (Z.shiftl sign 15))
    else if exp16 >=? 31 then u16 (Z.lor (u32 (Z.shiftl sign 15)) 0x7C00)
    else
      let mant16 := u16 (Z.shiftr mant32 13) in
      u16 (Z.lor (Z.lor (u32 (Z.shiftl sign 15)) (u32 (Z.shiftl exp16 10)))
                 mant16).

(** [static float toFloat(uint16_t fp16)], tpu_driver.cpp lines 100-120. *)
Definition toFloat (fp16 : Z) : Z :=
  let sign := Z.land (Z.shiftr fp16 15) 0x1 in
  let exp16 := Z.land (Z.shiftr fp16 10) 0x1F in
  let mant16 := Z.land fp16 0x3FF in
  if exp16 =? 0x1F then
    Z.lor (Z.lor (u32 (Z.shiftl sign 31)) 0x7F800000) (u32 (Z.shiftl mant16 13))
  else if exp16 =? 0 then
    u32 (Z.shiftl sign 31)
  else
    let exp32 := u32 (u32 (exp16 - 15) + 127) in
    let mant32 := u32 (Z.shiftl mant16 13) in
    Z.lor (Z.lor (u32 (Z.shiftl sign 31)) (u32 (Z.shiftl exp32 23))) mant32.

End FP16.

Module SerialPort.

(** [size_t write(const uint8_t* data, size_t len)], lines 210-224. *)
Definition write (data : list Z) (len : Z) : io Z :=
  fun w =>
    let buf := firstn (Z.to_nat len) data in
    let n := write_ret (env w) (hist w) buf in
    let w := io_step (Tx buf n) w in
    if n <? 0 then (Throws (runtime_error "Write failed"), w)
    else (Returns n, w).

(** [size_t read(uint8_t* buffer, size_t len)], lines 226-240: the
    count and the byte stored at [buffer[0]]. *)
Definition read (len : Z) : io (Z * Z) :=
  fun w =>
    let '(n, b) := read_ret (env w) (hist w) len in
    let w := io_step (Rx n (u8 b)) w in
    if n <? 0 then (Throws (runtime_error "Read failed"), w)
    else (Returns (n, u8 b), w).

End SerialPort.

Module TPUDriver.

Definition sleep_for_ms (ms : Z) : io unit :=
  fun w => (Returns tt, usleep (1000 * ms) w).

(** [void writeByte(uint8_t addr, uint8_t data)], lines 278-290. *)
Definition writeByte (addr data : Z) : io unit :=
  let cmd := if addr <? 128 then code WriteWeight else code WriteActivation in
  let buffer := [cmd; addr; data] in
  _ <- SerialPort.write buffer 3 ;;
  '(n, ack) <- SerialPort.read 1 ;;
  if negb (n =? 1) || negb (ack =? 0x4B)
  then throw (runtime_error "Failed to receive ACK")
  else ret tt.

(** [uint8_t readByte(uint8_t addr)], lines 295-305. *)
Definition readByte (addr : Z) : io Z :=
  let cmd := code ReadResult in
  let buffer := [cmd; addr] in
  _ <- SerialPort.write buffer 2 ;;
  '(n, data) <- SerialPort.read 1 ;;
  if negb (n =? 1) then throw (runtime_error "Failed to read data")
  else ret data.

(** [void writeFP16(uint8_t addr, float value)], lines 310-318. *)
Definition writeFP16 (addr value : Z) : io unit :=
  if negb (Z.rem addr 2 =? 0)
  then throw (invalid_argument "FP16 address must be even")
  else
    let fp16 := FP16.fromFloat value in
    _ <- writeByte addr (u8 (Z.land fp16 0xFF)) ;;
    writeByte (u8 (addr + 1)) (u8 (Z.land (Z.shiftr fp16 8) 0xFF)).

(** [float readFP16(uint8_t addr)], lines 323-332. *)
Definition readFP16 (addr : Z) : io Z :=
  if negb (Z.rem addr 2 =? 0)
  then throw (invalid_argument "FP16 address must be even")
  else
    low <- readByte addr ;;
    high <- readByte (u8 (addr + 1)) ;;
    let fp16 := u16 (Z.lor (Z.shiftl (u16 high) 8) low) in
    ret (FP16.toFloat fp16).

(** [for (size_t i = i0; ...; i++) body], run for [n] rounds; an
    exception thrown by the body leaves the loop. *)
Fixpoint for_range_io {S : Type} (n : nat) (i : Z)
    (body : Z -> S -> io S) (s : S) : io S :=
  match n with
  | O => ret s
  | Datatypes.S n' => s' <- body i s ;; for_range_io n' (i + 1) body s'
  end.

(** [void writeWeights(const Matrix& weights)], lines 337-349. *)
Definition writeWeights (weights : matrix) : io unit :=
  let addr := WEIGHT_BASE in
  _ <- for_range_io MATRIX_SIZE 0 (fun i addr =>
         for_range_io MATRIX_SIZE 0 (fun j addr =>
           _ <- writeFP16 addr (weights i j) ;;
           ret (u8 (addr + 2))) addr) addr ;;
  ret tt.

(** [void writeActivations(const Matrix& activations)], lines 354-366. *)
Definition writeActivations (activations : matrix) : io unit :=
  let addr := ACTIVATION_BASE in
  _ <- for_range_io MATRIX_SIZE 0 (fun i addr =>
         for_range_io MATRIX_SIZE 0 (fun j addr =>
           _ <- writeFP16 addr (activations i j) ;;
           ret (u8 (addr + 2))) addr) addr ;;
  ret tt.

(** [void start()], lines 371-380. *)
Definition start : io unit :=
  let cmd := code Start in
  _ <- SerialPort.write [cmd] 1 ;;
  '(n, ack) <- SerialPort.read 1 ;;
  if negb (n =? 1) || negb (ack =? 0x4B)
  then throw (runtime_error "Failed to start TPU")
  else ret tt.

(** [TPUStatus getStatus()], lines 385-395. *)
Definition getStatus : io TPUStatus :=
  let cmd := code Status in
  _ <- SerialPort.write [cmd] 1 ;;
  '(n, status_byte) <- SerialPort.read 1 ;;
  if negb (n =? 1) then throw (runtime_error "Failed to read status")
  else ret (TPUStatus_of_byte status_byte).

(** The [while (true)] of [waitUntilDone], lines 403-417, run for at
    most [fuel] rounds; [None] when the rounds are used up.  [start_time]
    and [now] are readings of [steady_clock]; [elapsed] is their
    difference cast to whole milliseconds. *)
Fixpoint waitUntilDone_loop (fuel : nat) (start_time timeout_ms : Z) (w : world)
    : option (outcome unit * world) :=
  match fuel with
  | O => None
  | Datatypes.S fuel' =>
      match getStatus w with
      | (Returns status, w) =>
          if done status then Some (Returns tt, w)
          else
            let now := steady_clock_now w in
            let elapsed := Z.quot (now - start_time) 1000 in
            if elapsed >? timeout_ms
            then Some (Throws (runtime_error "Timeout waiting for TPU"), w)
            else
              match sleep_for_ms 10 w with
              | (Returns _, w) => waitUntilDone_loop fuel' start_time timeout_ms w
              | (Throws e, w) => Some (Throws e, w)
              end
      | (Throws e, w) => Some (Throws e, w)
      end
  end.

(** [void waitUntilDone(int timeout_ms = 10000)], lines 400-418. *)
Definition waitUntilDone (fuel : nat) (timeout_ms : Z) (w : world)
    : option (outcome unit * world) :=
  let start_time := steady_clock_now w in
  waitUntilDone_loop fuel start_time timeout_ms w.

(** The content of [Matrix results;] before the loops assign it; every
    entry is assigned before [readResults] returns. *)
Definition unassigned : matrix := fun _ _ => 0.

(** [Matrix readResults()], lines 423-437. *)
Definition readResults : io matrix :=
  let results := unassigned in
  let addr := RESULT_BASE in
  '(_, results) <- for_range_io MATRIX_SIZE 0 (fun i s =>
         for_range_io MATRIX_SIZE 0 (fun j '(addr, results) =>
           value <- readFP16 addr ;;
           ret (u8 (addr + 2), matrix_set results i j value)) s) (addr, results) ;;
  ret results.

(** [Matrix matrixMultiply(const Matrix& weights, const Matrix& activations)],
    lines 442-448: the two transfers, the start command, the wait and
    the read, in this order; an exception of any step leaves the
    function.  [waitUntilDone()] takes its default timeout, 10000 ms;
    [fuel] bounds the rounds of its loop. *)
Definition matrixMultiply (fuel : nat) (weights activations : matrix) (w : world)
    : option (outcome matrix * world) :=
  match (_ <- writeWeights weights ;;
         _ <- writeActivations activations ;;
         start) w with
  | (Throws e, w) => Some (Throws e, w)
  | (Returns _, w) =>
      match waitUntilDone fuel 10000 w with
      | None => None
      | Some (Throws e, w) => Some (Throws e, w)
      | Some (Returns _, w) => Some (readResults w)
      end
  end.

End TPUDriver.

End Cpp.

(** ** What the bit patterns denote *)

Definition f32_sign (x : Z) : Z := Z.land (Z.shiftr x 31) 0x1.
Definition f32_exp (x : Z) : Z := Z.land (Z.shiftr x 23) 0xFF.
Definition f32_mant (x : Z) : Z := Z.land x 0x7FFFFF.

Definition fp16_sign (h : Z) : Z := Z.land (Z.shiftr h 15) 0x1.
Definition fp16_exp (h : Z) : Z := Z.land (Z.shiftr h 10) 0x1F.
Definition fp16_mant (h : Z) : Z := Z.land h 0x3FF.

(** A binary32 pattern is finite when its exponent field is not all
    ones, normal when the field is neither zero nor all ones. *)
Definition f32_finite (x : Z) : Prop := f32_exp x <> 255.
Definition f32_normal (x : Z) : Prop := 0 < f32_exp x < 255.
Definition fp16_finite (h : Z) : Prop := fp16_exp h <> 31.
Definition fp16_normal (h : Z) : Prop := 0 < fp16_exp h < 31.

(** The magnitude of a finite binary32 pattern, in units of 2^-149:
    (2^23 + m) * 2^(e - 150) when normal, m * 2^-149 when subnormal. *)
Definition f32_units (x : Z) : Z :=
  if f32_exp x =? 0 then f32_mant x
  else (2 ^ 23 + f32_mant x) * 2 ^ (f32_exp x - 1).

(** The magnitude of a finite binary16 pattern, in units of 2^-24:
    (2^10 + m) * 2^(e - 25) when normal, m * 2^-24 when subnormal. *)
Definition fp16_units (h : Z) : Z :=
  if fp16_exp h =? 0 then fp16_mant h
  else (2 ^ 10 + fp16_mant h) * 2 ^ (fp16_exp h - 1).

Definition signed (sign units : Z) : Z := if sign =? 0 then units else - units.

(** The rational a finite pattern stands for. *)
Definition f32_value (x : Z) : Q := signed (f32_sign x) (f32_units x) # 2 ^ 149.
Definition f32_abs (x : Z) : Q := f32_units x # 2 ^ 149.
Definition fp16_value (h : Z) : Q := signed (fp16_sign h) (fp16_units h) # 2 ^ 24.

(** The bounds of binary16: smallest normal 2^-14, largest finite 65504. *)
Definition half_min_normal : Q := 1 # 2 ^ 14.
Definition half_max : Q := 65504 # 1.

(** One unit in the last place of the 10-bit mantissa of the binary16
    binade that holds a normal binary32 [x]: 2^(e - 127 - 10). *)
Definition half_ulp (x : Z) : Q := 2 ^ (f32_exp x + 12) # 2 ^ 149.

(** A binary32 pattern whose value some finite binary16 pattern has. *)
Definition half_representable (x : Z) : Prop :=
  exists h : Z, 0 <= h < 2 ^ 16 /\ fp16_finite h /\ f32_value x == fp16_value h.

(** ** Peers and platforms *)

(** Every [write] takes the whole buffer. *)
Definition writes_accepted (p : platform) : Prop :=
  forall h buf, write_ret p h buf = Z.of_nat (List.length buf).

(** Every [read] delivers exactly one byte. *)
Definition reads_deliver (p : platform) : Prop :=
  forall h len, fst (read_ret p h len) = 1.

(** No call on the serial line fails or comes back short. *)
Definition no_io_error (p : platform) : Prop :=
  writes_accepted p /\ reads_deliver p.

(** The device never raises the done bit of its status byte. *)
Definition never_done (p : platform) : Prop :=
  forall h len, Z.land (u8 (snd (read_ret p h len))) 0x02 = 0.

(** A serial call takes between 0 and [L] microseconds of wall time. *)
Definition io_within (L : Z) (p : platform) : Prop :=
  forall h, 0 <= io_wall_us p h <= L.

(** A peer that answers every request with the byte [b]; each serial
    call takes [wall] microseconds and [cpu] ticks of processor time, at
    the POSIX rate of a million ticks per second. *)
Definition answering (b wall cpu : Z) : platform :=
  {| write_ret := fun _ buf => Z.of_nat (List.length buf);
     read_ret := fun _ _ => (1, b);
     io_wall_us := fun _ => wall;
     io_cpu_ticks := fun _ => cpu;
     CLOCKS_PER_SEC := 1000000 |}.

(** A peer that answers nothing: every [read] times out with no byte. *)
Definition silent : platform :=
  {| write_ret := fun _ buf => Z.of_nat (List.length buf);
     read_ret := fun _ _ => (0, 0);
     io_wall_us := fun _ => 1000000;
     io_cpu_ticks := fun _ => 50;
     CLOCKS_PER_SEC := 1000000 |}.

(** The world right after the port was opened. *)
Definition boot (p : platform) : world :=
  {| env := p; hist := []; wall_us := 0; cpu_ticks := 0; stderr := [] |}.

Definition zeros : matrix := fun _ _ => 0.

(** Address byte of a request frame. *)
Definition frame_addr (f : list Z) : Z := nth 1 f 0.

(** Command byte of a request frame. *)
Definition frame_cmd (f : list Z) : Z := nth 0 f 0.

(** The address the [k]-th 16-bit access of a transfer starting at
    [base] is meant for, before any reduction to [uint8_t]. *)
Definition element_addr (base : Z) (k : nat) : Z := base + 2 * Z.of_nat k.

(** ** Exchanges on the line *)

(** What [write] answers when [frame] is written from the world [w]. *)
Definition write_count (w : world) (frame : list Z) : Z :=
  write_ret (env w) (hist w) frame.

(** The count and the byte the following one-byte [read] then yields. *)
Definition reply_to (w : world) (frame : list Z) : Z * Z :=
  let '(n, b) :=
    read_ret (env w) (hist w ++ [Tx frame (write_count w frame)]) 1 in
  (n, u8 b).

(** The command byte both drivers put in front of a byte written at
    [addr]. *)
Definition write_cmd (addr : Z) : Z :=
  if addr <? 128 then CMD_WRITE_WEIGHT else CMD_WRITE_ACTIVATION.

(** A reply that is not the single byte ['K']. *)
Definition bad_ack (r : Z * Z) : Prop := fst r <> 1 \/ snd r <> ACK.

(** The value both drivers build from the two bytes of a 16-bit read,
    low byte first. *)
Definition decode_half (lo hi : Z) : Z :=
  fp16_to_float (u16 (Z.lor (Z.shiftl (u16 hi) 8) lo)).

(** The calls on the line when the 16-bit values at [addrs] are read one
    after the other and the device answers with the byte pairs [bs]. *)
Fixpoint read_log (addrs : list Z) (bs : list (Z * Z)) : list event :=
  match addrs, bs with
  | a :: addrs', (lo, hi) :: bs' =>
      Tx [CMD_READ_RESULT; a] 2 :: Rx 1 lo
      :: Tx [CMD_READ_RESULT; a + 1] 2 :: Rx 1 hi :: read_log addrs' bs'
  | _, _ => []
  end.

(** The first [n] addresses of a transfer that starts at [base], as the
    running [uint8_t] address takes them. *)
Definition stepped_addrs (base : Z) (n : nat) : list Z :=
  map (fun k => u8 (element_addr base k)) (seq 0 n).

(** Where [tpu_read_results] and [readResults] stand after [k] elements,
    having started in [w0]: the running address, the calls made, and the
    elements stored so far, in row-major order. *)
Definition read_inv (w0 : world) (k : nat) (s : Z * matrix * world) : Prop :=
  let '(addr, results, w) := s in
  addr = u8 (element_addr RESULT_BASE k) /\
  env w = env w0 /\ stderr w = stderr w0 /\
  exists bs : list (Z * Z),
    List.length bs = k /\
    hist w = hist w0 ++ read_log (stepped_addrs RESULT_BASE k) bs /\
    forall n, (n < k)%nat ->
      results (Z.of_nat (n / 8)) (Z.of_nat (n mod 8))
      = decode_half (fst (nth n bs (0, 0))) (snd (nth n bs (0, 0))).

(** A complete read of the result matrix, from [w] to [w']: 64 16-bit
    reads, one per element in row-major order, each at an even address
    and its successor; the first 32 are at 192, 194, ..., 254. *)
Definition reads_matrix (w w' : world) (results' : matrix) : Prop :=
  exists (addrs : list Z) (bs : list (Z * Z)),
    List.length addrs = 64%nat /\ List.length bs = 64%nat /\
    hist w' = hist w ++ read_log addrs bs /\
    stderr w' = stderr w /\
    Forall (fun a => 0 <= a < 256 /\ Z.even a = true) addrs /\
    firstn 32 addrs = map (fun k => RESULT_BASE + 2 * Z.of_nat k) (seq 0 32) /\
    forall i j : nat, (i < 8)%nat -> (j < 8)%nat ->
      results' (Z.of_nat i) (Z.of_nat j)
      = decode_half (fst (nth (8 * i + j) bs (0, 0)))
                    (snd (nth (8 * i + j) bs (0, 0))).

(** ** The conversions of the test suite

    [tests/drivers/test_driver_c.c] does not call the driver's codec: it
    carries two conversions of its own, lines 48-75. *)

(** The macro [INFINITY] of <math.h>, as a binary32 pattern. *)
Definition INFINITY : Z := 0x7F800000.

(** [uint16_t fp32_to_fp16_test(float value)], lines 48-60.  The
    comparison [value == 0.0f] holds for the two zeros and for no other
    pattern. *)
Definition fp32_to_fp16_test (value : Z) : Z :=
  if Z.land value 0x7FFFFFFF =? 0 then 0 else
  let bits := value in
  let sign := u16 (Z.land (Z.shiftr bits 16) 0x8000) in
  let exponent := i32 (u32 (u32 (Z.land (Z.shiftr bits 23) 0xFF - 127) + 15)) in
  let mantissa := Z.land (Z.shiftr bits 13) 0x3FF in
  if exponent <=? 0 then sign
  else if exponent >=? 31 then u16 (Z.lor sign 0x7C00)
  else u16 (Z.lor (u32 (Z.lor sign (Z.shiftl exponent 10))) mantissa).

(** [float fp16_to_fp32_test(uint16_t value)], lines 62-75.  [0.0f] is
    the pattern 0.  The shift of [value & 0x8000] by 16 is taken modulo
    2^32, which is what the conversion to [uint32_t] leaves of it. *)
Definition fp16_to_fp32_test (value : Z) : Z :=
  if value =? 0 then 0 else
  let sign := u32 (Z.shiftl (Z.land value 0x8000) 16) in
  let exponent := Z.land (Z.shiftr value 10) 0x1F in
  let mantissa := Z.land value 0x3FF in
  if exponent =? 0 then 0
  else if exponent =? 31 then INFINITY
  else
    let exponent := exponent - 15 + 127 in
    let bits := Z.lor (Z.lor sign (u32 (Z.shiftl exponent 23)))
                      (u32 (Z.shiftl mantissa 13)) in
    bits.

(** ** Further vocabulary *)

(** Magnitude of a finite binary16. *)
Definition fp16_abs (h : Z) : Q := fp16_units h # 2 ^ 24.

(** The two frames of a 16-bit write of the half [h] at [addr]: low byte
    first, then the high byte at the next address. *)
Definition half_frames (cmd addr h : Z) : list (list Z) :=
  [ [cmd; addr; u8 (Z.land h 0xFF)];
    [cmd; addr + 1; u8 (Z.land (Z.shiftr h 8) 0xFF)] ].

(** Element [k] of a matrix in row-major order. *)
Definition element (m : matrix) (k : nat) : Z :=
  m (Z.of_nat (k / 8)) (Z.of_nat (k mod 8)).

(** The frames that carry the first [n] elements of [m] to the region
    that starts at [base]. *)
Definition matrix_frames (cmd base : Z) (m : matrix) (n : nat) : list (list Z) :=
  flat_map (fun k => half_frames cmd (element_addr base k)
                       (float_to_fp16 (element m k)))
           (seq 0 n).

(** The two frames of each 16-bit read at [addrs]. *)
Definition read_frames (addrs : list Z) : list (list Z) :=
  flat_map (fun a => [[CMD_READ_RESULT; a]; [CMD_READ_RESULT; a + 1]]) addrs.

(** A three-byte frame with command [cmd] and an address in the 128
    bytes from [base]. *)
Definition region_frame (cmd base : Z) (f : list Z) : Prop :=
  frame_cmd f = cmd /\ List.length f = 3%nat /\ base <= frame_addr f < base + 128.

(** Everything [matrixMultiply] sends when all goes well and the device
    is polled [n] times. *)
Definition full_run (weights activations : matrix) (n : nat) : list (list Z) :=
  matrix_frames CMD_WRITE_WEIGHT WEIGHT_BASE weights 64
  ++ matrix_frames CMD_WRITE_ACTIVATION ACTIVATION_BASE activations 64
  ++ [[CMD_START]] ++ repeat [CMD_STATUS] n
  ++ read_frames (stepped_addrs RESULT_BASE 64).

(** *** Devices *)

(** The byte a device that keeps what it is sent holds at [a] after the
    calls [h]: the data byte of the last three-byte frame addressed to
    [a], and 0 when there is none. *)
Definition stored (h : list event) (a : Z) : Z :=
  fold_left (fun v ev =>
               match ev with
               | Tx [_; a'; d] _ => if a' =? a then d else v
               | _ => v
               end) h 0.

(** No call fails, and every write frame and every start command is
    answered with ['K']. *)
Definition acknowledges (p : platform) : Prop :=
  no_io_error p /\
  (forall h c a d n len, snd (read_ret p (h ++ [Tx [c; a; d] n]) len) = ACK) /\
  (forall h n len, snd (read_ret p (h ++ [Tx [CMD_START] n]) len) = ACK).

(** A read request at [a] is answered with the byte last written to [a]. *)
Definition remembers (p : platform) : Prop :=
  forall h a n len,
    snd (read_ret p (h ++ [Tx [CMD_READ_RESULT; a] n]) len) = stored h a.

(** Every status request is answered with the done bit set. *)
Definition reports_done (p : platform) : Prop :=
  forall h n len,
    Z.testbit (u8 (snd (read_ret p (h ++ [Tx [CMD_STATUS] n]) len))) 1 = true.

(** A device that is a plain byte memory: it acknowledges, answers a
    read with what was written, and is always done. *)
Definition memory_device : platform :=
  {| write_ret := fun _ buf => Z.of_nat (List.length buf);
     read_ret := fun h _ =>
       match last h (Rx 0 0) with
       | Tx [c; a] _ => if c =? CMD_READ_RESULT then (1, stored h a) else (1, ACK)
       | Tx [c] _ => if c =? CMD_STATUS then (1, STATUS_DONE) else (1, ACK)
       | _ => (1, ACK)
       end;
     io_wall_us := fun _ => 100;
     io_cpu_ticks := fun _ => 50;
     CLOCKS_PER_SEC := 1000000 |}.

(** [write] never takes part of a buffer: it fails or takes it whole. *)
Definition whole_writes (p : platform) : Prop :=
  forall h buf, write_ret p h buf < 0 \/ write_ret p h buf = Z.of_nat (List.length buf).

(** *** Where a transfer stands *)

(** Somewhere on the platform of [w0] a write exchange was not carried
    out in full: the C driver wants the three bytes taken and the single
    byte ['K'] back. *)
Definition refused (w0 : world) : Prop :=
  exists wn c a d, env wn = env w0 /\
    (write_count wn [c; a; d] <> 3 \/ reply_to wn [c; a; d] <> (1, ACK)).

(** The same for the C++ driver, which accepts any count [write]
    returns unless it is negative. *)
Definition refused_cpp (w0 : world) : Prop :=
  exists wn c a d, env wn = env w0 /\
    (write_count wn [c; a; d] < 0 \/ reply_to wn [c; a; d] <> (1, ACK)).

(** Where a matrix write stands after [k] elements, having started in
    [w0]. *)
Definition write_inv (base : Z) (m : matrix) (w0 : world) (k : nat)
    (s : Z * world) : Prop :=
  let '(addr, w) := s in
  addr = u8 (element_addr base k) /\ env w = env w0 /\ stderr w = stderr w0 /\
  sent w = sent w0 ++ matrix_frames (write_cmd base) base m k.

(** A matrix write that stopped in element [k]: the frames of the [k]
    elements before it went out, then the first or both frames of
    element [k], and nothing after. *)
Definition write_cut (cmd base : Z) (m : matrix) (w0 w : world) (k : nat) : Prop :=
  (k < 64)%nat /\ env w = env w0 /\
  exists n, (1 <= n <= 2)%nat /\
    sent w = sent w0 ++ matrix_frames cmd base m k
             ++ firstn n (half_frames cmd (element_addr base k)
                            (float_to_fp16 (element m k))).

(** How the C matrix writes leave their loops early. *)
Definition write_exit (base : Z) (msg : Z -> Z -> string) (m : matrix)
    (w0 : world) (r : Z * world) : Prop :=
  let '(code, w) := r in
  code = -1 /\ refused w0 /\
  exists k, write_cut (write_cmd base) base m w0 w k /\
    stderr w = stderr w0 ++ [msg (Z.of_nat (k / 8)) (Z.of_nat (k mod 8))].

(** A read of the results that stopped in element [k]. *)
Definition read_cut (w0 w : world) (k : nat) : Prop :=
  (k < 64)%nat /\ env w = env w0 /\
  exists n, (1 <= n <= 2)%nat /\
    sent w = sent w0 ++ read_frames (stepped_addrs RESULT_BASE k)
             ++ firstn n (read_frames [u8 (element_addr RESULT_BASE k)]).

(** From element [k] on, [results] is what [results0] was. *)
Definition kept (results0 results : matrix) (k : nat) : Prop :=
  forall n, (k <= n < 64)%nat ->
    results (Z.of_nat (n / 8)) (Z.of_nat (n mod 8))
    = results0 (Z.of_nat (n / 8)) (Z.of_nat (n mod 8)).

(** The first elements of [results] are the byte pairs [bs], decoded. *)
Definition decoded (results : matrix) (bs : list (Z * Z)) : Prop :=
  forall n, (n < List.length bs)%nat ->
    results (Z.of_nat (n / 8)) (Z.of_nat (n mod 8))
    = decode_half (fst (nth n bs (0, 0))) (snd (nth n bs (0, 0))).

Definition read_part (w0 : world) (results0 : matrix) (k : nat)
    (s : Z * matrix * world) : Prop :=
  read_inv w0 k s /\ kept results0 (snd (fst s)) k.

(** How [tpu_read_results] leaves its loops early. *)
Definition read_exit (w0 : world) (results0 : matrix) (r : Z * matrix * world) : Prop :=
  let '(code, results, w) := r in
  code = -1 /\
  exists (k : nat) (bs : list (Z * Z)),
    read_cut w0 w k /\ List.length bs = k /\
    decoded results bs /\ kept results0 results k /\
    stderr w = stderr w0 ++
      [("Error reading result[" ++ fmt_d (Z.of_nat (k / 8)) ++ "]["
        ++ fmt_d (Z.of_nat (k mod 8)) ++ "]")%string].

(** Where [readResults] stands after [k] elements on any device. *)
Definition read_progress (w0 : world) (k : nat) (s : Z * matrix) (w : world) : Prop :=
  fst s = u8 (element_addr RESULT_BASE k) /\ env w = env w0 /\
  stderr w = stderr w0 /\
  sent w = sent w0 ++ read_frames (stepped_addrs RESULT_BASE k).

Example float_to_fp16_one : float_to_fp16 0x3F800000 = 0x3C00.
Proof. reflexivity. Qed.

Example fp16_to_float_one : fp16_to_float 0x3C00 = 0x3F800000.
Proof. reflexivity. Qed.

Example float_to_fp16_neg_zero : float_to_fp16 0x80000000 = 0x8000.
Proof. reflexivity. Qed.

Example f32_value_one : f32_value 0x3F800000 == 1.
Proof. reflexivity. Qed.

Example f32_value_minus_three_halves : f32_value 0xBFC00000 == - (3 # 2).
Proof. reflexivity. Qed.

Example fp16_value_max : fp16_value 0x7BFF == half_max.
Proof. reflexivity. Qed.

Example fp16_value_min_normal : fp16_value 0x0400 == half_min_normal.
Proof. reflexivity. Qed.

Example half_ulp_one : half_ulp 0x3F800000 == 1 # 1024.
Proof. reflexivity. Qed.

(** ** The half-precision codec *)

(** *** Bit fields as arithmetic *)

(** A bitwise or of two values that share no set bit is their sum. *)
Lemma land_disjoint (a b n : Z) :
  0 <= n -> a mod 2 ^ n = 0 -> 0 <= b < 2 ^ n -> Z.land a b = 0.
Proof.
  intros Hn Ha Hb. apply Z.bits_inj'. intros i Hi.
  rewrite Z.land_spec, Z.bits_0.
  destruct (Z.lt_ge_cases i n) as [Hlt | Hge].
  - rewrite <- (Z.mod_pow2_bits_low a n i) by lia. rewrite Ha, Z.bits_0. reflexivity.
  - rewrite <- (Z.mod_small b (2 ^ n)) by lia.
    rewrite Z.mod_pow2_bits_high by lia. apply andb_false_r.
Qed.

Lemma lor_disjoint (a b n : Z) :
  0 <= n -> a mod 2 ^ n = 0 -> 0 <= b < 2 ^ n -> Z.lor a b = a + b.
Proof.
  intros Hn Ha Hb. pose proof (land_disjoint a b n Hn Ha Hb) as H.
  rewrite <- Z.lxor_lor by exact H. symmetry. apply Z.add_nocarry_lxor. exact H.
Qed.

Lemma land_1 (a : Z) : Z.land a 0x1 = a mod 2.
Proof. exact (Z.land_ones a 1 ltac:(lia)). Qed.
Lemma land_1F (a : Z) : Z.land a 0x1F = a mod 32.
Proof. exact (Z.land_ones a 5 ltac:(lia)). Qed.
Lemma land_FF (a : Z) : Z.land a 0xFF = a mod 256.
Proof. exact (Z.land_ones a 8 ltac:(lia)). Qed.
Lemma land_3FF (a : Z) : Z.land a 0x3FF = a mod 1024.
Proof. exact (Z.land_ones a 10 ltac:(lia)). Qed.
Lemma land_7FFFFF (a : Z) : Z.land a 0x7FFFFF = a mod 8388608.
Proof. exact (Z.land_ones a 23 ltac:(lia)). Qed.

(** A 32-bit pattern is the sum of its three fields. *)
Lemma f32_fields (x : Z) :
  0 <= x < 2 ^ 32 ->
  0 <= f32_sign x <= 1 /\ 0 <= f32_exp x < 256 /\ 0 <= f32_mant x < 2 ^ 23 /\
  x = f32_sign x * 2 ^ 31 + f32_exp x * 2 ^ 23 + f32_mant x.
Proof.
  intros Hx. unfold f32_sign, f32_exp, f32_mant.
  rewrite land_1, land_FF, land_7FFFFF, !Z.shiftr_div_pow2 by lia.
  change (2^32) with 4294967296 in *. change (2 ^ 31) with 2147483648.
  change (2 ^ 23) with 8388608.
  Z.div_mod_to_equations. lia.
Qed.

(** The two exponent conversions, through their unsigned wrap-around. *)
Lemma rebias_down (e : Z) :
  0 <= e < 256 -> i32 (u32 (u32 (e - 127) + 15)) = e - 112.
Proof.
  intros He. unfold i32, u32. change (2 ^ 32) with 4294967296.
  change (2 ^ 31) with 2147483648.
  destruct (Z.ltb_spec
              ((((e - 127) mod 4294967296 + 15) mod 4294967296) mod 4294967296)
              2147483648);
    Z.div_mod_to_equations; lia.
Qed.

Lemma rebias_up (e : Z) :
  0 <= e < 32 -> u32 (u32 (e - 15) + 127) = e + 112.
Proof.
  intros He. unfold u32. change (2 ^ 32) with 4294967296.
  Z.div_mod_to_equations; lia.
Qed.

Lemma sign_shift16 (s : Z) : 0 <= s <= 1 -> u32 (Z.shiftl s 15) = s * 32768.
Proof.
  intros Hs. unfold u32. rewrite Z.shiftl_mul_pow2 by lia.
  change (2 ^ 15) with 32768. apply Z.mod_small. change (2^32) with 4294967296. lia.
Qed.

Lemma sign_shift32 (s : Z) : 0 <= s <= 1 -> u32 (Z.shiftl s 31) = s * 2147483648.
Proof.
  intros Hs. unfold u32. rewrite Z.shiftl_mul_pow2 by lia.
  change (2 ^ 31) with 2147483648. apply Z.mod_small. change (2^32) with 4294967296. lia.
Qed.

(** *** The encoder, case by case *)

Lemma float_to_fp16_fold (x : Z) :
  float_to_fp16 x =
  let sign := f32_sign x in
  let exp32 := f32_exp x in
  let mant32 := f32_mant x in
  if exp32 =? 0xFF then
    u16 (Z.lor (Z.lor (u32 (Z.shiftl sign 15)) 0x7C00)
               (if truthy mant32 then 0x200 else 0))
  else if exp32 =? 0 then
    u16 (u32 (Z.shiftl sign 15))
  else
    let exp16 := i32 (u32 (u32 (exp32 - 127) + 15)) in
    if exp16 <=? 0 then u16 (u32 (Z.shiftl sign 15))
    else if exp16 >=? 31 then u16 (Z.lor (u32 (Z.shiftl sign 15)) 0x7C00)
    else
      let mant16 := u16 (Z.shiftr mant32 13) in
      u16 (Z.lor (Z.lor (u32 (Z.shiftl sign 15)) (u32 (Z.shiftl exp16 10)))
                 mant16).
Proof. reflexivity. Qed.

Lemma float_to_fp16_in_range (x : Z) :
  0 <= x < 2 ^ 32 -> 113 <= f32_exp x <= 142 ->
  float_to_fp16 x =
  f32_sign x * 2 ^ 15 + (f32_exp x - 112) * 2 ^ 10 + f32_mant x / 2 ^ 13.
Proof.
  intros Hx He. destruct (f32_fields x Hx) as (Hs & _ & Hm & _).
  rewrite float_to_fp16_fold. cbv zeta.
  rewrite rebias_down by lia.
  destruct (Z.eqb_spec (f32_exp x) 0xFF); [lia|].
  destruct (Z.eqb_spec (f32_exp x) 0); [lia|].
  destruct (Z.leb_spec (f32_exp x - 112) 0); [lia|].
  destruct (Z.geb_spec (f32_exp x - 112) 31); [lia|].
  rewrite sign_shift16 by lia.
  set (s := f32_sign x) in *. set (e := f32_exp x) in *. set (m := f32_mant x) in *.
  unfold u16, u32. rewrite Z.shiftl_mul_pow2, Z.shiftr_div_pow2 by lia.
  change (2 ^ 32) with 4294967296. change (2 ^ 16) with 65536.
  change (2 ^ 15) with 32768. change (2 ^ 13) with 8192. change (2 ^ 10) with 1024.
  change (2 ^ 23) with 8388608 in Hm.
  assert (Hq : 0 <= m / 8192 < 1024) by (Z.div_mod_to_equations; lia).
  rewrite (Z.mod_small (m / 8192)) by lia.
  rewrite (Z.mod_small ((e - 112) * 1024)) by lia.
  rewrite (lor_disjoint (s * 32768) ((e - 112) * 1024) 15);
    [ | lia | change (2 ^ 15) with 32768; Z.div_mod_to_equations; lia
      | change (2 ^ 15) with 32768; lia ].
  rewrite (lor_disjoint (s * 32768 + (e - 112) * 1024) (m / 8192) 10);
    [ | lia | change (2 ^ 10) with 1024; Z.div_mod_to_equations; lia
      | change (2 ^ 10) with 1024; lia ].
  apply Z.mod_small. lia.
Qed.

(** *** The decoder *)

Lemma fp16_fields_of (s e m : Z) :
  0 <= s <= 1 -> 0 <= e < 32 -> 0 <= m < 1024 ->
  let h := s * 2 ^ 15 + e * 2 ^ 10 + m in
  fp16_sign h = s /\ fp16_exp h = e /\ fp16_mant h = m.
Proof.
  intros Hs He Hm h. unfold fp16_sign, fp16_exp, fp16_mant.
  rewrite land_1, land_1F, land_3FF, !Z.shiftr_div_pow2 by lia.
  subst h. change (2 ^ 15) with 32768. change (2 ^ 10) with 1024.
  Z.div_mod_to_equations. lia.
Qed.

Lemma f32_fields_of (s e m : Z) :
  0 <= s <= 1 -> 0 <= e < 256 -> 0 <= m < 2 ^ 23 ->
  let x := s * 2 ^ 31 + e * 2 ^ 23 + m in
  f32_sign x = s /\ f32_exp x = e /\ f32_mant x = m.
Proof.
  intros Hs He Hm x. unfold f32_sign, f32_exp, f32_mant.
  rewrite land_1, land_FF, land_7FFFFF, !Z.shiftr_div_pow2 by lia.
  subst x. change (2 ^ 31) with 2147483648. change (2 ^ 23) with 8388608 in *.
  Z.div_mod_to_equations. lia.
Qed.

Lemma fp16_fields (h : Z) :
  0 <= h < 2 ^ 16 ->
  0 <= fp16_sign h <= 1 /\ 0 <= fp16_exp h < 32 /\ 0 <= fp16_mant h < 2 ^ 10 /\
  h = fp16_sign h * 2 ^ 15 + fp16_exp h * 2 ^ 10 + fp16_mant h.
Proof.
  intros Hh. unfold fp16_sign, fp16_exp, fp16_mant.
  rewrite land_1, land_1F, land_3FF, !Z.shiftr_div_pow2 by lia.
  change (2 ^ 16) with 65536 in *. change (2 ^ 15) with 32768.
  change (2 ^ 10) with 1024.
  Z.div_mod_to_equations. lia.
Qed.

Lemma fp16_to_float_fold (h : Z) :
  fp16_to_float h =
  let sign := fp16_sign h in
  let exp16 := fp16_exp h in
  let mant16 := fp16_mant h in
  if exp16 =? 0x1F then
    Z.lor (Z.lor (u32 (Z.shiftl sign 31)) 0x7F800000) (u32 (Z.shiftl mant16 13))
  else if exp16 =? 0 then
    u32 (Z.shiftl sign 31)
  else
    let exp32 := u32 (u32 (exp16 - 15) + 127) in
    let mant32 := u32 (Z.shiftl mant16 13) in
    Z.lor (Z.lor (u32 (Z.shiftl sign 31)) (u32 (Z.shiftl exp32 23))) mant32.
Proof. reflexivity. Qed.

Lemma fp16_to_float_normal (h : Z) :
  0 <= h < 2 ^ 16 -> fp16_normal h ->
  fp16_to_float h =
  fp16_sign h * 2 ^ 31 + (fp16_exp h + 112) * 2 ^ 23 + fp16_mant h * 2 ^ 13.
Proof.
  intros Hh He. unfold fp16_normal in He.
  destruct (fp16_fields h Hh) as (Hs & _ & Hm & _).
  rewrite fp16_to_float_fold. cbv zeta.
  destruct (Z.eqb_spec (fp16_exp h) 0x1F); [lia|].
  destruct (Z.eqb_spec (fp16_exp h) 0); [lia|].
  rewrite rebias_up, sign_shift32 by lia.
  set (s := fp16_sign h) in *. set (e := fp16_exp h) in *. set (m := fp16_mant h) in *.
  unfold u32. rewrite !Z.shiftl_mul_pow2 by lia.
  change (2 ^ 32) with 4294967296. change (2 ^ 31) with 2147483648.
  change (2 ^ 23) with 8388608. change (2 ^ 13) with 8192.
  change (2 ^ 10) with 1024 in Hm.
  rewrite (Z.mod_small (m * 8192)) by lia.
  rewrite (Z.mod_small ((e + 112) * 8388608)) by lia.
  rewrite (lor_disjoint (s * 2147483648) ((e + 112) * 8388608) 31);
    [ | lia | change (2 ^ 31) with 2147483648; Z.div_mod_to_equations; lia
      | change (2 ^ 31) with 2147483648; lia ].
  rewrite (lor_disjoint (s * 2147483648 + (e + 112) * 8388608) (m * 8192) 23);
    [ | lia | change (2 ^ 23) with 8388608; Z.div_mod_to_equations; lia
      | change (2 ^ 23) with 8388608; lia ].
  reflexivity.
Qed.

(** *** The round trip

    Within the exponent range that binary16 can hold, encoding and then
    decoding keeps sign and exponent and clears the low 13 bits of the
    mantissa. *)
Lemma round_trip_in_range (x : Z) :
  0 <= x < 2 ^ 32 -> 113 <= f32_exp x <= 142 ->
  let y := fp16_to_float (float_to_fp16 x) in
  0 <= y < 2 ^ 32 /\
  f32_sign y = f32_sign x /\ f32_exp y = f32_exp x /\
  f32_mant y = f32_mant x - f32_mant x mod 2 ^ 13 /\
  y = x - x mod 2 ^ 13.
Proof.
  intros Hx He y. destruct (f32_fields x Hx) as (Hs & _ & Hm & Hdec).
  assert (Hq : 0 <= f32_mant x / 2 ^ 13 < 1024).
  { change (2 ^ 23) with 8388608 in Hm. change (2 ^ 13) with 8192.
    Z.div_mod_to_equations; lia. }
  destruct (fp16_fields_of (f32_sign x) (f32_exp x - 112) (f32_mant x / 2 ^ 13))
    as (Hs16 & He16 & Hm16); try lia.
  assert (Hy : y = f32_sign x * 2 ^ 31 + f32_exp x * 2 ^ 23
                   + (f32_mant x - f32_mant x mod 2 ^ 13)).
  { subst y. rewrite float_to_fp16_in_range by assumption.
    rewrite fp16_to_float_normal.
    - rewrite Hs16, He16, Hm16.
      change (2 ^ 13) with 8192. Z.div_mod_to_equations; lia.
    - change (2 ^ 16) with 65536. change (2 ^ 15) with 32768.
      change (2 ^ 10) with 1024. lia.
    - unfold fp16_normal. rewrite He16. lia. }
  assert (Hm' : 0 <= f32_mant x - f32_mant x mod 2 ^ 13 < 2 ^ 23).
  { change (2 ^ 23) with 8388608 in *. change (2 ^ 13) with 8192.
    Z.div_mod_to_equations; lia. }
  destruct (f32_fields_of (f32_sign x) (f32_exp x)
              (f32_mant x - f32_mant x mod 2 ^ 13)) as (H1 & H2 & H3); try lia.
  rewrite <- Hy in H1, H2, H3.
  repeat split; try assumption.
  - rewrite Hy. change (2 ^ 31) with 2147483648. change (2 ^ 23) with 8388608 in *. lia.
  - rewrite Hy. change (2 ^ 32) with 4294967296. change (2 ^ 31) with 2147483648.
    change (2 ^ 23) with 8388608 in *. lia.
  - assert (Hmod : x mod 2 ^ 13 = f32_mant x mod 2 ^ 13).
    { unfold f32_mant. rewrite land_7FFFFF. change (2 ^ 13) with 8192.
      Z.div_mod_to_equations; lia. }
    rewrite Hy, Hmod. lia.
Qed.

(** *** Values

    A normal binary32 with exponent field [e] has a magnitude between
    2^(e - 127) and 2^(e - 126). *)
Lemma f32_units_normal (x : Z) :
  0 <= x < 2 ^ 32 -> f32_normal x ->
  f32_units x = (2 ^ 23 + f32_mant x) * 2 ^ (f32_exp x - 1) /\
  2 ^ (f32_exp x + 22) <= f32_units x < 2 ^ (f32_exp x + 23).
Proof.
  intros Hx He. unfold f32_normal in He.
  destruct (f32_fields x Hx) as (_ & _ & Hm & _).
  unfold f32_units. destruct (Z.eqb_spec (f32_exp x) 0); [lia|].
  split; [reflexivity|].
  replace (f32_exp x + 22) with (23 + (f32_exp x - 1)) by lia.
  replace (f32_exp x + 23) with (24 + (f32_exp x - 1)) by lia.
  rewrite !Z.pow_add_r by lia.
  assert (0 < 2 ^ (f32_exp x - 1)) by (apply Z.pow_pos_nonneg; lia).
  change (2 ^ 24) with (2 * 2 ^ 23). nia.
Qed.

Lemma in_half_range_exp (x : Z) :
  0 <= x < 2 ^ 32 -> f32_normal x ->
  (half_min_normal <= f32_abs x)%Q -> (f32_abs x <= half_max)%Q ->
  113 <= f32_exp x <= 142.
Proof.
  intros Hx Hn Hlo Hhi. destruct (f32_units_normal x Hx Hn) as (_ & Hu).
  unfold f32_normal in Hn.
  unfold Qle, half_min_normal, half_max, f32_abs in Hlo, Hhi.
  cbn [Qnum Qden] in Hlo, Hhi.
  split.
  - destruct (Z.le_gt_cases 113 (f32_exp x)) as [|Hlt]; [assumption|exfalso].
    assert (2 ^ (f32_exp x + 23) <= 2 ^ 135) by (apply Z.pow_le_mono_r; lia).
    lia.
  - destruct (Z.le_gt_cases (f32_exp x) 142) as [|Hgt]; [assumption|exfalso].
    assert (2 ^ 165 <= 2 ^ (f32_exp x + 22)) by (apply Z.pow_le_mono_r; lia).
    lia.
Qed.

Lemma Qabs_diff_same_den (a b u : Z) (d : positive) :
  Z.abs (a - b) < u -> (Qabs ((a # d) - (b # d)) < u # d)%Q.
Proof.
  intros H. unfold Qminus, Qplus, Qopp, Qabs, Qlt. cbn [Qnum Qden].
  rewrite Pos2Z.inj_mul.
  replace (a * Z.pos d + - b * Z.pos d) with ((a - b) * Z.pos d) by ring.
  rewrite Z.abs_mul, (Z.abs_eq (Z.pos d)) by lia.
  assert (0 < Z.pos d) by lia. nia.
Qed.

Lemma Qle_same_den (a b : Z) (d : positive) : a <= b -> (a # d <= b # d)%Q.
Proof.
  intros H. unfold Qle. cbn [Qnum Qden]. assert (0 < Z.pos d) by lia. nia.
Qed.

Lemma round_trip_error (x : Z) :
  0 <= x < 2 ^ 32 -> 113 <= f32_exp x <= 142 ->
  let y := fp16_to_float (float_to_fp16 x) in
  (Qabs (f32_value x - f32_value y) < half_ulp x)%Q /\
  (f32_abs y <= f32_abs x)%Q.
Proof.
  intros Hx He y.
  destruct (round_trip_in_range x Hx He) as (Hy & Hs & He' & Hm' & _).
  fold y in Hy, Hs, He', Hm'.
  destruct (f32_fields x Hx) as (_ & _ & Hm & _).
  assert (Hnx : f32_normal x) by (unfold f32_normal; lia).
  assert (Hny : f32_normal y) by (unfold f32_normal; lia).
  destruct (f32_units_normal x Hx Hnx) as (Hux & _).
  destruct (f32_units_normal y Hy Hny) as (Huy & _).
  rewrite He', Hm' in Huy.
  set (p := 2 ^ (f32_exp x - 1)) in *.
  assert (Hp : 0 < p) by (apply Z.pow_pos_nonneg; lia).
  assert (Hr : 0 <= f32_mant x mod 2 ^ 13 < 2 ^ 13) by (apply Z.mod_pos_bound; lia).
  assert (Hulp : 2 ^ (f32_exp x + 12) = 2 ^ 13 * p).
  { unfold p. rewrite <- Z.pow_add_r by lia. f_equal. lia. }
  split.
  - unfold f32_value, half_ulp. apply Qabs_diff_same_den.
    rewrite Hs, Hux, Huy, Hulp. unfold signed.
    destruct (f32_sign x =? 0); nia.
  - unfold f32_abs. apply Qle_same_den. rewrite Hux, Huy. nia.
Qed.

(** A value has one normalised form: equal values with a 24-bit and an
    11-bit significand have significands that differ by the factor
    2^13. *)
Lemma normalised_unique (M M' a b : Z) :
  2 ^ 23 <= M < 2 ^ 24 -> 2 ^ 10 <= M' < 2 ^ 11 -> 0 <= a -> 0 <= b ->
  M * 2 ^ a = M' * 2 ^ b -> M = M' * 2 ^ 13.
Proof.
  intros HM HM' Ha Hb Heq.
  destruct (Z.le_gt_cases a b) as [Hab | Hab].
  - replace b with (a + (b - a)) in Heq by lia.
    rewrite Z.pow_add_r in Heq by lia.
    assert (Hpa : 0 < 2 ^ a) by (apply Z.pow_pos_nonneg; lia).
    assert (HMeq : M = M' * 2 ^ (b - a)) by nia.
    destruct (Z.lt_trichotomy (b - a) 13) as [Hlt | [Heq13 | Hgt]].
    + exfalso. assert (2 ^ (b - a) <= 2 ^ 12) by (apply Z.pow_le_mono_r; lia).
      assert (0 < 2 ^ (b - a)) by (apply Z.pow_pos_nonneg; lia).
      change (2 ^ 23) with (2 ^ 11 * 2 ^ 12) in HM. nia.
    + rewrite Heq13 in HMeq. exact HMeq.
    + exfalso. assert (2 ^ 14 <= 2 ^ (b - a)) by (apply Z.pow_le_mono_r; lia).
      change (2 ^ 24) with (2 ^ 10 * 2 ^ 14) in HM. nia.
  - exfalso. replace a with (b + (a - b)) in Heq by lia.
    rewrite Z.pow_add_r in Heq by lia.
    assert (Hpb : 0 < 2 ^ b) by (apply Z.pow_pos_nonneg; lia).
    assert (Hpd : 1 <= 2 ^ (a - b)).
    { change 1 with (2 ^ 0). apply Z.pow_le_mono_r; lia. }
    assert (HMeq : M * 2 ^ (a - b) = M') by nia.
    change (2 ^ 23) with 8388608 in HM. change (2 ^ 11) with 2048 in HM'. nia.
Qed.

Lemma fp16_units_normal (h : Z) :
  0 <= h < 2 ^ 16 -> fp16_normal h ->
  fp16_units h = (2 ^ 10 + fp16_mant h) * 2 ^ (fp16_exp h - 1) /\ 0 < fp16_units h.
Proof.
  intros Hh He. unfold fp16_normal in He.
  destruct (fp16_fields h Hh) as (_ & _ & Hm & _).
  unfold fp16_units. destruct (Z.eqb_spec (fp16_exp h) 0); [lia|].
  split; [reflexivity|].
  assert (0 < 2 ^ (fp16_exp h - 1)) by (apply Z.pow_pos_nonneg; lia).
  change (2 ^ 10) with 1024 in *. nia.
Qed.

Lemma fp16_units_subnormal (h : Z) :
  0 <= h < 2 ^ 16 -> fp16_exp h = 0 -> 0 <= fp16_units h < 2 ^ 10.
Proof.
  intros Hh He. destruct (fp16_fields h Hh) as (_ & _ & Hm & _).
  unfold fp16_units. rewrite He. exact Hm.
Qed.

(** A binary32 in the exponent range of the normal binary16 has the
    value of a finite binary16 only if its low 13 mantissa bits are
    zero. *)
Lemma representable_low_bits (x : Z) :
  0 <= x < 2 ^ 32 -> 113 <= f32_exp x <= 142 -> half_representable x ->
  f32_mant x mod 2 ^ 13 = 0.
Proof.
  intros Hx He (h & Hh & Hfh & Hv).
  assert (Hn : f32_normal x) by (unfold f32_normal; lia).
  destruct (f32_units_normal x Hx Hn) as (Hux & Hbx).
  destruct (f32_fields x Hx) as (_ & _ & Hm & _).
  destruct (fp16_fields h Hh) as (_ & Heh & Hmh & _).
  unfold fp16_finite in Hfh.
  assert (Hposx : 2 ^ 135 <= f32_units x).
  { assert (2 ^ 135 <= 2 ^ (f32_exp x + 22)) by (apply Z.pow_le_mono_r; lia).
    lia. }
  unfold Qeq, f32_value, fp16_value in Hv. cbn [Qnum Qden] in Hv.
  destruct (Z.eq_dec (fp16_exp h) 0) as [H0 | H0].
  { exfalso. pose proof (fp16_units_subnormal h Hh H0) as Hsub.
    unfold signed in Hv.
    destruct (f32_sign x =? 0), (fp16_sign h =? 0); lia. }
  assert (Hnh : fp16_normal h) by (unfold fp16_normal; lia).
  destruct (fp16_units_normal h Hh Hnh) as (Huh & Hposh).
  assert (Hmag : f32_units x * 2 ^ 24 = fp16_units h * 2 ^ 149).
  { unfold signed in Hv.
    destruct (f32_sign x =? 0), (fp16_sign h =? 0); lia. }
  rewrite Hux, Huh in Hmag.
  rewrite <- !Z.mul_assoc, <- !Z.pow_add_r in Hmag by lia.
  apply normalised_unique in Hmag; try lia.
  replace (f32_mant x) with (fp16_mant h * 2 ^ 13) by lia.
  apply Z.mod_mul. lia.
Qed.

(** *** Out of range *)

Lemma float_to_fp16_underflow (x : Z) :
  0 <= x < 2 ^ 32 -> f32_exp x <= 112 ->
  float_to_fp16 x = f32_sign x * 2 ^ 15.
Proof.
  intros Hx He. destruct (f32_fields x Hx) as (Hs & Hexp & _ & _).
  rewrite float_to_fp16_fold. cbv zeta.
  rewrite rebias_down by lia. rewrite sign_shift16 by lia.
  assert (Hsmall : u16 (f32_sign x * 32768) = f32_sign x * 2 ^ 15).
  { unfold u16. change (2 ^ 15) with 32768. apply Z.mod_small.
    change (2 ^ 16) with 65536. lia. }
  destruct (Z.eqb_spec (f32_exp x) 0xFF); [lia|].
  destruct (Z.eqb_spec (f32_exp x) 0); [exact Hsmall|].
  destruct (Z.leb_spec (f32_exp x - 112) 0); [exact Hsmall | lia].
Qed.

Lemma float_to_fp16_overflow (x : Z) :
  0 <= x < 2 ^ 32 -> 143 <= f32_exp x <= 254 ->
  float_to_fp16 x = f32_sign x * 2 ^ 15 + 0x7C00.
Proof.
  intros Hx He. destruct (f32_fields x Hx) as (Hs & _ & _ & _).
  rewrite float_to_fp16_fold. cbv zeta.
  rewrite rebias_down by lia. rewrite sign_shift16 by lia.
  destruct (Z.eqb_spec (f32_exp x) 0xFF); [lia|].
  destruct (Z.eqb_spec (f32_exp x) 0); [lia|].
  destruct (Z.leb_spec (f32_exp x - 112) 0); [lia|].
  destruct (Z.geb_spec (f32_exp x - 112) 31); [|lia].
  rewrite (lor_disjoint (f32_sign x * 32768) 0x7C00 15);
    [ | lia | change (2 ^ 15) with 32768; Z.div_mod_to_equations; lia
      | change (2 ^ 15) with 32768; lia ].
  unfold u16. change (2 ^ 15) with 32768. apply Z.mod_small.
  change (2 ^ 16) with 65536. lia.
Qed.

Lemma f32_units_subnormal (x : Z) :
  0 <= x < 2 ^ 32 -> f32_exp x = 0 -> 0 <= f32_units x < 2 ^ 23.
Proof.
  intros Hx He. destruct (f32_fields x Hx) as (_ & _ & Hm & _).
  unfold f32_units. rewrite He. exact Hm.
Qed.

Lemma overflow_exp (x : Z) :
  0 <= x < 2 ^ 32 -> f32_finite x -> (65536 # 1 <= f32_abs x)%Q ->
  143 <= f32_exp x <= 254.
Proof.
  intros Hx Hf Hv. destruct (f32_fields x Hx) as (_ & He & _ & _).
  unfold f32_finite in Hf. unfold Qle, f32_abs in Hv. cbn [Qnum Qden] in Hv.
  split; [|lia].
  destruct (Z.eq_dec (f32_exp x) 0) as [H0 | H0].
  - pose proof (f32_units_subnormal x Hx H0). lia.
  - destruct (f32_units_normal x Hx) as (_ & Hu); [unfold f32_normal; lia|].
    destruct (Z.le_gt_cases 143 (f32_exp x)) as [|Hlt]; [assumption|exfalso].
    assert (2 ^ (f32_exp x + 23) <= 2 ^ 165) by (apply Z.pow_le_mono_r; lia).
    lia.
Qed.

Lemma underflow_exp (x : Z) :
  0 <= x < 2 ^ 32 -> f32_finite x -> (f32_abs x < half_min_normal)%Q ->
  f32_exp x <= 112.
Proof.
  intros Hx Hf Hv. destruct (f32_fields x Hx) as (_ & He & _ & _).
  unfold f32_finite in Hf.
  unfold Qlt, f32_abs, half_min_normal in Hv. cbn [Qnum Qden] in Hv.
  destruct (Z.le_gt_cases (f32_exp x) 112) as [|Hgt]; [assumption|exfalso].
  destruct (f32_units_normal x Hx) as (_ & Hu); [unfold f32_normal; lia|].
  assert (2 ^ 135 <= 2 ^ (f32_exp x + 22)) by (apply Z.pow_le_mono_r; lia).
  lia.
Qed.

Lemma gap_fields (x : Z) :
  0 <= x < 2 ^ 32 -> f32_finite x ->
  (half_max < f32_abs x)%Q -> (f32_abs x < 65536 # 1)%Q ->
  f32_exp x = 142 /\ f32_mant x / 2 ^ 13 = 1023.
Proof.
  intros Hx Hf Hlo Hhi. destruct (f32_fields x Hx) as (_ & He & Hm & _).
  unfold f32_finite in Hf.
  unfold Qlt, f32_abs, half_max in Hlo, Hhi. cbn [Qnum Qden] in Hlo, Hhi.
  destruct (Z.eq_dec (f32_exp x) 0) as [H0 | H0].
  { pose proof (f32_units_subnormal x Hx H0). lia. }
  destruct (f32_units_normal x Hx) as (Hu & Hb); [unfold f32_normal; lia|].
  assert (He142 : f32_exp x = 142).
  { destruct (Z.lt_trichotomy (f32_exp x) 142) as [Hlt | [Heq | Hgt]].
    - exfalso.
      assert (2 ^ (f32_exp x + 23) <= 2 ^ 164) by (apply Z.pow_le_mono_r; lia).
      lia.
    - exact Heq.
    - exfalso.
      assert (2 ^ 165 <= 2 ^ (f32_exp x + 22)) by (apply Z.pow_le_mono_r; lia).
      lia. }
  split; [exact He142|].
  rewrite He142 in Hu. rewrite Hu in Hlo.
  change (2 ^ 23) with 8388608 in *. change (2 ^ 13) with 8192.
  assert (8380416 < f32_mant x) by lia.
  Z.div_mod_to_equations. lia.
Qed.

Lemma low_bits_of_mant (x : Z) : x mod 2 ^ 13 = f32_mant x mod 2 ^ 13.
Proof.
  unfold f32_mant. rewrite land_7FFFFF. change (2 ^ 13) with 8192.
  Z.div_mod_to_equations; lia.
Qed.

Lemma clear_low_bits (x : Z) : Z.shiftl (Z.shiftr x 13) 13 = x - x mod 2 ^ 13.
Proof.
  rewrite Z.shiftl_mul_pow2, Z.shiftr_div_pow2 by lia.
  change (2 ^ 13) with 8192. Z.div_mod_to_equations; lia.
Qed.

(** *** The claims on the codec *)

(** Claim C9.  The codec of the C driver and the codec of the C++ driver
    are the same functions: on every bit pattern [float_to_fp16] and
    [FP16::fromFloat] return the same 16-bit result, and on every bit
    pattern [fp16_to_float] and [FP16::toFloat] return the same 32-bit
    result. *)
Theorem codecs_agree :
  (forall value : Z, Cpp.FP16.fromFloat value = float_to_fp16 value) /\
  (forall fp16 : Z, Cpp.FP16.toFloat fp16 = fp16_to_float fp16).
Proof. split; intros; reflexivity. Qed.

(** Claim C4.  For every normal binary32 [x] whose magnitude lies in the
    normal range of binary16, from 2^-14 to 65504, the round trip
    [fp16_to_float (float_to_fp16 x)] is [x] with the low 13 mantissa
    bits cleared: sign and exponent are kept, the value moves by less
    than one unit in the last place of the 10-bit mantissa, and an [x]
    whose value a finite binary16 has comes back unchanged.  The C++
    codec returns the same pattern. *)
Theorem round_trip_half_granularity (x : Z) :
  0 <= x < 2 ^ 32 -> f32_normal x ->
  (half_min_normal <= f32_abs x)%Q -> (f32_abs x <= half_max)%Q ->
  let y := fp16_to_float (float_to_fp16 x) in
  y = Z.shiftl (Z.shiftr x 13) 13 /\
  f32_sign y = f32_sign x /\
  f32_exp y = f32_exp x /\
  f32_mant y = Z.shiftl (Z.shiftr (f32_mant x) 13) 13 /\
  (Qabs (f32_value x - f32_value y) < half_ulp x)%Q /\
  (half_representable x -> y = x) /\
  Cpp.FP16.toFloat (Cpp.FP16.fromFloat x) = y.
Proof.
  intros Hx Hn Hlo Hhi y.
  pose proof (in_half_range_exp x Hx Hn Hlo Hhi) as He.
  destruct (round_trip_in_range x Hx He) as (_ & Hs & He' & Hm & Hy).
  destruct (round_trip_error x Hx He) as (Herr & _).
  fold y in Hs, He', Hm, Hy, Herr.
  rewrite !clear_low_bits. repeat split; try assumption.
  intros Hrep. rewrite Hy, low_bits_of_mant.
  rewrite (representable_low_bits x Hx He Hrep). lia.
Qed.

Lemma round_trip_half_granularity_witness :
  (let x := 0x3DCCCCCD in
   let y := fp16_to_float (float_to_fp16 x) in
   y = 0x3DCCC000 /\
   (half_min_normal <= f32_abs x)%Q /\ (f32_abs x <= half_max)%Q /\
   (Qabs (f32_value x - f32_value y) < half_ulp x)%Q) /\
  (half_representable 0x3F800000 /\
   fp16_to_float (float_to_fp16 0x3F800000) = 0x3F800000).
Proof.
  cbv zeta. split.
  - assert (Hlo : (half_min_normal <= f32_abs 0x3DCCCCCD)%Q)
      by (unfold Qle; vm_compute; discriminate).
    assert (Hhi : (f32_abs 0x3DCCCCCD <= half_max)%Q)
      by (unfold Qle; vm_compute; discriminate).
    assert (Hn : f32_normal 0x3DCCCCCD) by (unfold f32_normal; split; reflexivity).
    destruct (round_trip_half_granularity 0x3DCCCCCD ltac:(lia) Hn Hlo Hhi)
      as (_ & _ & _ & _ & Herr & _).
    split; [reflexivity|]. split; [exact Hlo|]. split; [exact Hhi|]. exact Herr.
  - assert (Hrep : half_representable 0x3F800000).
    { exists 0x3C00. split; [lia|].
      split; [unfold fp16_finite; vm_compute; discriminate | reflexivity]. }
    assert (Hlo : (half_min_normal <= f32_abs 0x3F800000)%Q)
      by (unfold Qle; vm_compute; discriminate).
    assert (Hhi : (f32_abs 0x3F800000 <= half_max)%Q)
      by (unfold Qle; vm_compute; discriminate).
    assert (Hn : f32_normal 0x3F800000) by (unfold f32_normal; split; reflexivity).
    destruct (round_trip_half_granularity 0x3F800000 ltac:(lia) Hn Hlo Hhi)
      as (_ & _ & _ & _ & _ & Hexact & _).
    split; [exact Hrep | exact (Hexact Hrep)].
Defined.

(** Counterexample to claim C5 as stated: 65520.0 is finite and larger
    than 65504, the largest binary16, yet [float_to_fp16] returns
    0x7BFF, the pattern of 65504, and not an infinity. *)
Lemma above_half_max_not_infinity :
  let x := 0x477FF000 in
  0 <= x < 2 ^ 32 /\ f32_finite x /\
  f32_value x == 65520 # 1 /\ (half_max < f32_abs x)%Q /\
  float_to_fp16 x = 0x7BFF /\
  float_to_fp16 x <> 0x7C00 /\ float_to_fp16 x <> 0xFC00.
Proof.
  cbv zeta. split; [lia|]. split; [unfold f32_finite; vm_compute; lia|].
  split; [reflexivity|]. split; [reflexivity|].
  split; [reflexivity|]. split; vm_compute; discriminate.
Qed.

(** Claim C5, amended.  For every finite binary32 [x]: a magnitude of
    2^16 = 65536 or more maps to the infinity of its sign (0x7C00 or
    0xFC00); a magnitude below 2^-14, the smallest normal binary16, maps
    to the zero of its sign (0x0000 or 0x8000); a magnitude above 65504
    and below 65536 is truncated to the largest finite binary16 of its
    sign (0x7BFF or 0xFBFF). *)
Theorem overflow_and_underflow (x : Z) :
  0 <= x < 2 ^ 32 -> f32_finite x ->
  ((65536 # 1 <= f32_abs x)%Q ->
     float_to_fp16 x = if f32_sign x =? 0 then 0x7C00 else 0xFC00) /\
  ((f32_abs x < half_min_normal)%Q ->
     float_to_fp16 x = if f32_sign x =? 0 then 0x0000 else 0x8000) /\
  ((half_max < f32_abs x)%Q -> (f32_abs x < 65536 # 1)%Q ->
     float_to_fp16 x = if f32_sign x =? 0 then 0x7BFF else 0xFBFF).
Proof.
  intros Hx Hf. destruct (f32_fields x Hx) as (Hs & _ & _ & _).
  assert (Hsign : f32_sign x = 0 \/ f32_sign x = 1) by lia.
  split; [|split].
  - intros Hv. pose proof (overflow_exp x Hx Hf Hv) as He.
    rewrite (float_to_fp16_overflow x Hx He).
    destruct Hsign as [-> | ->]; reflexivity.
  - intros Hv. pose proof (underflow_exp x Hx Hf Hv) as He.
    rewrite (float_to_fp16_underflow x Hx He).
    destruct Hsign as [-> | ->]; reflexivity.
  - intros Hlo Hhi. destruct (gap_fields x Hx Hf Hlo Hhi) as (He & Hm).
    rewrite float_to_fp16_in_range by lia. rewrite He, Hm.
    destruct Hsign as [-> | ->]; reflexivity.
Qed.

Lemma overflow_and_underflow_witness :
  float_to_fp16 0x47800000 = 0x7C00 /\
  float_to_fp16 0xB8000000 = 0x8000 /\
  float_to_fp16 0xC77FF000 = 0xFBFF.
Proof.
  split; [|split].
  - assert (Hf : f32_finite 0x47800000) by (unfold f32_finite; vm_compute; lia).
    destruct (overflow_and_underflow 0x47800000 ltac:(lia) Hf) as (H & _ & _).
    apply H. unfold Qle. vm_compute. discriminate.
  - assert (Hf : f32_finite 0xB8000000) by (unfold f32_finite; vm_compute; lia).
    destruct (overflow_and_underflow 0xB8000000 ltac:(lia) Hf) as (_ & H & _).
    apply H. reflexivity.
  - assert (Hf : f32_finite 0xC77FF000) by (unfold f32_finite; vm_compute; lia).
    destruct (overflow_and_underflow 0xC77FF000 ltac:(lia) Hf) as (_ & _ & H).
    apply H; reflexivity.
Defined.

(** ** The command protocol and the matrix transfers *)

Lemma odd_rem (addr : Z) : Z.odd addr = true -> (Z.rem addr 2 =? 0) = false.
Proof.
  intros H. apply Z.eqb_neq. intros Hr.
  pose proof (Z.quot_rem' addr 2) as Hq. rewrite Hr in Hq.
  rewrite Hq in H. rewrite Z.add_0_r, Z.odd_mul in H. discriminate H.
Qed.

Lemma even_rem (addr : Z) : Z.even addr = true -> (Z.rem addr 2 =? 0) = true.
Proof.
  intros H. apply Z.eqb_eq. apply Z.even_spec in H. destruct H as [k ->].
  rewrite Z.mul_comm. apply Z.rem_mul. lia.
Qed.

(** Claim C6.  At every odd address [tpu_write_fp16] and [tpu_read_fp16]
    fail ([-1], with the message on [stderr]) and [writeFP16] and
    [readFP16] throw [std::invalid_argument], and none of them makes a
    call on the serial line: the history of calls is the one before. *)
Theorem odd_address_rejected (w : world) (addr value : Z) :
  Z.odd addr = true ->
  tpu_write_fp16 w addr value
    = (-1, fprintf_stderr "Error: FP16 address must be even" w) /\
  tpu_read_fp16 w addr
    = (-1, None, fprintf_stderr "Error: FP16 address must be even" w) /\
  hist (snd (tpu_write_fp16 w addr value)) = hist w /\
  hist (snd (tpu_read_fp16 w addr)) = hist w /\
  Cpp.TPUDriver.writeFP16 addr value w
    = (Cpp.Throws (Cpp.invalid_argument "FP16 address must be even"), w) /\
  Cpp.TPUDriver.readFP16 addr w
    = (Cpp.Throws (Cpp.invalid_argument "FP16 address must be even"), w).
Proof.
  intros Hodd. apply odd_rem in Hodd.
  unfold tpu_write_fp16, tpu_read_fp16, Cpp.TPUDriver.writeFP16,
    Cpp.TPUDriver.readFP16.
  rewrite Hodd. cbn [negb snd hist fprintf_stderr]. repeat split.
Qed.

Lemma odd_address_rejected_witness :
  let w := boot (answering ACK 100 50) in
  tpu_write_fp16 w 193 0x3F800000
    = (-1, fprintf_stderr "Error: FP16 address must be even" w) /\
  sent (snd (tpu_write_fp16 w 193 0x3F800000)) = [] /\
  sent (snd (tpu_read_fp16 w 193)) = [].
Proof.
  cbv zeta.
  destruct (odd_address_rejected (boot (answering ACK 100 50)) 193 0x3F800000)
    as (Hw & _ & Hhw & Hhr & _); [reflexivity|].
  split; [exact Hw|]. unfold sent. rewrite Hhw, Hhr. split; reflexivity.
Defined.

(** *** One exchange

    Each of the single-exchange operations, as a function of what the
    platform answers to its frame. *)
Lemma tpu_write_byte_unfold (w : world) (addr data : Z) :
  let frame := [write_cmd addr; addr; data] in
  let w1 := io_step (Tx frame (write_count w frame)) w in
  let w2 := io_step (Rx (fst (reply_to w frame)) (snd (reply_to w frame))) w1 in
  tpu_write_byte w addr data =
  if negb (write_count w frame =? 3) then (-1, w1)
  else if negb (fst (reply_to w frame) =? 1) then (-1, w2)
  else ((if snd (reply_to w frame) =? ACK then 0 else -1), w2).
Proof.
  cbv zeta. unfold tpu_write_byte, serial_write, serial_read, reply_to, write_count, write_cmd.
  cbn [firstn Z.to_nat Pos.to_nat Pos.iter_op Init.Nat.add].
  destruct (negb (_ =? 3)); [reflexivity|].
  cbn [env hist io_step].
  destruct (read_ret _ _ _) as [n b]. cbn [fst snd]. reflexivity.
Qed.

Lemma tpu_start_unfold (w : world) :
  let frame := [CMD_START] in
  let w1 := io_step (Tx frame (write_count w frame)) w in
  let w2 := io_step (Rx (fst (reply_to w frame)) (snd (reply_to w frame))) w1 in
  tpu_start w =
  if negb (write_count w frame =? 1) then (-1, w1)
  else if negb (fst (reply_to w frame) =? 1) then (-1, w2)
  else ((if snd (reply_to w frame) =? ACK then 0 else -1), w2).
Proof.
  cbv zeta. unfold tpu_start, serial_write, serial_read, reply_to, write_count.
  cbn [firstn Z.to_nat Pos.to_nat Pos.iter_op Init.Nat.add].
  destruct (negb (_ =? 1)); [reflexivity|].
  cbn [env hist io_step].
  destruct (read_ret _ _ _) as [n b]. cbn [fst snd]. reflexivity.
Qed.

Lemma exchange_unfold {A : Type} (frame : list Z) (k : Z * Z -> Cpp.io A) (w : world) :
  let w1 := io_step (Tx frame (write_count w frame)) w in
  let w2 := io_step (Rx (fst (reply_to w frame)) (snd (reply_to w frame))) w1 in
  Cpp.bind (Cpp.SerialPort.write frame (Z.of_nat (List.length frame)))
       (fun _ => Cpp.bind (Cpp.SerialPort.read 1) k) w =
  if write_count w frame <? 0 then (Cpp.Throws (Cpp.runtime_error "Write failed"), w1)
  else if fst (reply_to w frame) <? 0 then (Cpp.Throws (Cpp.runtime_error "Read failed"), w2)
  else k (reply_to w frame) w2.
Proof.
  cbv zeta. unfold Cpp.bind, Cpp.SerialPort.write, Cpp.SerialPort.read, reply_to, write_count.
  rewrite Nat2Z.id, firstn_all.
  destruct (_ <? 0); [reflexivity|].
  cbn [env hist io_step].
  destruct (read_ret _ _ _) as [n b]. cbn [fst snd].
  destruct (n <? 0); reflexivity.
Qed.

Lemma writeByte_unfold (addr data : Z) (w : world) :
  let frame := [write_cmd addr; addr; data] in
  let w1 := io_step (Tx frame (write_count w frame)) w in
  let w2 := io_step (Rx (fst (reply_to w frame)) (snd (reply_to w frame))) w1 in
  Cpp.TPUDriver.writeByte addr data w =
  if write_count w frame <? 0 then (Cpp.Throws (Cpp.runtime_error "Write failed"), w1)
  else if fst (reply_to w frame) <? 0 then (Cpp.Throws (Cpp.runtime_error "Read failed"), w2)
  else if negb (fst (reply_to w frame) =? 1) || negb (snd (reply_to w frame) =? 0x4B)
       then (Cpp.Throws (Cpp.runtime_error "Failed to receive ACK"), w2)
       else (Cpp.Returns tt, w2).
Proof.
  cbv zeta. unfold Cpp.TPUDriver.writeByte.
  change (if addr <? 128 then Cpp.code Cpp.WriteWeight else Cpp.code Cpp.WriteActivation)
    with (write_cmd addr).
  change 3 with (Z.of_nat (List.length [write_cmd addr; addr; data])) at 1.
  rewrite exchange_unfold.
  destruct (reply_to w [write_cmd addr; addr; data]) as [n ack]. cbn [fst snd].
  destruct (_ <? 0); [reflexivity|]. destruct (n <? 0); [reflexivity|].
  destruct (negb (n =? 1) || negb (ack =? 75)); reflexivity.
Qed.

Lemma start_unfold (w : world) :
  let frame := [CMD_START] in
  let w1 := io_step (Tx frame (write_count w frame)) w in
  let w2 := io_step (Rx (fst (reply_to w frame)) (snd (reply_to w frame))) w1 in
  Cpp.TPUDriver.start w =
  if write_count w frame <? 0 then (Cpp.Throws (Cpp.runtime_error "Write failed"), w1)
  else if fst (reply_to w frame) <? 0 then (Cpp.Throws (Cpp.runtime_error "Read failed"), w2)
  else if negb (fst (reply_to w frame) =? 1) || negb (snd (reply_to w frame) =? 0x4B)
       then (Cpp.Throws (Cpp.runtime_error "Failed to start TPU"), w2)
       else (Cpp.Returns tt, w2).
Proof.
  cbv zeta. unfold Cpp.TPUDriver.start.
  change (Cpp.code Cpp.Start) with CMD_START.
  change 1 with (Z.of_nat (List.length [CMD_START])) at 1.
  rewrite exchange_unfold.
  destruct (reply_to w [CMD_START]) as [n ack]. cbn [fst snd].
  destruct (_ <? 0); [reflexivity|]. destruct (n <? 0); [reflexivity|].
  destruct (negb (n =? 1) || negb (ack =? 75)); reflexivity.
Qed.

Lemma bad_ack_test (r : Z * Z) :
  bad_ack r -> negb (fst r =? 1) || negb (snd r =? 0x4B) = true.
Proof.
  intros [H | H].
  - apply Z.eqb_neq in H. rewrite H. reflexivity.
  - unfold ACK in H. apply Z.eqb_neq in H. rewrite H. apply orb_true_r.
Qed.

(** Claim C7.  When the reply to the frame of a byte write, or to the
    frame of the start command, is anything but the single byte ['K'] (no
    byte, or another byte), [tpu_write_byte] and [tpu_start] return [-1]
    and [writeByte] and [start] throw; unless the transport itself
    failed, what they throw is the acknowledgement error of the
    operation.  Success is never reported. *)
Theorem bad_ack_is_failure (w : world) (addr data : Z) :
  (bad_ack (reply_to w [write_cmd addr; addr; data]) ->
     fst (tpu_write_byte w addr data) = -1 /\
     exists e, fst (Cpp.TPUDriver.writeByte addr data w) = Cpp.Throws e /\
       (0 <= write_count w [write_cmd addr; addr; data] ->
        0 <= fst (reply_to w [write_cmd addr; addr; data]) ->
        e = Cpp.runtime_error "Failed to receive ACK")) /\
  (bad_ack (reply_to w [CMD_START]) ->
     fst (tpu_start w) = -1 /\
     exists e, fst (Cpp.TPUDriver.start w) = Cpp.Throws e /\
       (0 <= write_count w [CMD_START] ->
        0 <= fst (reply_to w [CMD_START]) ->
        e = Cpp.runtime_error "Failed to start TPU")).
Proof.
  split; intros Hbad; pose proof (bad_ack_test _ Hbad) as Htest.
  - rewrite tpu_write_byte_unfold, writeByte_unfold. cbv zeta.
    split.
    + destruct (negb (_ =? 3)); [reflexivity|].
      destruct Hbad as [Hn | Hb].
      * apply Z.eqb_neq in Hn. rewrite Hn. reflexivity.
      * destruct (negb (_ =? 1)); [reflexivity|].
        apply Z.eqb_neq in Hb. rewrite Hb. reflexivity.
    + rewrite Htest.
      destruct (Z.ltb_spec (write_count w [write_cmd addr; addr; data]) 0).
      { eexists; split; [reflexivity|]. lia. }
      destruct (Z.ltb_spec (fst (reply_to w [write_cmd addr; addr; data])) 0).
      { eexists; split; [reflexivity|]. lia. }
      eexists; split; reflexivity.
  - rewrite tpu_start_unfold, start_unfold. cbv zeta.
    split.
    + destruct (negb (write_count w [CMD_START] =? 1)); [reflexivity|].
      destruct Hbad as [Hn | Hb].
      * apply Z.eqb_neq in Hn. rewrite Hn. reflexivity.
      * destruct (negb (_ =? 1)); [reflexivity|].
        apply Z.eqb_neq in Hb. rewrite Hb. reflexivity.
    + rewrite Htest.
      destruct (Z.ltb_spec (write_count w [CMD_START]) 0).
      { eexists; split; [reflexivity|]. lia. }
      destruct (Z.ltb_spec (fst (reply_to w [CMD_START])) 0).
      { eexists; split; [reflexivity|]. lia. }
      eexists; split; reflexivity.
Qed.

Lemma bad_ack_is_failure_witness :
  let w := boot (answering 0x4E 100 50) in
  fst (tpu_write_byte w 5 7) = -1 /\ fst (tpu_start w) = -1 /\
  fst (tpu_start (boot silent)) = -1.
Proof.
  cbv zeta.
  destruct (bad_ack_is_failure (boot (answering 0x4E 100 50)) 5 7) as (Hw & Hs).
  destruct (bad_ack_is_failure (boot silent) 5 7) as (_ & Hq).
  split; [|split].
  - apply Hw. right. vm_compute. discriminate.
  - apply Hs. right. vm_compute. discriminate.
  - apply Hq. left. vm_compute. discriminate.
Defined.

Lemma tpu_get_status_unfold (w : world) :
  let frame := [CMD_STATUS] in
  let w1 := io_step (Tx frame (write_count w frame)) w in
  let w2 := io_step (Rx (fst (reply_to w frame)) (snd (reply_to w frame))) w1 in
  let status_byte := snd (reply_to w frame) in
  tpu_get_status w =
  if negb (write_count w frame =? 1) then (-1, None, w1)
  else if negb (fst (reply_to w frame) =? 1) then (-1, None, w2)
  else (0,
        Some {| busy :=
                  if truthy (Z.land status_byte STATUS_BUSY) then 1 else 0;
                done :=
                  if truthy (Z.land status_byte STATUS_DONE) then 1 else 0 |},
        w2).
Proof.
  cbv zeta. unfold tpu_get_status, serial_write, serial_read, reply_to, write_count.
  cbn [firstn Z.to_nat Pos.to_nat Pos.iter_op Init.Nat.add].
  destruct (negb (_ =? 1)); [reflexivity|].
  cbn [env hist io_step].
  destruct (read_ret _ _ _) as [n b]. cbn [fst snd]. reflexivity.
Qed.

Lemma getStatus_unfold (w : world) :
  let frame := [CMD_STATUS] in
  let w1 := io_step (Tx frame (write_count w frame)) w in
  let w2 := io_step (Rx (fst (reply_to w frame)) (snd (reply_to w frame))) w1 in
  Cpp.TPUDriver.getStatus w =
  if write_count w frame <? 0 then (Cpp.Throws (Cpp.runtime_error "Write failed"), w1)
  else if fst (reply_to w frame) <? 0 then (Cpp.Throws (Cpp.runtime_error "Read failed"), w2)
  else if negb (fst (reply_to w frame) =? 1)
       then (Cpp.Throws (Cpp.runtime_error "Failed to read status"), w2)
       else (Cpp.Returns (Cpp.TPUStatus_of_byte (snd (reply_to w frame))), w2).
Proof.
  cbv zeta. unfold Cpp.TPUDriver.getStatus.
  change (Cpp.code Cpp.Status) with CMD_STATUS.
  change 1 with (Z.of_nat (List.length [CMD_STATUS])) at 1.
  rewrite exchange_unfold.
  destruct (reply_to w [CMD_STATUS]) as [n b]. cbn [fst snd].
  destruct (_ <? 0); [reflexivity|]. destruct (n <? 0); [reflexivity|].
  destruct (negb (n =? 1)); reflexivity.
Qed.

Lemma done_bit_test (b : Z) :
  Z.testbit b 1 = true -> truthy (Z.land b STATUS_DONE) = true.
Proof.
  intros Hb. unfold truthy. apply negb_true_iff, Z.eqb_neq. intros H0.
  assert (Hbit : Z.testbit (Z.land b STATUS_DONE) 1 = true).
  { rewrite Z.land_spec, Hb. reflexivity. }
  rewrite H0 in Hbit. discriminate Hbit.
Qed.

Lemma done_bit_clear (b : Z) :
  Z.land b STATUS_DONE = 0 -> truthy (Z.land b STATUS_DONE) = false.
Proof. intros ->. reflexivity. Qed.

(** Claim C8.  In any round of the poll loop, of [tpu_wait_until_done]
    and of [waitUntilDone] alike, a status byte with bit 1 (done) set
    ends the loop with success, whatever bit 0 (busy) and the other bits
    are: the round makes the one status exchange and returns, without
    looking at the clock and without sleeping. *)
Theorem done_bit_ends_polling (fuel : nat) (w : world) (start timeout_ms b : Z) :
  write_count w [CMD_STATUS] = 1 ->
  reply_to w [CMD_STATUS] = (1, b) ->
  Z.testbit b 1 = true ->
  exists w',
    tpu_wait_until_done_loop (S fuel) start timeout_ms w = Some (0, w') /\
    Cpp.TPUDriver.waitUntilDone_loop (S fuel) start timeout_ms w
      = Some (Cpp.Returns tt, w') /\
    hist w' = hist w ++ [Tx [CMD_STATUS] 1; Rx 1 b] /\
    wall_us w' = wall_us w + io_wall_us (env w) (hist w)
                 + io_wall_us (env w) (hist w ++ [Tx [CMD_STATUS] 1]).
Proof.
  intros Hw Hr Hb. apply done_bit_test in Hb.
  eexists. cbn [tpu_wait_until_done_loop Cpp.TPUDriver.waitUntilDone_loop].
  rewrite tpu_get_status_unfold, getStatus_unfold. cbv zeta.
  rewrite Hw, Hr. cbn [fst snd Z.eqb Z.ltb Z.compare Pos.eqb Pos.compare negb
                       Pos.compare_cont].
  cbn [done]. rewrite Hb.
  cbn [truthy Z.eqb negb].
  unfold Cpp.TPUStatus_of_byte. cbn [Cpp.done].
  change 0x02 with STATUS_DONE. rewrite Hb.
  split; [reflexivity|]. split; [reflexivity|].
  cbn [hist wall_us io_step env]. rewrite <- app_assoc. split; [reflexivity|]. lia.
Qed.

Lemma done_bit_ends_polling_witness :
  exists w',
    tpu_wait_until_done 1 (boot (answering 0x03 100 50)) 10000 = Some (0, w') /\
    Cpp.TPUDriver.waitUntilDone 1 10000 (boot (answering 0x03 100 50))
      = Some (Cpp.Returns tt, w').
Proof.
  destruct (done_bit_ends_polling 0 (boot (answering 0x03 100 50)) 0 10000 3)
    as (w' & Hc & Hcpp & _); [reflexivity | reflexivity | reflexivity |].
  exists w'. split; [exact Hc | exact Hcpp].
Defined.

(** *** Frames on the line *)

Lemma sent_tx (f : list Z) (r : Z) (w : world) :
  sent (io_step (Tx f r) w) = sent w ++ [f].
Proof. unfold sent, frames. cbn [hist io_step]. rewrite flat_map_app. reflexivity. Qed.

Lemma sent_rx (n b : Z) (w : world) : sent (io_step (Rx n b) w) = sent w.
Proof.
  unfold sent, frames. cbn [hist io_step]. rewrite flat_map_app.
  cbn [flat_map app]. apply app_nil_r.
Qed.

Lemma tpu_write_byte_sent (w : world) (addr data : Z) :
  sent (snd (tpu_write_byte w addr data)) = sent w ++ [[write_cmd addr; addr; data]].
Proof.
  rewrite tpu_write_byte_unfold. cbv zeta.
  destruct (negb (_ =? 3)); [apply sent_tx|].
  destruct (negb (_ =? 1)); cbn [snd]; rewrite sent_rx; apply sent_tx.
Qed.

Lemma writeByte_sent (w : world) (addr data : Z) :
  sent (snd (Cpp.TPUDriver.writeByte addr data w))
  = sent w ++ [[write_cmd addr; addr; data]].
Proof.
  rewrite writeByte_unfold. cbv zeta.
  destruct (_ <? 0); [apply sent_tx|].
  destruct (_ <? 0); [cbn [snd]; rewrite sent_rx; apply sent_tx|].
  destruct (_ || _); cbn [snd]; rewrite sent_rx; apply sent_tx.
Qed.

Lemma write_cmd_next (addr : Z) :
  0 <= addr < 256 -> Z.even addr = true ->
  u8 (addr + 1) = addr + 1 /\ write_cmd (u8 (addr + 1)) = write_cmd addr.
Proof.
  intros Ha He. apply Z.even_spec in He. destruct He as [k Hk].
  assert (H1 : u8 (addr + 1) = addr + 1).
  { unfold u8. apply Z.mod_small. change (2 ^ 8) with 256. lia. }
  split; [exact H1|]. rewrite H1. unfold write_cmd.
  destruct (Z.ltb_spec (addr + 1) 128), (Z.ltb_spec addr 128); try reflexivity; lia.
Qed.

(** Claim C10.  At every even address the frames a 16-bit write puts on
    the line carry one and the same command byte: the frame for the low
    byte at [addr] and, when the first exchange succeeded, the frame for
    the high byte at [addr + 1] both start with the command selected for
    [addr], ['W'] below 128 and ['A'] from 128 on.  This holds for
    [tpu_write_fp16] and for [writeFP16]. *)
Theorem same_command_for_both_bytes (w : world) (addr value : Z) :
  0 <= addr < 256 -> Z.even addr = true ->
  let c := if addr <? 128 then CMD_WRITE_WEIGHT else CMD_WRITE_ACTIVATION in
  let low := u8 (Z.land (float_to_fp16 value) 0xFF) in
  let high := u8 (Z.land (Z.shiftr (float_to_fp16 value) 8) 0xFF) in
  (let '(r, w') := tpu_write_fp16 w addr value in
   (r = -1 /\ sent w' = sent w ++ [[c; addr; low]]) \/
   sent w' = sent w ++ [[c; addr; low]; [c; addr + 1; high]]) /\
  (let '(r, w') := Cpp.TPUDriver.writeFP16 addr value w in
   (r <> Cpp.Returns tt /\ sent w' = sent w ++ [[c; addr; low]]) \/
   sent w' = sent w ++ [[c; addr; low]; [c; addr + 1; high]]).
Proof.
  intros Ha He c low high.
  destruct (write_cmd_next addr Ha He) as (Hnext & Hcmd).
  fold (write_cmd addr) in c. apply even_rem in He. 
  split.
  - unfold tpu_write_fp16. rewrite He. cbn [negb]. fold low high.
    pose proof (tpu_write_byte_sent w addr low) as H1.
    destruct (tpu_write_byte w addr low) as [r1 w1]. cbn [snd] in H1.
    destruct (negb (r1 =? 0)); [left; split; [reflexivity | exact H1]|].
    pose proof (tpu_write_byte_sent w1 (u8 (addr + 1)) high) as H2.
    destruct (tpu_write_byte w1 (u8 (addr + 1)) high) as [r2 w2]. cbn [snd] in H2.
    rewrite Hcmd, H1, <- app_assoc in H2. rewrite Hnext in H2.
    destruct (negb (r2 =? 0)); right; exact H2.
  - unfold Cpp.TPUDriver.writeFP16. rewrite He. cbn [negb].
    change (Cpp.FP16.fromFloat value) with (float_to_fp16 value). fold low high.
    unfold Cpp.bind.
    pose proof (writeByte_sent w addr low) as H1.
    destruct (Cpp.TPUDriver.writeByte addr low w) as [[[]|e] w1]; cbn [snd] in H1.
    + pose proof (writeByte_sent w1 (u8 (addr + 1)) high) as H2.
      rewrite Hcmd, H1, <- app_assoc in H2.
      destruct (Cpp.TPUDriver.writeByte (u8 (addr + 1)) high w1) as [r2 w2].
      right. rewrite Hnext in H2. exact H2.
    + left. split; [discriminate | exact H1].
Qed.

Lemma same_command_for_both_bytes_witness :
  sent (snd (tpu_write_fp16 (boot (answering ACK 100 50)) 126 0x3F800000))
  = [[CMD_WRITE_WEIGHT; 126; 0x00]; [CMD_WRITE_WEIGHT; 127; 0x3C]].
Proof.
  destruct (same_command_for_both_bytes (boot (answering ACK 100 50)) 126
              0x3F800000 ltac:(lia) ltac:(reflexivity)) as (Hc & _).
  destruct (tpu_write_fp16 (boot (answering ACK 100 50)) 126 0x3F800000)
    as [r w'] eqn:Hrun.
  destruct Hc as [(Hr & _) | Hs].
  - vm_compute in Hrun. injection Hrun as Hr0 _. rewrite <- Hr0 in Hr.
    discriminate Hr.
  - exact Hs.
Defined.

(** *** Matrix transfers

    A [for] loop whose body keeps an invariant and never leaves runs all
    its rounds. *)
Lemma for_range_inv {S R : Type} (Inv : nat -> S -> Prop)
    (body : Z -> S -> S + R) (n : nat) :
  forall (i0 : Z) (s : S),
  Inv O s ->
  (forall k s, (k < n)%nat -> Inv k s ->
     exists s', body (i0 + Z.of_nat k) s = inl s' /\ Inv (Datatypes.S k) s') ->
  exists s', for_range n i0 body s = inl s' /\ Inv n s'.
Proof.
  revert Inv. induction n as [|n IH]; intros Inv i0 s H0 Hstep.
  - exists s. split; [reflexivity | exact H0].
  - cbn [for_range].
    destruct (Hstep O s ltac:(lia) H0) as (s1 & Hb & H1).
    rewrite Z.add_0_r in Hb. rewrite Hb.
    apply (IH (fun k => Inv (Datatypes.S k))); [exact H1|].
    intros k s2 Hk Hinv.
    destruct (Hstep (Datatypes.S k) s2 ltac:(lia) Hinv) as (s3 & Hb3 & H3).
    exists s3. split; [|exact H3]. rewrite <- Hb3. f_equal. lia.
Qed.

Lemma for_range_io_inv {S : Type} (Inv : nat -> S -> world -> Prop)
    (body : Z -> S -> Cpp.io S) (n : nat) :
  forall (i0 : Z) (s : S) (w : world),
  Inv O s w ->
  (forall k s w, (k < n)%nat -> Inv k s w ->
     exists s' w', body (i0 + Z.of_nat k) s w = (Cpp.Returns s', w')
                   /\ Inv (Datatypes.S k) s' w') ->
  exists s' w', Cpp.TPUDriver.for_range_io n i0 body s w = (Cpp.Returns s', w')
                /\ Inv n s' w'.
Proof.
  revert Inv. induction n as [|n IH]; intros Inv i0 s w H0 Hstep.
  - exists s, w. split; [reflexivity | exact H0].
  - cbn [Cpp.TPUDriver.for_range_io]. unfold Cpp.bind at 1.
    destruct (Hstep O s w ltac:(lia) H0) as (s1 & w1 & Hb & H1).
    rewrite Z.add_0_r in Hb. rewrite Hb.
    apply (IH (fun k => Inv (Datatypes.S k))); [exact H1|].
    intros k s2 w2 Hk Hinv.
    destruct (Hstep (Datatypes.S k) s2 w2 ltac:(lia) Hinv) as (s3 & w3 & Hb3 & H3).
    exists s3, w3. split; [|exact H3]. rewrite <- Hb3. f_equal. lia.
Qed.

Lemma no_io_error_exchange (w : world) (frame : list Z) :
  no_io_error (env w) ->
  write_count w frame = Z.of_nat (List.length frame) /\
  fst (reply_to w frame) = 1.
Proof.
  intros [Hw Hr]. unfold write_count, reply_to. split; [apply Hw|].
  specialize (Hr (hist w ++ [Tx frame (write_ret (env w) (hist w) frame)]) 1).
  destruct (read_ret _ _ _). exact Hr.
Qed.

Lemma tpu_read_byte_unfold (w : world) (addr : Z) :
  let frame := [CMD_READ_RESULT; addr] in
  let w1 := io_step (Tx frame (write_count w frame)) w in
  let w2 := io_step (Rx (fst (reply_to w frame)) (snd (reply_to w frame))) w1 in
  tpu_read_byte w addr =
  if negb (write_count w frame =? 2) then (-1, None, w1)
  else if negb (fst (reply_to w frame) =? 1) then (-1, None, w2)
  else (0, Some (snd (reply_to w frame)), w2).
Proof.
  cbv zeta. unfold tpu_read_byte, serial_write, serial_read, reply_to, write_count.
  cbn [firstn Z.to_nat Pos.to_nat Pos.iter_op Init.Nat.add].
  destruct (negb (_ =? 2)); [reflexivity|].
  cbn [env hist io_step].
  destruct (read_ret _ _ _) as [n b]. cbn [fst snd]. reflexivity.
Qed.

Lemma readByte_unfold (addr : Z) (w : world) :
  let frame := [CMD_READ_RESULT; addr] in
  let w1 := io_step (Tx frame (write_count w frame)) w in
  let w2 := io_step (Rx (fst (reply_to w frame)) (snd (reply_to w frame))) w1 in
  Cpp.TPUDriver.readByte addr w =
  if write_count w frame <? 0 then (Cpp.Throws (Cpp.runtime_error "Write failed"), w1)
  else if fst (reply_to w frame) <? 0 then (Cpp.Throws (Cpp.runtime_error "Read failed"), w2)
  else if negb (fst (reply_to w frame) =? 1)
       then (Cpp.Throws (Cpp.runtime_error "Failed to read data"), w2)
       else (Cpp.Returns (snd (reply_to w frame)), w2).
Proof.
  cbv zeta. unfold Cpp.TPUDriver.readByte.
  change (Cpp.code Cpp.ReadResult) with CMD_READ_RESULT.
  change 2 with (Z.of_nat (List.length [CMD_READ_RESULT; addr])) at 1.
  rewrite exchange_unfold.
  destruct (reply_to w [CMD_READ_RESULT; addr]) as [n b]. cbn [fst snd].
  destruct (_ <? 0); [reflexivity|]. destruct (n <? 0); [reflexivity|].
  destruct (negb (n =? 1)); reflexivity.
Qed.

(** On a line without errors a byte read and a 16-bit read succeed, in
    both drivers alike, and leave exactly their frames in the history. *)
Lemma tpu_read_byte_ok (w : world) (addr : Z) :
  no_io_error (env w) ->
  exists b w',
    tpu_read_byte w addr = (0, Some b, w') /\
    Cpp.TPUDriver.readByte addr w = (Cpp.Returns b, w') /\
    env w' = env w /\ stderr w' = stderr w /\
    hist w' = hist w ++ [Tx [CMD_READ_RESULT; addr] 2; Rx 1 b].
Proof.
  intros Hok.
  destruct (no_io_error_exchange w [CMD_READ_RESULT; addr] Hok) as (Hw & Hr).
  cbn [List.length Z.of_nat Pos.of_succ_nat Pos.succ] in Hw.
  exists (snd (reply_to w [CMD_READ_RESULT; addr])). eexists.
  rewrite tpu_read_byte_unfold, readByte_unfold. cbv zeta.
  rewrite Hw, Hr. cbn [Z.eqb Z.ltb Z.compare Pos.eqb negb].
  split; [reflexivity|]. split; [reflexivity|].
  cbn [env stderr hist io_step]. rewrite <- app_assoc. repeat split.
Qed.

Lemma tpu_read_fp16_ok (w : world) (addr : Z) :
  no_io_error (env w) -> 0 <= addr < 256 -> Z.even addr = true ->
  exists lo hi w',
    tpu_read_fp16 w addr = (0, Some (decode_half lo hi), w') /\
    Cpp.TPUDriver.readFP16 addr w = (Cpp.Returns (decode_half lo hi), w') /\
    env w' = env w /\ stderr w' = stderr w /\
    hist w' = hist w ++ [Tx [CMD_READ_RESULT; addr] 2; Rx 1 lo;
                         Tx [CMD_READ_RESULT; addr + 1] 2; Rx 1 hi].
Proof.
  intros Hok Ha He.
  destruct (write_cmd_next addr Ha He) as (Hnext & _). apply even_rem in He.
  destruct (tpu_read_byte_ok w addr Hok) as (lo & w1 & Hc1 & Hp1 & He1 & Hs1 & Hh1).
  assert (Hok1 : no_io_error (env w1)) by (rewrite He1; exact Hok).
  destruct (tpu_read_byte_ok w1 (addr + 1) Hok1)
    as (hi & w2 & Hc2 & Hp2 & He2 & Hs2 & Hh2).
  exists lo, hi, w2.
  unfold tpu_read_fp16, Cpp.TPUDriver.readFP16. rewrite He. cbn [negb].
  rewrite Hnext. unfold Cpp.bind. rewrite Hc1, Hp1, Hc2, Hp2.
  split; [reflexivity|]. split; [reflexivity|].
  rewrite He2, Hs2, Hh2, Hh1, <- app_assoc. repeat split; assumption.
Qed.

Lemma read_log_snoc (addrs : list Z) (bs : list (Z * Z)) (a lo hi : Z) :
  List.length addrs = List.length bs ->
  read_log (addrs ++ [a]) (bs ++ [(lo, hi)]) =
  read_log addrs bs ++ [Tx [CMD_READ_RESULT; a] 2; Rx 1 lo;
                        Tx [CMD_READ_RESULT; a + 1] 2; Rx 1 hi].
Proof.
  revert bs. induction addrs as [|a0 addrs IH]; intros [|[l h] bs] Hlen;
    try discriminate Hlen.
  - reflexivity.
  - cbn [read_log app]. rewrite IH by (cbn in Hlen; lia). reflexivity.
Qed.

Lemma stepped_addrs_S (base : Z) (n : nat) :
  stepped_addrs base (S n) = stepped_addrs base n ++ [u8 (element_addr base n)].
Proof. unfold stepped_addrs. rewrite seq_S, map_app. reflexivity. Qed.

Lemma stepped_addrs_length (base : Z) (n : nat) :
  List.length (stepped_addrs base n) = n.
Proof. unfold stepped_addrs. rewrite length_map, length_seq. reflexivity. Qed.

Lemma u8_range (z : Z) : 0 <= u8 z < 256.
Proof. unfold u8. change (2 ^ 8) with 256. apply Z.mod_pos_bound. lia. Qed.

Lemma element_addr_even (base : Z) (k : nat) :
  Z.even base = true -> Z.even (u8 (element_addr base k)) = true.
Proof.
  intros Hb. unfold u8, element_addr. change (2 ^ 8) with 256.
  apply Z.even_spec in Hb. destruct Hb as [q ->].
  apply Z.even_spec.
  exists ((2 * q + 2 * Z.of_nat k) mod 256 / 2).
  Z.div_mod_to_equations. lia.
Qed.

Lemma element_addr_next (base : Z) (k : nat) :
  u8 (u8 (element_addr base k) + 2) = u8 (element_addr base (S k)).
Proof.
  unfold u8, element_addr. change (2 ^ 8) with 256.
  rewrite Nat2Z.inj_succ. Z.div_mod_to_equations. lia.
Qed.

(** One more element read keeps [read_inv]. *)
Lemma read_inv_step (w0 w w' : world) (r c : nat) (addr lo hi : Z) (results : matrix) :
  (c < 8)%nat ->
  read_inv w0 (8 * r + c) (addr, results, w) ->
  env w' = env w -> stderr w' = stderr w ->
  hist w' = hist w ++ [Tx [CMD_READ_RESULT; addr] 2; Rx 1 lo;
                       Tx [CMD_READ_RESULT; addr + 1] 2; Rx 1 hi] ->
  read_inv w0 (8 * r + S c)
    (u8 (addr + 2),
     matrix_set results (0 + Z.of_nat r) (0 + Z.of_nat c) (decode_half lo hi), w').
Proof.
  intros Hc (Ha & He & Hs & bs & Hlen & Hh & Hres) He' Hs' Hh'.
  replace (8 * r + S c)%nat with (S (8 * r + c)) by lia.
  unfold read_inv. split; [|split; [|split]].
  - rewrite Ha. apply element_addr_next.
  - congruence.
  - congruence.
  - exists (bs ++ [(lo, hi)]). split; [|split].
    + rewrite length_app. cbn [List.length]. lia.
    + rewrite Hh', Hh, stepped_addrs_S, read_log_snoc, <- app_assoc, Ha.
      * reflexivity.
      * rewrite stepped_addrs_length. symmetry. exact Hlen.
    + intros n Hn. unfold matrix_set. rewrite !Z.add_0_l.
      pose proof (Nat.div_mod_eq n 8) as Hdm.
      pose proof (Nat.mod_upper_bound n 8 ltac:(lia)) as Hub.
      destruct (Nat.eq_dec n (8 * r + c)) as [Heq | Hne].
      * assert (Hq : (n / 8 = r)%nat) by lia. assert (Hm : (n mod 8 = c)%nat) by lia.
        rewrite Hq, Hm, !Z.eqb_refl. cbn [andb].
        rewrite app_nth2 by lia. replace (n - List.length bs)%nat with O by lia.
        reflexivity.
      * rewrite app_nth1 by lia. rewrite <- Hres by lia.
        destruct (Z.eqb_spec (Z.of_nat (n / 8)) (Z.of_nat r));
          destruct (Z.eqb_spec (Z.of_nat (n mod 8)) (Z.of_nat c));
          cbn [andb]; try reflexivity.
        exfalso. lia.
Qed.

Lemma read_inv_start (w0 : world) (results : matrix) :
  read_inv w0 0 (RESULT_BASE, results, w0).
Proof.
  unfold read_inv. split; [reflexivity|]. split; [reflexivity|].
  split; [reflexivity|]. exists []. split; [reflexivity|].
  split; [cbn; symmetry; apply app_nil_r|]. intros n Hn. lia.
Qed.

Lemma read_inv_ready (w0 : world) (k : nat) (addr : Z) (m : matrix) (w : world) :
  no_io_error (env w0) -> read_inv w0 k (addr, m, w) ->
  no_io_error (env w) /\ 0 <= addr < 256 /\ Z.even addr = true.
Proof.
  intros Hok (Ha & He & _). rewrite He, Ha. split; [exact Hok|].
  split; [apply u8_range | apply element_addr_even; reflexivity].
Qed.

Lemma tpu_read_results_inv (w0 : world) (results0 : matrix) :
  no_io_error (env w0) ->
  exists addr results' w',
    tpu_read_results w0 results0 = (0, results', w') /\
    read_inv w0 64 (addr, results', w').
Proof.
  intros Hok. unfold tpu_read_results. cbv zeta.
  match goal with
  | |- context [for_range MATRIX_SIZE 0 ?body (RESULT_BASE, results0, w0)] =>
      destruct (for_range_inv (fun r => read_inv w0 (8 * r)) body MATRIX_SIZE 0
                  (RESULT_BASE, results0, w0)) as ([[addr results'] w'] & Heq & Hinv)
  end.
  - apply read_inv_start.
  - intros r s Hr Hinv.
    replace (8 * S r)%nat with (8 * r + 8)%nat by lia.
    apply (for_range_inv (fun c => read_inv w0 (8 * r + c))).
    + rewrite Nat.add_0_r. exact Hinv.
    + intros c [[addr results] w] Hc Hin.
      destruct (read_inv_ready _ _ _ _ _ Hok Hin) as (Hokw & Ha & He).
      destruct (tpu_read_fp16_ok w addr Hokw Ha He)
        as (lo & hi & w' & Hrd & _ & He' & Hs' & Hh').
      rewrite Hrd. eexists. split; [reflexivity|].
      apply (read_inv_step w0 w w' r c addr lo hi results); assumption.
  - rewrite Heq. exists addr, results', w'. split; [reflexivity | exact Hinv].
Qed.

Lemma readResults_inv (w0 : world) :
  no_io_error (env w0) ->
  exists addr results' w',
    Cpp.TPUDriver.readResults w0 = (Cpp.Returns results', w') /\
    read_inv w0 64 (addr, results', w').
Proof.
  intros Hok. unfold Cpp.TPUDriver.readResults. cbv zeta. unfold Cpp.bind at 1.
  match goal with
  | |- context [Cpp.TPUDriver.for_range_io Cpp.MATRIX_SIZE 0 ?body ?s0 w0] =>
      destruct (for_range_io_inv (fun r s w => read_inv w0 (8 * r) (s, w)) body
                  Cpp.MATRIX_SIZE 0 s0 w0) as ([addr results'] & w' & Heq & Hinv)
  end.
  - apply read_inv_start.
  - intros r s w Hr Hinv.
    replace (8 * S r)%nat with (8 * r + 8)%nat by lia.
    apply (for_range_io_inv (fun c s w => read_inv w0 (8 * r + c) (s, w))).
    + rewrite Nat.add_0_r. exact Hinv.
    + intros c [addr results] w1 Hc Hin.
      destruct (read_inv_ready _ _ _ _ _ Hok Hin) as (Hokw & Ha & He).
      destruct (tpu_read_fp16_ok w1 addr Hokw Ha He)
        as (lo & hi & w' & _ & Hrd & He' & Hs' & Hh').
      unfold Cpp.bind. rewrite Hrd. eexists. eexists. split; [reflexivity|].
      apply (read_inv_step w0 w1 w' r c addr lo hi results); assumption.
  - rewrite Heq.
    exists addr, results', w'. split; [reflexivity | exact Hinv].
Qed.

Lemma read_inv_reads_matrix (w w' : world) (addr : Z) (results' : matrix) :
  read_inv w 64 (addr, results', w') -> reads_matrix w w' results'.
Proof.
  intros (_ & _ & Hs & bs & Hlen & Hh & Hres).
  exists (stepped_addrs RESULT_BASE 64), bs.
  split; [apply stepped_addrs_length|]. split; [exact Hlen|].
  split; [exact Hh|]. split; [exact Hs|]. split; [|split].
  - unfold stepped_addrs. apply Forall_forall. intros a Ha.
    apply in_map_iff in Ha. destruct Ha as (k & <- & _).
    split; [apply u8_range | apply element_addr_even; reflexivity].
  - vm_compute. reflexivity.
  - intros i j Hi Hj. rewrite <- Hres by lia.
    replace ((8 * i + j) / 8)%nat with i.
    + replace ((8 * i + j) mod 8)%nat with j; [reflexivity|].
      rewrite Nat.add_comm, Nat.mul_comm, Nat.Div0.mod_add.
      symmetry. apply Nat.mod_small. exact Hj.
    + rewrite Nat.add_comm, Nat.mul_comm, Nat.div_add by lia.
      rewrite Nat.div_small by exact Hj. reflexivity.
Qed.

(** Claim C1, amended.  When no call on the serial line fails,
    [tpu_read_results] and [readResults] succeed after exactly 64 16-bit
    reads, one per element of the 8x8 grid in row-major order; each read
    is two [ReadResult] frames, at an even address and at its successor,
    128 single-byte reads in all; the first 32 reads, rows 0 to 3, are
    at 192, 194, ..., 254 and use up the result region [192, 256). *)
Theorem read_results_requests (w : world) (results : matrix) :
  no_io_error (env w) ->
  (exists results' w',
     tpu_read_results w results = (0, results', w') /\
     reads_matrix w w' results') /\
  (exists results' w',
     Cpp.TPUDriver.readResults w = (Cpp.Returns results', w') /\
     reads_matrix w w' results').
Proof.
  intros Hok. split.
  - destruct (tpu_read_results_inv w results Hok) as (a & r' & w' & Heq & Hinv).
    exists r', w'. split; [exact Heq|]. exact (read_inv_reads_matrix _ _ _ _ Hinv).
  - destruct (readResults_inv w Hok) as (a & r' & w' & Heq & Hinv).
    exists r', w'. split; [exact Heq|]. exact (read_inv_reads_matrix _ _ _ _ Hinv).
Qed.

Lemma read_results_requests_witness :
  exists results' w',
    tpu_read_results (boot (answering 0 100 50)) zeros = (0, results', w') /\
    reads_matrix (boot (answering 0 100 50)) w' results'.
Proof.
  apply (read_results_requests (boot (answering 0 100 50)) zeros).
  split; intros h x; reflexivity.
Defined.

(** Counterexample to claim C1 as stated: against a device that answers
    every request, the 64 16-bit reads of [tpu_read_results] are not all
    at addresses from 192 to 254.  The 32nd is at 254; the running
    [uint8_t] address then wraps, and the 33rd, element (4, 0), is at
    address 0. *)
Lemma read_results_leaves_result_region :
  (let '(r, _, w') := tpu_read_results (boot (answering 0 100 50)) zeros in
   let addrs := filter Z.even (map frame_addr (sent w')) in
   r = 0 /\ List.length addrs = 64%nat /\
   nth 31 addrs 0 = 254 /\ nth 32 addrs 0 = 0 /\ nth 63 addrs 0 = 62 /\
   nth 64 (sent w') [] = [CMD_READ_RESULT; 0] /\
   ~ Forall (fun a => 192 <= a <= 254) addrs) /\
  (let '(_, w') := Cpp.TPUDriver.readResults (boot (answering 0 100 50)) in
   let addrs := filter Z.even (map frame_addr (sent w')) in
   List.length addrs = 64%nat /\ nth 32 addrs 0 = 0 /\
   ~ Forall (fun a => 192 <= a <= 254) addrs).
Proof.
  vm_compute. repeat split; intros H;
    do 32 (apply Forall_inv_tail in H); apply Forall_inv in H;
    destruct H as [H _]; apply H; reflexivity.
Qed.

(** Claim C2, evaluated where it fails.  Against a device that
    acknowledges every write, [tpu_write_activations] and
    [writeActivations] succeed and send 128 [WriteActivation] frames whose
    addresses run from 128 to 255: the 65th frame, the low byte of element
    (4, 0), is at address 192, and rows 4 to 7 are written at 192 and
    above. *)
Theorem write_activations_reaches_result_region :
  (let '(r, w') := tpu_write_activations (boot (answering ACK 100 50)) zeros in
   r = 0 /\
   map frame_cmd (sent w') = repeat CMD_WRITE_ACTIVATION 128 /\
   map frame_addr (sent w') = map Z.of_nat (seq 128 128) /\
   nth 64 (sent w') [] = [CMD_WRITE_ACTIVATION; 192; 0]) /\
  (let '(r, w') := Cpp.TPUDriver.writeActivations zeros (boot (answering ACK 100 50)) in
   r = Cpp.Returns tt /\
   map frame_addr (sent w') = map Z.of_nat (seq 128 128) /\
   nth 64 (sent w') [] = [CMD_WRITE_ACTIVATION; 192; 0]).
Proof. vm_compute. repeat split. Qed.

(** ** The poll loop *)

Lemma never_done_reply (w : world) (frame : list Z) :
  never_done (env w) -> Z.land (snd (reply_to w frame)) STATUS_DONE = 0.
Proof.
  intros Hnd. unfold reply_to.
  specialize (Hnd (hist w ++ [Tx frame (write_count w frame)]) 1).
  destruct (read_ret _ _ _). exact Hnd.
Qed.

(** One round of status polling against a device that is not done. *)
Lemma poll_not_done (w : world) :
  no_io_error (env w) -> never_done (env w) ->
  exists b w',
    Z.land b STATUS_DONE = 0 /\
    tpu_get_status w
      = (0, Some {| busy := if truthy (Z.land b STATUS_BUSY) then 1 else 0;
                    done := 0 |}, w') /\
    Cpp.TPUDriver.getStatus w = (Cpp.Returns (Cpp.TPUStatus_of_byte b), w') /\
    Cpp.done (Cpp.TPUStatus_of_byte b) = false /\
    env w' = env w /\ stderr w' = stderr w /\
    hist w' = hist w ++ [Tx [CMD_STATUS] 1; Rx 1 b] /\
    wall_us w' = wall_us w + io_wall_us (env w) (hist w)
                 + io_wall_us (env w) (hist w ++ [Tx [CMD_STATUS] 1]) /\
    cpu_ticks w' = cpu_ticks w + io_cpu_ticks (env w) (hist w)
                   + io_cpu_ticks (env w) (hist w ++ [Tx [CMD_STATUS] 1]).
Proof.
  intros Hok Hnd.
  destruct (no_io_error_exchange w [CMD_STATUS] Hok) as (Hw & Hr).
  cbn [List.length Z.of_nat Pos.of_succ_nat] in Hw.
  pose proof (never_done_reply w [CMD_STATUS] Hnd) as Hb.
  exists (snd (reply_to w [CMD_STATUS])). eexists.
  split; [exact Hb|].
  rewrite tpu_get_status_unfold, getStatus_unfold. cbv zeta.
  rewrite Hw, Hr. cbn [Z.eqb Z.ltb Z.compare Pos.eqb negb].
  rewrite (done_bit_clear _ Hb).
  split; [reflexivity|]. split; [reflexivity|].
  split; [unfold Cpp.TPUStatus_of_byte; cbn [Cpp.done];
          change 0x02 with STATUS_DONE; apply done_bit_clear; exact Hb|].
  cbn [env stderr hist wall_us cpu_ticks io_step]. rewrite <- app_assoc.
  repeat split; lia.
Qed.

Section CppDeadline.

Variables (L timeout_ms start : Z) (p : platform).
Hypothesis Hok : no_io_error p.
Hypothesis Hnd : never_done p.
Hypothesis Hlat : io_within L p.

Lemma waitUntilDone_loop_deadline (n : nat) :
  forall w : world,
  env w = p -> start <= wall_us w ->
  1000 * (timeout_ms + 1) - (wall_us w - start) <= 10000 * Z.of_nat n ->
  exists fuel w',
    Cpp.TPUDriver.waitUntilDone_loop fuel start timeout_ms w
      = Some (Cpp.Throws (Cpp.runtime_error "Timeout waiting for TPU"), w') /\
    wall_us w' - start
    <= Z.max (wall_us w - start + 2 * L)
             (1000 * timeout_ms + 999 + 10000 + 2 * L).
Proof.
  induction n as [|n IH]; intros w Hp Hs Hn.
  - subst p. destruct (poll_not_done w Hok Hnd)
      as (b & w1 & _ & _ & Hg & Hd & He & _ & _ & Hwall & _).
    pose proof (Hlat (hist w)) as H1.
    pose proof (Hlat (hist w ++ [Tx [CMD_STATUS] 1])) as H2.
    exists 1%nat, w1. cbn [Cpp.TPUDriver.waitUntilDone_loop].
    rewrite Hg, Hd. unfold steady_clock_now.
    rewrite Z.quot_div_nonneg by lia.
    destruct (Z.gtb_spec ((wall_us w1 - start) / 1000) timeout_ms) as [Hgt | Hle].
    + split; [reflexivity | lia].
    + exfalso. Z.div_mod_to_equations. lia.
  - subst p. destruct (poll_not_done w Hok Hnd)
      as (b & w1 & _ & _ & Hg & Hd & He & _ & _ & Hwall & _).
    pose proof (Hlat (hist w)) as H1.
    pose proof (Hlat (hist w ++ [Tx [CMD_STATUS] 1])) as H2.
    destruct (Z.gtb_spec ((wall_us w1 - start) / 1000) timeout_ms) as [Hgt | Hle].
    + exists 1%nat, w1. cbn [Cpp.TPUDriver.waitUntilDone_loop].
      rewrite Hg, Hd. unfold steady_clock_now.
      rewrite Z.quot_div_nonneg by lia.
      destruct (Z.gtb_spec ((wall_us w1 - start) / 1000) timeout_ms); [|lia].
      split; [reflexivity | lia].
    + destruct (IH (usleep (1000 * 10) w1)) as (fuel & w' & Hrun & Hb).
      * cbn [env usleep]. exact He.
      * cbn [wall_us usleep]. lia.
      * cbn [wall_us usleep]. lia.
      * exists (S fuel), w'. cbn [Cpp.TPUDriver.waitUntilDone_loop].
        rewrite Hg, Hd. unfold steady_clock_now.
        rewrite Z.quot_div_nonneg by lia.
        destruct (Z.gtb_spec ((wall_us w1 - start) / 1000) timeout_ms); [lia|].
        unfold Cpp.TPUDriver.sleep_for_ms. split; [exact Hrun|].
        cbn [wall_us usleep] in Hb.
        assert (wall_us w1 - start <= 1000 * timeout_ms + 999)
          by (Z.div_mod_to_equations; lia).
        lia.
Qed.

End CppDeadline.


(** The C loop does not see wall time: while the calls on the line use
    no measurable processor time, it polls for ever. *)
Lemma tpu_wait_until_done_blind (timeout_ms start : Z) (p : platform) :
  no_io_error p -> never_done p -> (forall h, io_cpu_ticks p h = 0) ->
  0 <= timeout_ms ->
  forall (fuel : nat) (w : world),
  env w = p -> cpu_ticks w = start ->
  tpu_wait_until_done_loop fuel start timeout_ms w = None.
Proof.
  intros Hok Hnd Hcpu Ht. induction fuel as [|fuel IH]; intros w Hp Hs.
  - reflexivity.
  - subst p. destruct (poll_not_done w Hok Hnd)
      as (b & w1 & _ & Hg & _ & _ & He & _ & _ & _ & Hc).
    cbn [tpu_wait_until_done_loop]. rewrite Hg. cbn [done truthy Z.eqb negb].
    unfold clock. rewrite Hc, !Hcpu, Hs.
    replace (start + 0 + 0 - start) with 0 by lia.
    cbn [Z.mul Z.quot Z.quotrem fst].
    destruct (Z.gtb_spec 0 timeout_ms); [lia|].
    apply IH; [exact He|]. cbn [cpu_ticks usleep]. rewrite Hc, !Hcpu. lia.
Qed.

(** Claim C3, evaluated where it fails.  A device that never reports
    done, on a line where every call takes 100 microseconds and 50 ticks
    of processor time, and a timeout of 20 ms.  [tpu_wait_until_done]
    compares the timeout with readings of [clock()], the processor time,
    which the 10 ms sleeps do not advance: after 209 rounds it is still
    polling, and it reports the timeout in round 210, 2132 ms after the
    call.  [waitUntilDone], which reads the steady clock, throws in
    round 4, after 30.8 ms. *)
Theorem c_poll_loop_overruns_deadline :
  let w := boot (answering 0 100 50) in
  let timeout_ms := 20 in
  tpu_wait_until_done 209 w timeout_ms = None /\
  (exists w',
     tpu_wait_until_done 210 w timeout_ms = Some (-1, w') /\
     stderr w' = ["Error: Timeout waiting for TPU"%string] /\
     List.length (sent w') = 210%nat /\
     cpu_ticks w' - cpu_ticks w = 21000 /\
     wall_us w' - wall_us w = 2132000) /\
  (exists w',
     Cpp.TPUDriver.waitUntilDone 4 timeout_ms w
       = Some (Cpp.Throws (Cpp.runtime_error "Timeout waiting for TPU"), w') /\
     wall_us w' - wall_us w = 30800).
Proof.
  cbv zeta. split; [vm_compute; reflexivity|].
  split; eexists; (split; [vm_compute; reflexivity|]); vm_compute; repeat split.
Qed.

(** * Further properties *)

(** ** More on the codec *)

Lemma float_to_fp16_special (x : Z) :
  0 <= x < 2 ^ 32 -> f32_exp x = 255 ->
  float_to_fp16 x
  = f32_sign x * 2 ^ 15 + 0x7C00 + (if f32_mant x =? 0 then 0 else 0x200).
Proof.
  intros Hx He. destruct (f32_fields x Hx) as (Hs & _ & _ & _).
  rewrite float_to_fp16_fold. cbv zeta. rewrite He. cbn [Z.eqb Pos.eqb].
  rewrite sign_shift16 by lia. unfold truthy.
  rewrite (lor_disjoint (f32_sign x * 32768) 0x7C00 15);
    [ | lia | change (2 ^ 15) with 32768; Z.div_mod_to_equations; lia
      | change (2 ^ 15) with 32768; lia ].
  unfold u16. change (2 ^ 16) with 65536. change (2 ^ 15) with 32768.
  assert (Hsign : f32_sign x = 0 \/ f32_sign x = 1) by lia.
  destruct (f32_mant x =? 0); cbn [negb];
    destruct Hsign as [-> | ->]; reflexivity.
Qed.

Lemma fp16_to_float_zero (h : Z) :
  0 <= h < 2 ^ 16 -> fp16_exp h = 0 -> fp16_to_float h = fp16_sign h * 2 ^ 31.
Proof.
  intros Hh He. destruct (fp16_fields h Hh) as (Hs & _ & _ & _).
  rewrite fp16_to_float_fold. cbv zeta. rewrite He. cbn [Z.eqb].
  apply sign_shift32. exact Hs.
Qed.

Lemma fp16_to_float_special (h : Z) :
  0 <= h < 2 ^ 16 -> fp16_exp h = 31 ->
  fp16_to_float h = fp16_sign h * 2 ^ 31 + 0x7F800000 + fp16_mant h * 2 ^ 13.
Proof.
  intros Hh He. destruct (fp16_fields h Hh) as (Hs & _ & Hm & _).
  rewrite fp16_to_float_fold. cbv zeta. rewrite He. cbn [Z.eqb Pos.eqb].
  rewrite sign_shift32 by lia.
  unfold u32. rewrite Z.shiftl_mul_pow2 by lia.
  change (2 ^ 10) with 1024 in Hm. change (2 ^ 13) with 8192.
  change (2 ^ 32) with 4294967296. change (2 ^ 31) with 2147483648.
  rewrite (Z.mod_small (fp16_mant h * 8192)) by lia.
  rewrite (lor_disjoint (fp16_sign h * 2147483648) 0x7F800000 31);
    [ | lia | change (2 ^ 31) with 2147483648; Z.div_mod_to_equations; lia
      | change (2 ^ 31) with 2147483648; lia ].
  rewrite (lor_disjoint (fp16_sign h * 2147483648 + 0x7F800000)
             (fp16_mant h * 8192) 23);
    [ | lia | change (2 ^ 23) with 8388608; Z.div_mod_to_equations; lia
      | change (2 ^ 23) with 8388608; lia ].
  reflexivity.
Qed.

(** Every result of the encoder is the sign bit on top of 15 low bits. *)
Lemma float_to_fp16_form (x : Z) :
  0 <= x < 2 ^ 32 ->
  exists r, 0 <= r < 2 ^ 15 /\ float_to_fp16 x = f32_sign x * 2 ^ 15 + r.
Proof.
  intros Hx. destruct (f32_fields x Hx) as (Hs & He & Hm & _).
  destruct (Z.eq_dec (f32_exp x) 255) as [H255 | H255].
  { rewrite (float_to_fp16_special x Hx H255).
    exists (0x7C00 + (if f32_mant x =? 0 then 0 else 0x200)).
    split; [destruct (f32_mant x =? 0); change (2 ^ 15) with 32768; lia | lia]. }
  destruct (Z.le_gt_cases (f32_exp x) 112) as [Hlo | Hlo].
  { rewrite (float_to_fp16_underflow x Hx Hlo). exists 0.
    split; [change (2 ^ 15) with 32768; lia | lia]. }
  destruct (Z.le_gt_cases (f32_exp x) 142) as [Hin | Hhi].
  { rewrite (float_to_fp16_in_range x Hx ltac:(lia)).
    exists ((f32_exp x - 112) * 2 ^ 10 + f32_mant x / 2 ^ 13).
    split; [|lia].
    change (2 ^ 23) with 8388608 in Hm. change (2 ^ 15) with 32768.
    change (2 ^ 13) with 8192. change (2 ^ 10) with 1024.
    Z.div_mod_to_equations; lia. }
  rewrite (float_to_fp16_overflow x Hx ltac:(lia)). exists 0x7C00.
  split; [change (2 ^ 15) with 32768; lia | lia].
Qed.

Lemma fp16_fields_of_sum (s r : Z) :
  0 <= s <= 1 -> 0 <= r < 2 ^ 15 ->
  let h := s * 2 ^ 15 + r in
  0 <= h < 2 ^ 16 /\ fp16_sign h = s /\
  fp16_exp h = r / 2 ^ 10 /\ fp16_mant h = r mod 2 ^ 10.
Proof.
  intros Hs Hr h.
  destruct (fp16_fields_of s (r / 2 ^ 10) (r mod 2 ^ 10)) as (H1 & H2 & H3).
  - exact Hs.
  - change (2 ^ 15) with 32768 in Hr. change (2 ^ 10) with 1024.
    Z.div_mod_to_equations; lia.
  - change (2 ^ 10) with 1024. Z.div_mod_to_equations; lia.
  - assert (Hh : h = s * 2 ^ 15 + r / 2 ^ 10 * 2 ^ 10 + r mod 2 ^ 10).
    { unfold h. change (2 ^ 10) with 1024. Z.div_mod_to_equations; lia. }
    rewrite <- Hh in H1, H2, H3. repeat split; try assumption;
      unfold h; change (2 ^ 15) with 32768 in *; change (2 ^ 16) with 65536; lia.
Qed.

(** Property X1.  [float_to_fp16] on every binary32 pattern: the result
    is a 16-bit pattern with the sign of the argument; an infinity
    becomes the infinity of its sign, a NaN becomes a NaN whose payload
    is the single bit 0x200, whatever the payload was; a zero or a
    subnormal becomes the zero of its sign; and no finite argument
    yields a NaN pattern. *)
Theorem float_to_fp16_category (x : Z) :
  0 <= x < 2 ^ 32 ->
  let h := float_to_fp16 x in
  0 <= h < 2 ^ 16 /\
  fp16_sign h = f32_sign x /\
  (f32_exp x = 255 -> f32_mant x = 0 -> fp16_exp h = 31 /\ fp16_mant h = 0) /\
  (f32_exp x = 255 -> f32_mant x <> 0 -> fp16_exp h = 31 /\ fp16_mant h = 0x200) /\
  (f32_exp x = 0 -> fp16_exp h = 0 /\ fp16_mant h = 0) /\
  (f32_finite x -> fp16_exp h = 31 -> fp16_mant h = 0).
Proof.
  intros Hx h. destruct (f32_fields x Hx) as (Hs & He & Hm & _).
  destruct (float_to_fp16_form x Hx) as (r & Hr & Hform).
  destruct (fp16_fields_of_sum (f32_sign x) r Hs Hr) as (Hrange & Hsgn & Hexp & Hmant).
  cbv zeta in Hrange, Hsgn, Hexp, Hmant. rewrite <- Hform in Hrange, Hsgn, Hexp, Hmant.
  fold h in Hrange, Hsgn, Hexp, Hmant.
  split; [exact Hrange|]. split; [exact Hsgn|].
  assert (Hr_of : forall r', 0 <= r' < 2 ^ 15 -> float_to_fp16 x = f32_sign x * 2 ^ 15 + r' -> r = r') by (intros; lia).
  split; [|split; [|split]].
  - intros H255 H0. pose proof (float_to_fp16_special x Hx H255) as Hsp.
    rewrite H0 in Hsp. cbn [Z.eqb] in Hsp.
    assert (r = 0x7C00) as -> by (apply Hr_of; [change (2 ^ 15) with 32768|]; lia).
    split; [rewrite Hexp | rewrite Hmant]; reflexivity.
  - intros H255 H0. pose proof (float_to_fp16_special x Hx H255) as Hsp.
    apply Z.eqb_neq in H0. rewrite H0 in Hsp.
    assert (r = 0x7E00) as -> by (apply Hr_of; [change (2 ^ 15) with 32768|]; lia).
    split; [rewrite Hexp | rewrite Hmant]; reflexivity.
  - intros H0. pose proof (float_to_fp16_underflow x Hx ltac:(lia)) as Hsp.
    assert (r = 0) as -> by (apply Hr_of; [change (2 ^ 15) with 32768|]; lia).
    split; [rewrite Hexp | rewrite Hmant]; reflexivity.
  - intros Hf H31. unfold f32_finite in Hf.
    destruct (Z.le_gt_cases (f32_exp x) 112) as [Hlo | Hlo].
    { pose proof (float_to_fp16_underflow x Hx Hlo) as Hsp.
      assert (r = 0) as -> by (apply Hr_of; [change (2 ^ 15) with 32768|]; lia).
      rewrite Hmant. reflexivity. }
    destruct (Z.le_gt_cases (f32_exp x) 142) as [Hin | Hhi].
    { exfalso. pose proof (float_to_fp16_in_range x Hx ltac:(lia)) as Hsp.
      assert (r = (f32_exp x - 112) * 2 ^ 10 + f32_mant x / 2 ^ 13) as -> by lia.
      rewrite Hexp in H31.
      change (2 ^ 23) with 8388608 in Hm. change (2 ^ 13) with 8192 in H31.
      change (2 ^ 10) with 1024 in H31. Z.div_mod_to_equations; lia. }
    pose proof (float_to_fp16_overflow x Hx ltac:(lia)) as Hsp.
    assert (r = 0x7C00) as -> by (apply Hr_of; [change (2 ^ 15) with 32768|]; lia).
    rewrite Hmant. reflexivity.
Qed.

Lemma Qeq_scaled (a b : Z) (k : Z) (d e : positive) :
  Z.pos e = Z.pos d * k -> a = b * k -> (a # e == b # d)%Q.
Proof.
  intros He Ha. unfold Qeq. cbn [Qnum Qden]. rewrite He, Ha. ring.
Qed.

Lemma fp16_to_float_decoded (h : Z) :
  0 <= h < 2 ^ 16 ->
  let x := fp16_to_float h in
  0 <= x < 2 ^ 32 /\
  f32_sign x = fp16_sign h /\
  (fp16_normal h ->
     f32_normal x /\ f32_value x == fp16_value h /\ x mod 2 ^ 13 = 0) /\
  (fp16_exp h = 0 -> x = fp16_sign h * 2 ^ 31 /\ f32_value x == 0) /\
  (fp16_exp h = 31 ->
     f32_exp x = 255 /\ f32_mant x = fp16_mant h * 2 ^ 13).
Proof.
  intros Hh x. destruct (fp16_fields h Hh) as (Hs & He & Hm & _).
  change (2 ^ 10) with 1024 in Hm.
  assert (Hcases : fp16_exp h = 0 \/ fp16_normal h \/ fp16_exp h = 31)
    by (unfold fp16_normal; lia).
  assert (Hx : exists e m, 0 <= e < 256 /\ 0 <= m < 2 ^ 23 /\
             x = fp16_sign h * 2 ^ 31 + e * 2 ^ 23 + m /\
             (fp16_exp h = 0 -> e = 0 /\ m = 0) /\
             (fp16_normal h -> e = fp16_exp h + 112 /\ m = fp16_mant h * 2 ^ 13) /\
             (fp16_exp h = 31 -> e = 255 /\ m = fp16_mant h * 2 ^ 13)).
  { destruct Hcases as [H0 | [Hn | H31]].
    - exists 0, 0. unfold x. rewrite (fp16_to_float_zero h Hh H0).
      unfold fp16_normal. repeat split; lia.
    - exists (fp16_exp h + 112), (fp16_mant h * 2 ^ 13). unfold x.
      rewrite (fp16_to_float_normal h Hh Hn). unfold fp16_normal in *.
      change (2 ^ 23) with 8388608. change (2 ^ 13) with 8192.
      repeat split; lia.
    - exists 255, (fp16_mant h * 2 ^ 13). unfold x.
      rewrite (fp16_to_float_special h Hh H31). unfold fp16_normal.
      change (2 ^ 23) with 8388608. change (2 ^ 13) with 8192.
      repeat split; lia. }
  destruct Hx as (e & m & Hbe & Hbm & Hxeq & Hz & Hnorm & Hsp).
  destruct (f32_fields_of (fp16_sign h) e m Hs Hbe Hbm) as (F1 & F2 & F3).
  cbv zeta in F1, F2, F3. rewrite <- Hxeq in F1, F2, F3.
  split.
  { rewrite Hxeq. change (2 ^ 32) with 4294967296. change (2 ^ 31) with 2147483648.
    change (2 ^ 23) with 8388608 in *. lia. }
  split; [exact F1|]. split; [|split].
  - intros Hn. destruct (Hnorm Hn) as (-> & ->). unfold fp16_normal in Hn.
    split; [unfold f32_normal; lia|]. split.
    + unfold f32_value, fp16_value, f32_units, fp16_units.
      rewrite F1, F2, F3.
      destruct (Z.eqb_spec (fp16_exp h + 112) 0); [lia|].
      destruct (Z.eqb_spec (fp16_exp h) 0); [lia|].
      apply (Qeq_scaled _ _ (2 ^ 125)); [reflexivity|].
      replace (fp16_exp h + 112 - 1) with ((fp16_exp h - 1) + 112) by lia.
      rewrite Z.pow_add_r by lia.
      unfold signed. change (2 ^ 23) with (2 ^ 10 * 2 ^ 13).
      change (2 ^ 125) with (2 ^ 13 * 2 ^ 112).
      destruct (fp16_sign h =? 0); ring.
    + rewrite Hxeq. change (2 ^ 31) with (262144 * 2 ^ 13).
      change (2 ^ 23) with (1024 * 2 ^ 13).
      replace (fp16_sign h * (262144 * 2 ^ 13)
               + (fp16_exp h + 112) * (1024 * 2 ^ 13) + fp16_mant h * 2 ^ 13)
        with ((fp16_sign h * 262144 + (fp16_exp h + 112) * 1024 + fp16_mant h)
              * 2 ^ 13) by ring.
      apply Z.mod_mul. lia.
  - intros H0. destruct (Hz H0) as (-> & ->).
    split; [rewrite Hxeq; lia|].
    unfold f32_value, f32_units. rewrite F2, F3. cbn [Z.eqb].
    unfold signed. destruct (f32_sign x =? 0); reflexivity.
  - intros H31. destruct (Hsp H31) as (-> & ->). split; assumption.
Qed.

(** Property X2.  [fp16_to_float] on every 16-bit pattern: the sign is
    kept; a normal half becomes the normal binary32 of exactly the same
    value, with its 13 low mantissa bits clear; a half with exponent
    field 0, a subnormal included, becomes the zero of its sign, so the
    value of a subnormal is dropped; an infinity or a NaN keeps its kind,
    the payload moved up by 13 bits. *)
Theorem fp16_to_float_exact (h : Z) :
  0 <= h < 2 ^ 16 ->
  let x := fp16_to_float h in
  0 <= x < 2 ^ 32 /\
  f32_sign x = fp16_sign h /\
  (fp16_normal h ->
     f32_normal x /\ f32_value x == fp16_value h /\ x mod 2 ^ 13 = 0) /\
  (fp16_exp h = 0 -> x = fp16_sign h * 2 ^ 31 /\ f32_value x == 0) /\
  (fp16_exp h = 31 ->
     f32_exp x = 255 /\ f32_mant x = fp16_mant h * 2 ^ 13).
Proof. exact (fp16_to_float_decoded h). Qed.

(** Property X3.  Decoding a half and encoding it again: a normal half
    and an infinity come back unchanged, a zero or subnormal comes back
    as the zero of its sign, and a NaN comes back as the NaN 0x7E00 of
    its sign. *)
Theorem encode_after_decode (h : Z) :
  0 <= h < 2 ^ 16 ->
  let h' := float_to_fp16 (fp16_to_float h) in
  (fp16_normal h -> h' = h) /\
  (fp16_exp h = 0 -> h' = fp16_sign h * 2 ^ 15) /\
  (fp16_exp h = 31 -> fp16_mant h = 0 -> h' = h) /\
  (fp16_exp h = 31 -> fp16_mant h <> 0 -> h' = fp16_sign h * 2 ^ 15 + 0x7E00).
Proof.
  intros Hh h'. destruct (fp16_fields h Hh) as (Hs & He & Hm & Hdec).
  destruct (fp16_to_float_decoded h Hh) as (Hx & Hsx & Hn & Hz & Hsp).
  cbv zeta in Hx, Hsx, Hn, Hz, Hsp.
  change (2 ^ 10) with 1024 in Hm.
  split; [|split; [|split]].
  - intros Hnorm. unfold h'.
    pose proof (fp16_to_float_normal h Hh Hnorm) as Hform.
    unfold fp16_normal in Hnorm.
    destruct (f32_fields_of (fp16_sign h) (fp16_exp h + 112)
                (fp16_mant h * 2 ^ 13)) as (F1 & F2 & F3);
      [lia | lia | change (2 ^ 13) with 8192; change (2 ^ 23) with 8388608; lia |].
    cbv zeta in F1, F2, F3. rewrite <- Hform in F1, F2, F3.
    rewrite float_to_fp16_in_range by (try assumption; lia).
    rewrite F1, F2, F3, Z.div_mul by lia.
    rewrite Hdec at 4. ring.
  - intros H0. unfold h'. destruct (Hz H0) as (Hxz & _).
    rewrite float_to_fp16_underflow; [rewrite Hsx; reflexivity | exact Hx |].
    destruct (f32_fields_of (fp16_sign h) 0 0) as (_ & F2 & _);
      [lia | lia | lia |].
    cbv zeta in F2. replace (fp16_sign h * 2 ^ 31 + 0 * 2 ^ 23 + 0)
      with (fp16_to_float h) in F2 by lia.
    lia.
  - intros H31 H0. unfold h'. destruct (Hsp H31) as (F2 & F3).
    rewrite float_to_fp16_special by assumption.
    rewrite Hsx, F3, H0. cbn [Z.mul Z.eqb].
    rewrite Hdec at 2. rewrite H31, H0. change (2 ^ 10) with 1024. lia.
  - intros H31 H0. unfold h'. destruct (Hsp H31) as (F2 & F3).
    rewrite float_to_fp16_special by assumption.
    rewrite Hsx, F3.
    destruct (Z.eqb_spec (fp16_mant h * 2 ^ 13) 0); [lia | lia].
Qed.

Lemma decoded_units (h : Z) :
  0 <= h < 2 ^ 16 -> fp16_normal h ->
  f32_units (fp16_to_float h) = fp16_units h * 2 ^ 125.
Proof.
  intros Hh Hn. destruct (fp16_fields h Hh) as (Hs & He & Hm & _).
  pose proof (fp16_to_float_normal h Hh Hn) as Hform.
  unfold fp16_normal in Hn.
  destruct (f32_fields_of (fp16_sign h) (fp16_exp h + 112)
              (fp16_mant h * 2 ^ 13)) as (_ & F2 & F3);
    [lia | lia
     | change (2 ^ 10) with 1024 in Hm; change (2 ^ 13) with 8192;
       change (2 ^ 23) with 8388608; lia |].
  cbv zeta in F2, F3. rewrite <- Hform in F2, F3.
  unfold f32_units, fp16_units. rewrite F2, F3.
  destruct (Z.eqb_spec (fp16_exp h + 112) 0); [lia|].
  destruct (Z.eqb_spec (fp16_exp h) 0); [lia|].
  replace (fp16_exp h + 112 - 1) with ((fp16_exp h - 1) + 112) by lia.
  rewrite Z.pow_add_r by lia.
  change (2 ^ 23) with (2 ^ 10 * 2 ^ 13). change (2 ^ 125) with (2 ^ 13 * 2 ^ 112).
  ring.
Qed.

(** Property X4.  In the normal range of binary16 [float_to_fp16]
    rounds toward zero: the result is a normal half of the same sign
    whose magnitude is at most that of the argument and less than one
    unit in the last place below it. *)
Theorem float_to_fp16_rounds_toward_zero (x : Z) :
  0 <= x < 2 ^ 32 -> f32_normal x ->
  (half_min_normal <= f32_abs x)%Q -> (f32_abs x <= half_max)%Q ->
  let h := float_to_fp16 x in
  fp16_normal h /\ fp16_sign h = f32_sign x /\
  (fp16_abs h <= f32_abs x)%Q /\ (f32_abs x < fp16_abs h + half_ulp x)%Q.
Proof.
  intros Hx Hn Hlo Hhi h.
  pose proof (in_half_range_exp x Hx Hn Hlo Hhi) as He.
  destruct (f32_fields x Hx) as (Hs & _ & Hm & _).
  assert (Hq : 0 <= f32_mant x / 2 ^ 13 < 1024).
  { change (2 ^ 23) with 8388608 in Hm. change (2 ^ 13) with 8192.
    Z.div_mod_to_equations; lia. }
  destruct (fp16_fields_of (f32_sign x) (f32_exp x - 112) (f32_mant x / 2 ^ 13))
    as (F1 & F2 & F3); [lia | lia | lia |].
  cbv zeta in F1, F2, F3.
  rewrite <- (float_to_fp16_in_range x Hx He) in F1, F2, F3. fold h in F1, F2, F3.
  assert (Hnh : fp16_normal h) by (unfold fp16_normal; lia).
  assert (Hh : 0 <= h < 2 ^ 16).
  { unfold h. rewrite (float_to_fp16_in_range x Hx He).
    change (2 ^ 16) with 65536. change (2 ^ 15) with 32768.
    change (2 ^ 10) with 1024. lia. }
  split; [exact Hnh|]. split; [exact F1|].
  destruct (f32_units_normal x Hx Hn) as (Hux & _).
  destruct (fp16_units_normal h Hh Hnh) as (Huh & _).
  rewrite F2, F3 in Huh.
  set (p := 2 ^ (f32_exp x - 112 - 1)) in *.
  assert (Hp : 0 < p) by (apply Z.pow_pos_nonneg; lia).
  assert (Hpx : 2 ^ (f32_exp x - 1) = p * 2 ^ 112).
  { unfold p. rewrite <- Z.pow_add_r by lia. f_equal. lia. }
  assert (Hulp : 2 ^ (f32_exp x + 12) = p * 2 ^ 125).
  { unfold p. rewrite <- Z.pow_add_r by lia. f_equal. lia. }
  rewrite Hpx in Hux.
  assert (Hdm : f32_mant x = 2 ^ 13 * (f32_mant x / 2 ^ 13) + f32_mant x mod 2 ^ 13)
    by (apply Z.div_mod; lia).
  assert (Hr : 0 <= f32_mant x mod 2 ^ 13 < 2 ^ 13) by (apply Z.mod_pos_bound; lia).
  set (q := f32_mant x / 2 ^ 13) in *. set (r := f32_mant x mod 2 ^ 13) in *.
  split.
  - unfold Qle, fp16_abs, f32_abs. cbn [Qnum Qden]. rewrite Hux, Huh, Hdm.
    change (Z.pos (2 ^ 149)) with (2 ^ 24 * (2 ^ 13 * 2 ^ 112)).
    change (Z.pos (2 ^ 24)) with (2 ^ 24).
    change (2 ^ 23) with (2 ^ 10 * 2 ^ 13).
    assert (0 <= r * p * 2 ^ 112 * 2 ^ 24) by (apply Z.mul_nonneg_nonneg; nia).
    nia.
  - unfold Qlt, Qplus, fp16_abs, f32_abs, half_ulp. cbn [Qnum Qden].
    rewrite Hux, Huh, Hulp, Hdm.
    rewrite Pos2Z.inj_mul.
    change (Z.pos (2 ^ 149)) with (2 ^ 24 * (2 ^ 13 * 2 ^ 112)).
    change (Z.pos (2 ^ 24)) with (2 ^ 24).
    change (2 ^ 23) with (2 ^ 10 * 2 ^ 13).
    change (2 ^ 125) with (2 ^ 13 * 2 ^ 112).
    assert (Hk : 0 < 2 ^ 24 * (2 ^ 13 * 2 ^ 112) * 2 ^ 24 * 2 ^ 112 * p) by nia.
    nia.
Qed.

(** On non-negative patterns up to +infinity the encoder is monotone. *)
Lemma float_to_fp16_monotone_patterns (x y : Z) :
  0 <= x -> x <= y -> y <= 0x7F800000 -> float_to_fp16 x <= float_to_fp16 y.
Proof.
  intros Hx0 Hxy Hy.
  assert (Hx : 0 <= x < 2 ^ 32) by (change (2 ^ 32) with 4294967296; lia).
  assert (Hy' : 0 <= y < 2 ^ 32) by (change (2 ^ 32) with 4294967296; lia).
  destruct (f32_fields x Hx) as (Hsx & Hex & Hmx & Hdx).
  destruct (f32_fields y Hy') as (Hsy & Hey & Hmy & Hdy).
  change (2 ^ 31) with 2147483648 in *. change (2 ^ 23) with 8388608 in *.
  assert (Sx : f32_sign x = 0) by lia. assert (Sy : f32_sign y = 0) by lia.
  assert (Hform : forall z, 0 <= z < 2 ^ 32 -> f32_sign z = 0 ->
            z <= 0x7F800000 ->
            z = f32_exp z * 8388608 + f32_mant z ->
            0 <= f32_mant z < 8388608 ->
            (f32_exp z <= 112 /\ float_to_fp16 z = 0) \/
            (113 <= f32_exp z <= 142 /\
             float_to_fp16 z = (f32_exp z - 112) * 1024 + f32_mant z / 8192) \/
            (143 <= f32_exp z /\ float_to_fp16 z = 0x7C00)).
  { intros z Hz Sz Hzi Hdz Hmz.
    destruct (Z.le_gt_cases (f32_exp z) 112) as [H1 | H1].
    { left. split; [exact H1|]. rewrite float_to_fp16_underflow by assumption.
      rewrite Sz. reflexivity. }
    destruct (Z.le_gt_cases (f32_exp z) 142) as [H2 | H2].
    { right; left. split; [lia|]. rewrite float_to_fp16_in_range by (try assumption; lia).
      rewrite Sz. change (2 ^ 10) with 1024. change (2 ^ 13) with 8192. lia. }
    right; right. split; [lia|].
    destruct (Z.eq_dec (f32_exp z) 255) as [H3 | H3].
    - rewrite float_to_fp16_special by assumption.
      assert (f32_mant z = 0) as -> by lia. rewrite Sz. reflexivity.
    - rewrite float_to_fp16_overflow by (try assumption; lia).
      rewrite Sz. reflexivity. }
  assert (Hxi : x <= 0x7F800000) by lia.
  destruct (Hform x Hx Sx Hxi ltac:(lia) Hmx) as [(Ex & ->) | [(Ex & ->) | (Ex & ->)]];
  destruct (Hform y Hy' Sy Hy ltac:(lia) Hmy) as [(Ey & ->) | [(Ey & ->) | (Ey & ->)]];
    try lia; try (Z.div_mod_to_equations; lia).
Qed.

Lemma f32_units_strict (x y : Z) :
  0 <= x -> x < y -> y < 0x7F800000 -> f32_units x < f32_units y.
Proof.
  intros Hx0 Hxy Hy.
  assert (Hx : 0 <= x < 2 ^ 32) by (change (2 ^ 32) with 4294967296; lia).
  assert (Hy' : 0 <= y < 2 ^ 32) by (change (2 ^ 32) with 4294967296; lia).
  destruct (f32_fields x Hx) as (Hsx & Hex & Hmx & Hdx).
  destruct (f32_fields y Hy') as (Hsy & Hey & Hmy & Hdy).
  assert (Horder : f32_exp x < f32_exp y \/
                   (f32_exp x = f32_exp y /\ f32_mant x < f32_mant y)).
  { change (2 ^ 31) with 2147483648 in *. change (2 ^ 23) with 8388608 in *. lia. }
  assert (Hey' : f32_exp y < 255).
  { change (2 ^ 31) with 2147483648 in *. change (2 ^ 23) with 8388608 in *. lia. }
  destruct (Z.eq_dec (f32_exp y) 0) as [Y0 | Y0].
  { unfold f32_units. assert (X0 : f32_exp x = 0) by lia. rewrite X0, Y0.
    cbn [Z.eqb]. lia. }
  destruct (f32_units_normal y Hy') as (Huy & Hby); [unfold f32_normal; lia|].
  destruct (Z.eq_dec (f32_exp x) 0) as [X0 | X0].
  { pose proof (f32_units_subnormal x Hx X0) as Hbx.
    assert (2 ^ 23 <= 2 ^ (f32_exp y + 22)) by (apply Z.pow_le_mono_r; lia).
    lia. }
  destruct (f32_units_normal x Hx) as (Hux & Hbx); [unfold f32_normal; lia|].
  destruct Horder as [Hlt | (Heq & Hlt)].
  - assert (2 ^ (f32_exp x + 23) <= 2 ^ (f32_exp y + 22))
      by (apply Z.pow_le_mono_r; lia).
    lia.
  - rewrite Hux, Huy, Heq.
    assert (0 < 2 ^ (f32_exp y - 1)) by (apply Z.pow_pos_nonneg; lia).
    nia.
Qed.

(** Property X5.  On finite non-negative arguments [float_to_fp16] is
    monotone: a value that is not larger is encoded by a pattern that is
    not larger. *)
Theorem float_to_fp16_monotone (x y : Z) :
  0 <= x < 2 ^ 31 -> 0 <= y < 2 ^ 31 -> f32_finite x -> f32_finite y ->
  (f32_abs x <= f32_abs y)%Q ->
  float_to_fp16 x <= float_to_fp16 y.
Proof.
  intros Hx Hy Hfx Hfy Hv.
  change (2 ^ 31) with 2147483648 in *.
  assert (Hx32 : 0 <= x < 2 ^ 32) by (change (2 ^ 32) with 4294967296; lia).
  assert (Hy32 : 0 <= y < 2 ^ 32) by (change (2 ^ 32) with 4294967296; lia).
  assert (Hbound : forall z, 0 <= z < 2 ^ 32 -> z < 2147483648 -> f32_finite z ->
                             z < 0x7F800000).
  { intros z Hz Hz31 Hf. destruct (f32_fields z Hz) as (Hs & He & Hm & Hd).
    unfold f32_finite in Hf.
    change (2 ^ 31) with 2147483648 in *. change (2 ^ 23) with 8388608 in *. lia. }
  pose proof (Hbound x Hx32 ltac:(lia) Hfx) as Hxb.
  pose proof (Hbound y Hy32 ltac:(lia) Hfy) as Hyb.
  destruct (Z.le_gt_cases x y) as [Hle | Hgt].
  - apply float_to_fp16_monotone_patterns; lia.
  - exfalso. pose proof (f32_units_strict y x ltac:(lia) Hgt Hxb) as Hu.
    unfold Qle, f32_abs in Hv. cbn [Qnum Qden] in Hv. nia.
Qed.

Lemma mod2_bits (b i : Z) :
  Z.testbit (b mod 2) i = if i =? 0 then Z.testbit b 0 else false.
Proof.
  change 2 with (2 ^ 1).
  destruct (Z.eqb_spec i 0) as [-> | Hne].
  - apply Z.mod_pow2_bits_low. lia.
  - destruct (Z.lt_ge_cases i 0).
    + apply Z.testbit_neg_r. lia.
    + apply Z.mod_pow2_bits_high. lia.
Qed.

Lemma land_8000 (a : Z) : Z.land a 0x8000 = (a / 2 ^ 15) mod 2 * 2 ^ 15.
Proof.
  apply Z.bits_inj'. intros i Hi.
  rewrite Z.land_spec. change 0x8000 with (2 ^ 15).
  rewrite Z.pow2_bits_eqb by lia.
  rewrite Z.mul_pow2_bits by lia. rewrite mod2_bits.
  destruct (Z.eqb_spec 15 i) as [<- | Hne].
  - rewrite andb_true_r. cbn [Z.sub Z.add Z.opp Z.pos_sub Z.eqb Pos.pred_double Z.double Z.succ_double Z.pred_double].
    rewrite Z.div_pow2_bits by lia. reflexivity.
  - rewrite andb_false_r.
    destruct (Z.eqb_spec (i - 15) 0); [lia | reflexivity].
Qed.

Lemma land_7FFFFFFF (a : Z) : Z.land a 0x7FFFFFFF = a mod 2147483648.
Proof. exact (Z.land_ones a 31 ltac:(lia)). Qed.

Lemma test_fields (x : Z) :
  0 <= x < 2 ^ 32 ->
  u16 (Z.land (Z.shiftr x 16) 0x8000) = f32_sign x * 2 ^ 15 /\
  Z.land (Z.shiftr x 13) 0x3FF = f32_mant x / 2 ^ 13 /\
  (Z.land x 0x7FFFFFFF = 0 <-> f32_exp x = 0 /\ f32_mant x = 0).
Proof.
  intros Hx. destruct (f32_fields x Hx) as (Hs & He & Hm & Hd).
  rewrite land_8000, land_3FF, land_7FFFFFFF, !Z.shiftr_div_pow2 by lia.
  unfold u16, f32_sign, f32_exp, f32_mant in *.
  rewrite land_1, land_FF, land_7FFFFF, !Z.shiftr_div_pow2 in * by lia.
  change (2 ^ 32) with 4294967296 in *. change (2 ^ 31) with 2147483648 in *.
  change (2 ^ 23) with 8388608 in *. change (2 ^ 16) with 65536.
  change (2 ^ 15) with 32768. change (2 ^ 13) with 8192.
  repeat split; try (Z.div_mod_to_equations; lia).
Qed.

Lemma fp32_to_fp16_test_fold (x : Z) :
  fp32_to_fp16_test x =
  if Z.land x 0x7FFFFFFF =? 0 then 0 else
  let sign := u16 (Z.land (Z.shiftr x 16) 0x8000) in
  let exponent := i32 (u32 (u32 (f32_exp x - 127) + 15)) in
  let mantissa := Z.land (Z.shiftr x 13) 0x3FF in
  if exponent <=? 0 then sign
  else if exponent >=? 31 then u16 (Z.lor sign 0x7C00)
  else u16 (Z.lor (u32 (Z.lor sign (Z.shiftl exponent 10))) mantissa).
Proof. reflexivity. Qed.

(** Property X6.  The encoder the test suite carries,
    [fp32_to_fp16_test], returns what the driver's [float_to_fp16]
    returns on every pattern except the negative zero and the NaNs: for
    -0.0 it returns 0x0000 where the driver returns 0x8000, and for a
    NaN it returns the infinity of its sign where the driver returns a
    NaN. *)
Theorem test_encoder_differs (x : Z) :
  0 <= x < 2 ^ 32 ->
  (x <> 0x80000000 -> ~ (f32_exp x = 255 /\ f32_mant x <> 0) ->
     fp32_to_fp16_test x = float_to_fp16 x) /\
  (x = 0x80000000 -> fp32_to_fp16_test x = 0 /\ float_to_fp16 x = 0x8000) /\
  (f32_exp x = 255 -> f32_mant x <> 0 ->
     fp32_to_fp16_test x = f32_sign x * 2 ^ 15 + 0x7C00 /\
     float_to_fp16 x = f32_sign x * 2 ^ 15 + 0x7E00).
Proof.
  intros Hx. destruct (f32_fields x Hx) as (Hs & He & Hm & Hd).
  destruct (test_fields x Hx) as (Tsign & Tmant & Tzero).
  assert (Hq : 0 <= f32_mant x / 2 ^ 13 < 1024).
  { change (2 ^ 23) with 8388608 in Hm. change (2 ^ 13) with 8192.
    Z.div_mod_to_equations; lia. }
  assert (Hgen : ~ (f32_exp x = 0 /\ f32_mant x = 0) ->
            fp32_to_fp16_test x =
            if f32_exp x <=? 112 then f32_sign x * 2 ^ 15
            else if f32_exp x <=? 142
                 then f32_sign x * 2 ^ 15 + (f32_exp x - 112) * 2 ^ 10
                      + f32_mant x / 2 ^ 13
                 else f32_sign x * 2 ^ 15 + 0x7C00).
  { intros Hnz. rewrite fp32_to_fp16_test_fold.
    destruct (Z.eqb_spec (Z.land x 0x7FFFFFFF) 0) as [Hz | _];
      [exfalso; apply Hnz, Tzero, Hz|].
    cbv zeta. rewrite Tsign, Tmant, rebias_down by lia.
    change (2 ^ 15) with 32768 in *. change (2 ^ 13) with 8192 in *.
    change (2 ^ 10) with 1024.
    destruct (Z.leb_spec (f32_exp x) 112), (Z.leb_spec (f32_exp x - 112) 0);
      try lia.
    destruct (Z.leb_spec (f32_exp x) 142), (Z.geb_spec (f32_exp x - 112) 31);
      try lia.
    - rewrite Z.shiftl_mul_pow2 by lia. change (2 ^ 10) with 1024.
      rewrite (lor_disjoint (f32_sign x * 32768) ((f32_exp x - 112) * 1024) 15);
        [ | lia | change (2 ^ 15) with 32768; Z.div_mod_to_equations; lia
          | change (2 ^ 15) with 32768; lia ].
      unfold u32. change (2 ^ 32) with 4294967296.
      rewrite (Z.mod_small (f32_sign x * 32768 + (f32_exp x - 112) * 1024)) by lia.
      rewrite (lor_disjoint (f32_sign x * 32768 + (f32_exp x - 112) * 1024)
                 (f32_mant x / 8192) 10);
        [ | lia | change (2 ^ 10) with 1024; Z.div_mod_to_equations; lia
          | change (2 ^ 10) with 1024; lia ].
      unfold u16. change (2 ^ 16) with 65536. apply Z.mod_small. lia.
    - rewrite (lor_disjoint (f32_sign x * 32768) 0x7C00 15);
        [ | lia | change (2 ^ 15) with 32768; Z.div_mod_to_equations; lia
          | change (2 ^ 15) with 32768; lia ].
      unfold u16. change (2 ^ 16) with 65536. apply Z.mod_small. lia. }
  split; [|split].
  - intros Hnm Hnan.
    destruct (Z.eq_dec (f32_exp x) 0) as [E0 | E0].
    { rewrite (float_to_fp16_underflow x Hx ltac:(lia)).
      destruct (Z.eq_dec (f32_mant x) 0) as [M0 | M0].
      - assert (f32_sign x = 0) as ->.
        { change (2 ^ 31) with 2147483648 in Hd. lia. }
        rewrite fp32_to_fp16_test_fold.
        destruct (Z.eqb_spec (Z.land x 0x7FFFFFFF) 0) as [_ | Hz];
          [reflexivity | exfalso; apply Hz, Tzero; split; assumption].
      - rewrite Hgen by lia. rewrite E0. reflexivity. }
    rewrite Hgen by lia.
    destruct (Z.leb_spec (f32_exp x) 112).
    { rewrite float_to_fp16_underflow by assumption. reflexivity. }
    destruct (Z.leb_spec (f32_exp x) 142).
    { rewrite float_to_fp16_in_range by (try assumption; lia). reflexivity. }
    destruct (Z.eq_dec (f32_exp x) 255) as [E255 | E255].
    + rewrite float_to_fp16_special by assumption.
      assert (f32_mant x = 0) as -> by lia. cbn [Z.eqb]. lia.
    + rewrite float_to_fp16_overflow by (try assumption; lia). reflexivity.
  - intros ->. split; reflexivity.
  - intros E255 M. split.
    + rewrite Hgen by lia. rewrite E255. reflexivity.
    + rewrite float_to_fp16_special by assumption.
      apply Z.eqb_neq in M. rewrite M. lia.
Qed.

Lemma fp16_to_fp32_test_fold (h : Z) :
  fp16_to_fp32_test h =
  if h =? 0 then 0 else
  let sign := u32 (Z.shiftl (Z.land h 0x8000) 16) in
  if fp16_exp h =? 0 then 0
  else if fp16_exp h =? 31 then INFINITY
  else
    Z.lor (Z.lor sign (u32 (Z.shiftl (fp16_exp h - 15 + 127) 23)))
          (u32 (Z.shiftl (fp16_mant h) 13)).
Proof. reflexivity. Qed.

(** Property X7.  The decoder the test suite carries,
    [fp16_to_fp32_test], returns what the driver's [fp16_to_float]
    returns on every normal half.  With exponent field 0 it returns
    +0.0 where the driver keeps the sign; with exponent field 31 it
    returns +infinity where the driver keeps sign and payload. *)
Theorem test_decoder_differs (h : Z) :
  0 <= h < 2 ^ 16 ->
  (fp16_normal h -> fp16_to_fp32_test h = fp16_to_float h) /\
  (fp16_exp h = 0 ->
     fp16_to_fp32_test h = 0 /\ fp16_to_float h = fp16_sign h * 2 ^ 31) /\
  (fp16_exp h = 31 ->
     fp16_to_fp32_test h = INFINITY /\
     fp16_to_float h = fp16_sign h * 2 ^ 31 + INFINITY + fp16_mant h * 2 ^ 13).
Proof.
  intros Hh. destruct (fp16_fields h Hh) as (Hs & He & Hm & Hd).
  change (2 ^ 10) with 1024 in *. change (2 ^ 15) with 32768 in *.
  split; [|split].
  - intros Hn. rewrite (fp16_to_float_normal h Hh Hn). unfold fp16_normal in Hn.
    rewrite fp16_to_fp32_test_fold.
    destruct (Z.eqb_spec h 0) as [H0 | _]; [lia|]. cbv zeta.
    destruct (Z.eqb_spec (fp16_exp h) 0); [lia|].
    destruct (Z.eqb_spec (fp16_exp h) 31); [lia|].
    rewrite land_8000. fold (fp16_sign h) in *.
    assert (Hsg : (h / 2 ^ 15) mod 2 = fp16_sign h).
    { unfold fp16_sign. rewrite land_1, Z.shiftr_div_pow2 by lia. reflexivity. }
    rewrite Hsg. unfold u32. rewrite !Z.shiftl_mul_pow2 by lia.
    change (2 ^ 32) with 4294967296. change (2 ^ 31) with 2147483648.
    change (2 ^ 23) with 8388608. change (2 ^ 16) with 65536.
    change (2 ^ 15) with 32768. change (2 ^ 13) with 8192.
    replace (fp16_sign h * 32768 * 65536) with (fp16_sign h * 2147483648) by ring.
    replace (fp16_exp h - 15 + 127) with (fp16_exp h + 112) by ring.
    rewrite (Z.mod_small (fp16_sign h * 2147483648)) by lia.
    rewrite (Z.mod_small (fp16_mant h * 8192)) by lia.
    rewrite (Z.mod_small ((fp16_exp h + 112) * 8388608)) by lia.
    rewrite (lor_disjoint (fp16_sign h * 2147483648) ((fp16_exp h + 112) * 8388608) 31);
      [ | lia | change (2 ^ 31) with 2147483648; Z.div_mod_to_equations; lia
        | change (2 ^ 31) with 2147483648; lia ].
    rewrite (lor_disjoint (fp16_sign h * 2147483648 + (fp16_exp h + 112) * 8388608)
               (fp16_mant h * 8192) 23);
      [ | lia | change (2 ^ 23) with 8388608; Z.div_mod_to_equations; lia
        | change (2 ^ 23) with 8388608; lia ].
    reflexivity.
  - intros E0. split; [|apply fp16_to_float_zero; assumption].
    rewrite fp16_to_fp32_test_fold. destruct (h =? 0); [reflexivity|].
    cbv zeta. rewrite E0. reflexivity.
  - intros E31. split.
    + rewrite fp16_to_fp32_test_fold.
      destruct (Z.eqb_spec h 0) as [H0 | _]; [lia|].
      cbv zeta. rewrite E31. reflexivity.
    + rewrite (fp16_to_float_special h Hh E31). reflexivity.
Qed.

Lemma float_to_fp16_category_witness :
  fp16_exp (float_to_fp16 0x7FC00000) = 31 /\
  fp16_mant (float_to_fp16 0x7FC00000) = 0x200 /\
  fp16_sign (float_to_fp16 0xFF800000) = 1 /\
  fp16_mant (float_to_fp16 0xFF800000) = 0.
Proof.
  destruct (float_to_fp16_category 0x7FC00000 ltac:(lia)) as (_ & _ & _ & Hnan & _).
  destruct (float_to_fp16_category 0xFF800000 ltac:(lia)) as (_ & Hs & Hinf & _).
  destruct Hnan as (He & Hm); [reflexivity | discriminate |].
  destruct Hinf as (_ & Hm'); [reflexivity | reflexivity |].
  split; [exact He|]. split; [exact Hm|]. split; [exact Hs | exact Hm'].
Defined.

Lemma fp16_to_float_exact_witness :
  f32_value (fp16_to_float 0x3E00) == fp16_value 0x3E00 /\
  fp16_to_float 0x8001 = 0x80000000.
Proof.
  destruct (fp16_to_float_exact 0x3E00 ltac:(lia)) as (_ & _ & Hn & _).
  destruct (fp16_to_float_exact 0x8001 ltac:(lia)) as (_ & _ & _ & Hz & _).
  destruct Hn as (_ & Hv & _); [unfold fp16_normal; split; reflexivity|].
  destruct Hz as (Hx & _); [reflexivity|].
  split; [exact Hv | exact Hx].
Defined.

Lemma encode_after_decode_witness :
  float_to_fp16 (fp16_to_float 0x3555) = 0x3555 /\
  float_to_fp16 (fp16_to_float 0x7C01) = 0x7E00.
Proof.
  destruct (encode_after_decode 0x3555 ltac:(lia)) as (Hn & _).
  destruct (encode_after_decode 0x7C01 ltac:(lia)) as (_ & _ & _ & Hnan).
  split.
  - apply Hn. unfold fp16_normal. split; reflexivity.
  - apply Hnan; [reflexivity | discriminate].
Defined.

Lemma float_to_fp16_rounds_toward_zero_witness :
  (fp16_abs (float_to_fp16 0x3DCCCCCD) <= f32_abs 0x3DCCCCCD)%Q /\
  (fp16_abs (float_to_fp16 0xBDCCCCCD) <= f32_abs 0xBDCCCCCD)%Q.
Proof.
  assert (Hlo : (half_min_normal <= f32_abs 0x3DCCCCCD)%Q)
    by (unfold Qle; vm_compute; discriminate).
  assert (Hhi : (f32_abs 0x3DCCCCCD <= half_max)%Q)
    by (unfold Qle; vm_compute; discriminate).
  assert (Hn : f32_normal 0x3DCCCCCD) by (unfold f32_normal; split; reflexivity).
  assert (Hlo' : (half_min_normal <= f32_abs 0xBDCCCCCD)%Q)
    by (unfold Qle; vm_compute; discriminate).
  assert (Hhi' : (f32_abs 0xBDCCCCCD <= half_max)%Q)
    by (unfold Qle; vm_compute; discriminate).
  assert (Hn' : f32_normal 0xBDCCCCCD) by (unfold f32_normal; split; reflexivity).
  destruct (float_to_fp16_rounds_toward_zero 0x3DCCCCCD ltac:(lia) Hn Hlo Hhi)
    as (_ & _ & H & _).
  destruct (float_to_fp16_rounds_toward_zero 0xBDCCCCCD ltac:(lia) Hn' Hlo' Hhi')
    as (_ & _ & H' & _).
  split; [exact H | exact H'].
Defined.

Lemma float_to_fp16_monotone_witness :
  float_to_fp16 0x3DCCCCCD <= float_to_fp16 0x40490FDB.
Proof.
  apply float_to_fp16_monotone.
  - lia.
  - lia.
  - unfold f32_finite; vm_compute; lia.
  - unfold f32_finite; vm_compute; lia.
  - unfold Qle; vm_compute; discriminate.
Defined.

Lemma test_encoder_differs_witness :
  fp32_to_fp16_test 0x40490FDB = float_to_fp16 0x40490FDB /\
  fp32_to_fp16_test 0x7FC00000 = 0x7C00 /\ float_to_fp16 0x7FC00000 = 0x7E00.
Proof.
  destruct (test_encoder_differs 0x40490FDB ltac:(lia)) as (Hsame & _).
  destruct (test_encoder_differs 0x7FC00000 ltac:(lia)) as (_ & _ & Hnan).
  split.
  - apply Hsame; [discriminate|]. intros (He & _). vm_compute in He. discriminate He.
  - apply Hnan; [reflexivity | discriminate].
Defined.

Lemma test_decoder_differs_witness :
  fp16_to_fp32_test 0x4248 = fp16_to_float 0x4248 /\
  fp16_to_fp32_test 0xFC00 = INFINITY /\ fp16_to_float 0xFC00 = 0xFF800000.
Proof.
  destruct (test_decoder_differs 0x4248 ltac:(lia)) as (Hsame & _).
  destruct (test_decoder_differs 0xFC00 ltac:(lia)) as (_ & _ & Hinf).
  split.
  - apply Hsame. unfold fp16_normal. split; reflexivity.
  - apply Hinf. reflexivity.
Defined.

(** ** More on the protocol and the matrix writes *)

Lemma reply_eq (w : world) (frame : list Z) (n b : Z) :
  reply_to w frame = (n, b) <-> fst (reply_to w frame) = n /\ snd (reply_to w frame) = b.
Proof.
  destruct (reply_to w frame) as [n' b']. cbn [fst snd].
  split; [intros H; injection H as -> ->; split; reflexivity | intros [-> ->]; reflexivity].
Qed.

(** Property X8.  When a byte write and a start command succeed.
    [tpu_write_byte] and [tpu_start] return 0 or -1, and 0 exactly when
    [write] took the whole frame and the reply is the single byte ['K'].
    [writeByte] and [start] return exactly when [write] did not fail and
    the reply is the single byte ['K']: they do not look at the count
    [write] returns, so a short write passes. *)
Theorem exchange_success (w : world) (addr data : Z) :
  let frame := [write_cmd addr; addr; data] in
  (fst (tpu_write_byte w addr data) = 0 \/ fst (tpu_write_byte w addr data) = -1) /\
  (fst (tpu_write_byte w addr data) = 0 <->
     write_count w frame = 3 /\ reply_to w frame = (1, ACK)) /\
  (fst (Cpp.TPUDriver.writeByte addr data w) = Cpp.Returns tt <->
     0 <= write_count w frame /\ reply_to w frame = (1, ACK)) /\
  (fst (tpu_start w) = 0 \/ fst (tpu_start w) = -1) /\
  (fst (tpu_start w) = 0 <->
     write_count w [CMD_START] = 1 /\ reply_to w [CMD_START] = (1, ACK)) /\
  (fst (Cpp.TPUDriver.start w) = Cpp.Returns tt <->
     0 <= write_count w [CMD_START] /\ reply_to w [CMD_START] = (1, ACK)).
Proof.
  cbv zeta.
  rewrite tpu_write_byte_unfold, writeByte_unfold, tpu_start_unfold, start_unfold.
  cbv zeta. rewrite !reply_eq. unfold ACK.
  generalize (write_count w [write_cmd addr; addr; data]) as c1.
  generalize (write_count w [CMD_START]) as c2.
  destruct (reply_to w [write_cmd addr; addr; data]) as [n1 b1].
  destruct (reply_to w [CMD_START]) as [n2 b2]. cbn [fst snd]. intros c2 c1.
  assert (HC : forall (c k n b : Z) (w1 w2 : world),
            let r := fst (if negb (c =? k) then (-1, w1)
                          else if negb (n =? 1) then (-1, w2)
                          else ((if b =? 75 then 0 else -1), w2)) in
            (r = 0 \/ r = -1) /\ (r = 0 <-> c = k /\ n = 1 /\ b = 75)).
  { intros c k n b w1 w2.
    destruct (Z.eqb_spec c k), (Z.eqb_spec n 1), (Z.eqb_spec b 75);
      cbn [negb fst]; split; try (left; reflexivity); try (right; reflexivity);
      split; try (intros; lia); try (intros (? & ? & ?); lia); intros; repeat split; lia. }
  assert (HP : forall (c n b : Z) (what : string) (w1 w2 : world),
            fst (if c <? 0
                 then (Cpp.Throws (Cpp.runtime_error "Write failed"), w1)
                 else if n <? 0
                 then (Cpp.Throws (Cpp.runtime_error "Read failed"), w2)
                 else if negb (n =? 1) || negb (b =? 75)
                 then (Cpp.Throws (Cpp.runtime_error what), w2)
                 else (Cpp.Returns tt, w2)) = Cpp.Returns tt
            <-> 0 <= c /\ n = 1 /\ b = 75).
  { intros c n b what w1 w2.
    destruct (Z.ltb_spec c 0), (Z.ltb_spec n 0), (Z.eqb_spec n 1), (Z.eqb_spec b 75);
      cbn [negb orb fst]; split; try (intros; discriminate);
      try (intros (? & ? & ?); lia); intros; repeat split; (lia || reflexivity). }
  split; [apply HC|]. split; [apply HC|]. split; [apply HP|].
  split; [apply HC|]. split; [apply HC | apply HP].
Qed.

Lemma for_range_run {S R : Type} (Inv : nat -> S -> Prop) (Exit : R -> Prop)
    (body : Z -> S -> S + R) (n : nat) :
  forall (i0 : Z) (s : S),
  Inv O s ->
  (forall k s, (k < n)%nat -> Inv k s ->
     match body (i0 + Z.of_nat k) s with
     | inl s' => Inv (Datatypes.S k) s'
     | inr r => Exit r
     end) ->
  match for_range n i0 body s with
  | inl s' => Inv n s'
  | inr r => Exit r
  end.
Proof.
  revert Inv. induction n as [|n IH]; intros Inv i0 s H0 Hstep.
  - exact H0.
  - cbn [for_range].
    pose proof (Hstep O s ltac:(lia) H0) as Hb. rewrite Z.add_0_r in Hb.
    destruct (body i0 s) as [s1 | r]; [|exact Hb].
    apply (IH (fun k => Inv (Datatypes.S k))); [exact Hb|].
    intros k s2 Hk Hinv.
    pose proof (Hstep (Datatypes.S k) s2 ltac:(lia) Hinv) as H3.
    replace (i0 + 1 + Z.of_nat k) with (i0 + Z.of_nat (Datatypes.S k)) by lia.
    exact H3.
Qed.

Lemma for_range_io_run {S : Type} (Inv : nat -> S -> world -> Prop)
    (Exit : Cpp.exn -> world -> Prop) (body : Z -> S -> Cpp.io S) (n : nat) :
  forall (i0 : Z) (s : S) (w : world),
  Inv O s w ->
  (forall k s w, (k < n)%nat -> Inv k s w ->
     match body (i0 + Z.of_nat k) s w with
     | (Cpp.Returns s', w') => Inv (Datatypes.S k) s' w'
     | (Cpp.Throws e, w') => Exit e w'
     end) ->
  match Cpp.TPUDriver.for_range_io n i0 body s w with
  | (Cpp.Returns s', w') => Inv n s' w'
  | (Cpp.Throws e, w') => Exit e w'
  end.
Proof.
  revert Inv. induction n as [|n IH]; intros Inv i0 s w H0 Hstep.
  - exact H0.
  - cbn [Cpp.TPUDriver.for_range_io]. unfold Cpp.bind at 1.
    pose proof (Hstep O s w ltac:(lia) H0) as Hb. rewrite Z.add_0_r in Hb.
    destruct (body i0 s w) as [[s1 | e] w1]; [|exact Hb].
    apply (IH (fun k => Inv (Datatypes.S k))); [exact Hb|].
    intros k s2 w2 Hk Hinv.
    pose proof (Hstep (Datatypes.S k) s2 w2 ltac:(lia) Hinv) as H3.
    replace (i0 + 1 + Z.of_nat k) with (i0 + Z.of_nat (Datatypes.S k)) by lia.
    exact H3.
Qed.

Lemma tpu_write_byte_run (w : world) (addr data : Z) :
  let frame := [write_cmd addr; addr; data] in
  let '(r, w') := tpu_write_byte w addr data in
  env w' = env w /\ stderr w' = stderr w /\ sent w' = sent w ++ [frame] /\
  ((r = 0 /\ write_count w frame = 3 /\ reply_to w frame = (1, ACK)) \/
   (r = -1 /\ (write_count w frame <> 3 \/ reply_to w frame <> (1, ACK)))).
Proof.
  cbv zeta. pose proof (tpu_write_byte_sent w addr data) as Hs.
  rewrite tpu_write_byte_unfold in *. cbv zeta in *.
  destruct (reply_to w [write_cmd addr; addr; data]) as [n b]. cbn [fst snd] in *.
  destruct (Z.eqb_spec (write_count w [write_cmd addr; addr; data]) 3) as [Hc | Hc];
    cbn [negb] in *.
  2:{ split; [reflexivity|]. split; [reflexivity|]. split; [exact Hs|].
      right. split; [reflexivity|]. left. exact Hc. }
  destruct (Z.eqb_spec n 1) as [Hn | Hn]; cbn [negb] in *.
  2:{ split; [reflexivity|]. split; [reflexivity|]. split; [exact Hs|].
      right. split; [reflexivity|]. right. intros H; injection H as H1 H2; contradiction. }
  split; [reflexivity|]. split; [reflexivity|]. split; [exact Hs|].
  destruct (Z.eqb_spec b ACK) as [Hb | Hb].
  - left. subst n b. repeat split; assumption.
  - right. split; [reflexivity|]. right. intros H; injection H as H1 H2; contradiction.
Qed.

Lemma writeByte_run (w : world) (addr data : Z) :
  let frame := [write_cmd addr; addr; data] in
  let '(r, w') := Cpp.TPUDriver.writeByte addr data w in
  env w' = env w /\ stderr w' = stderr w /\ sent w' = sent w ++ [frame] /\
  ((r = Cpp.Returns tt /\ 0 <= write_count w frame /\ reply_to w frame = (1, ACK)) \/
   ((exists e, r = Cpp.Throws e) /\
    (write_count w frame < 0 \/ reply_to w frame <> (1, ACK)))).
Proof.
  cbv zeta. pose proof (writeByte_sent w addr data) as Hs.
  rewrite writeByte_unfold in *. cbv zeta in *.
  destruct (reply_to w [write_cmd addr; addr; data]) as [n b]. cbn [fst snd] in *.
  destruct (Z.ltb_spec (write_count w [write_cmd addr; addr; data]) 0) as [Hc | Hc].
  { split; [reflexivity|]. split; [reflexivity|]. split; [exact Hs|].
    right. split; [eexists; reflexivity|]. left. exact Hc. }
  destruct (Z.ltb_spec n 0) as [Hn0 | Hn0].
  { split; [reflexivity|]. split; [reflexivity|]. split; [exact Hs|].
    right. split; [eexists; reflexivity|]. right. intros H; injection H as H1 H2; lia. }
  destruct (Z.eqb_spec n 1) as [Hn | Hn]; cbn [negb orb] in *.
  2:{ split; [reflexivity|]. split; [reflexivity|]. split; [exact Hs|].
      right. split; [eexists; reflexivity|]. right. intros H; injection H as H1 H2; contradiction. }
  change 75 with ACK in *.
  destruct (Z.eqb_spec b ACK) as [Hb | Hb]; cbn [negb] in *.
  - split; [reflexivity|]. split; [reflexivity|]. split; [exact Hs|].
    left. subst n b. repeat split; assumption.
  - split; [reflexivity|]. split; [reflexivity|]. split; [exact Hs|].
    right. split; [eexists; reflexivity|]. right. intros H; injection H as H1 H2; contradiction.
Qed.

Lemma tpu_write_fp16_run (w : world) (addr value : Z) :
  0 <= addr < 256 -> Z.even addr = true ->
  let fs := half_frames (write_cmd addr) addr (float_to_fp16 value) in
  let '(r, w') := tpu_write_fp16 w addr value in
  env w' = env w /\ stderr w' = stderr w /\
  ((r = 0 /\ sent w' = sent w ++ fs) \/
   (r = -1 /\ refused w /\
    exists n, (1 <= n <= 2)%nat /\ sent w' = sent w ++ firstn n fs)).
Proof.
  intros Ha He. cbv zeta.
  destruct (write_cmd_next addr Ha He) as (Hnext & Hcmd). apply even_rem in He.
  unfold tpu_write_fp16, half_frames. rewrite He. cbn [negb].
  set (low := u8 (Z.land (float_to_fp16 value) 0xFF)).
  set (high := u8 (Z.land (Z.shiftr (float_to_fp16 value) 8) 0xFF)).
  pose proof (tpu_write_byte_run w addr low) as H1. cbv zeta in H1.
  destruct (tpu_write_byte w addr low) as [r1 w1].
  destruct H1 as (He1 & Hs1 & Hf1 & [(-> & Hok1) | (-> & Hbad1)]); cbn [Z.eqb negb].
  2:{ split; [exact He1|]. split; [exact Hs1|]. right. split; [reflexivity|].
      split; [exists w, (write_cmd addr), addr, low; split; [reflexivity | exact Hbad1]|].
      exists 1%nat. split; [lia | exact Hf1]. }
  pose proof (tpu_write_byte_run w1 (u8 (addr + 1)) high) as H2. cbv zeta in H2.
  rewrite Hnext in *. 
  destruct (tpu_write_byte w1 (addr + 1) high) as [r2 w2].
  rewrite Hcmd in H2.
  destruct H2 as (He2 & Hs2 & Hf2 & [(-> & Hok2) | (-> & Hbad2)]); cbn [Z.eqb negb].
  - split; [congruence|]. split; [congruence|]. left. split; [reflexivity|].
    rewrite Hf2, Hf1, <- app_assoc. reflexivity.
  - split; [congruence|]. split; [congruence|]. right. split; [reflexivity|].
    split; [exists w1, (write_cmd addr), (addr + 1), high; split; [exact He1 | exact Hbad2]|].
    exists 2%nat. split; [lia|]. rewrite Hf2, Hf1, <- app_assoc. reflexivity.
Qed.

Lemma writeFP16_run (w : world) (addr value : Z) :
  0 <= addr < 256 -> Z.even addr = true ->
  let fs := half_frames (write_cmd addr) addr (float_to_fp16 value) in
  let '(r, w') := Cpp.TPUDriver.writeFP16 addr value w in
  env w' = env w /\ stderr w' = stderr w /\
  ((r = Cpp.Returns tt /\ sent w' = sent w ++ fs) \/
   ((exists e, r = Cpp.Throws e) /\ refused_cpp w /\
    exists n, (1 <= n <= 2)%nat /\ sent w' = sent w ++ firstn n fs)).
Proof.
  intros Ha He. cbv zeta.
  destruct (write_cmd_next addr Ha He) as (Hnext & Hcmd). apply even_rem in He.
  unfold Cpp.TPUDriver.writeFP16, half_frames. rewrite He. cbn [negb].
  change (Cpp.FP16.fromFloat value) with (float_to_fp16 value).
  set (low := u8 (Z.land (float_to_fp16 value) 0xFF)).
  set (high := u8 (Z.land (Z.shiftr (float_to_fp16 value) 8) 0xFF)).
  unfold Cpp.bind.
  pose proof (writeByte_run w addr low) as H1. cbv zeta in H1.
  destruct (Cpp.TPUDriver.writeByte addr low w) as [r1 w1].
  destruct H1 as (He1 & Hs1 & Hf1 & [(-> & Hok1) | ((e & ->) & Hbad1)]).
  2:{ split; [exact He1|]. split; [exact Hs1|]. right. split; [eexists; reflexivity|].
      split; [exists w, (write_cmd addr), addr, low; split; [reflexivity | exact Hbad1]|].
      exists 1%nat. split; [lia | exact Hf1]. }
  pose proof (writeByte_run w1 (u8 (addr + 1)) high) as H2. cbv zeta in H2.
  rewrite Hnext in *.
  destruct (Cpp.TPUDriver.writeByte (addr + 1) high w1) as [r2 w2].
  rewrite Hcmd in H2.
  destruct H2 as (He2 & Hs2 & Hf2 & [(-> & Hok2) | ((e & ->) & Hbad2)]).
  - split; [congruence|]. split; [congruence|]. left. split; [reflexivity|].
    rewrite Hf2, Hf1, <- app_assoc. reflexivity.
  - split; [congruence|]. split; [congruence|]. right. split; [eexists; reflexivity|].
    split; [exists w1, (write_cmd addr), (addr + 1), high; split; [exact He1 | exact Hbad2]|].
    exists 2%nat. split; [lia|]. rewrite Hf2, Hf1, <- app_assoc. reflexivity.
Qed.

Lemma matrix_frames_S (cmd base : Z) (m : matrix) (k : nat) :
  matrix_frames cmd base m (S k) =
  matrix_frames cmd base m k
  ++ half_frames cmd (element_addr base k) (float_to_fp16 (element m k)).
Proof.
  unfold matrix_frames. rewrite seq_S, flat_map_app. cbn [flat_map Nat.add].
  rewrite app_nil_r. reflexivity.
Qed.

Lemma element_at (m : matrix) (r c : nat) :
  (c < 8)%nat -> element m (8 * r + c) = m (0 + Z.of_nat r) (0 + Z.of_nat c).
Proof.
  intros Hc. unfold element. rewrite !Z.add_0_l.
  replace ((8 * r + c) / 8)%nat with r.
  - replace ((8 * r + c) mod 8)%nat with c; [reflexivity|].
    rewrite Nat.add_comm, Nat.mul_comm, Nat.Div0.mod_add.
    symmetry. apply Nat.mod_small. exact Hc.
  - rewrite Nat.add_comm, Nat.mul_comm, Nat.div_add by lia.
    rewrite Nat.div_small by exact Hc. reflexivity.
Qed.

Lemma index_at (r c : nat) :
  (c < 8)%nat -> ((8 * r + c) / 8 = r)%nat /\ ((8 * r + c) mod 8 = c)%nat.
Proof.
  intros Hc. split.
  - rewrite Nat.add_comm, Nat.mul_comm, Nat.div_add by lia.
    rewrite Nat.div_small by exact Hc. reflexivity.
  - rewrite Nat.add_comm, Nat.mul_comm, Nat.Div0.mod_add.
    apply Nat.mod_small. exact Hc.
Qed.

Lemma element_addr_small (base : Z) (k : nat) :
  base = 0 \/ base = 128 -> (k < 64)%nat ->
  u8 (element_addr base k) = element_addr base k /\
  0 <= element_addr base k < 256 /\
  Z.even (element_addr base k) = true /\
  write_cmd (element_addr base k) = write_cmd base.
Proof.
  intros Hb Hk. unfold element_addr, u8, write_cmd. change (2 ^ 8) with 256.
  split; [apply Z.mod_small; lia|]. split; [lia|]. split.
  - rewrite Z.even_add, Z.even_mul. cbn [Z.even orb].
    destruct Hb as [-> | ->]; reflexivity.
  - destruct Hb as [-> | ->];
      destruct (Z.ltb_spec (0 + 2 * Z.of_nat k) 128);
      destruct (Z.ltb_spec (128 + 2 * Z.of_nat k) 128);
      try reflexivity; try lia.
Qed.

Lemma write_loop_run (base : Z) (msg : Z -> Z -> string) (m : matrix) (w0 : world) :
  base = 0 \/ base = 128 ->
  match
    for_range MATRIX_SIZE 0 (fun i s =>
      for_range MATRIX_SIZE 0 (fun j '(addr, w) =>
        let '(r, w) := tpu_write_fp16 w addr (m i j) in
        if negb (r =? 0) then inr (-1, fprintf_stderr (msg i j) w)
        else inl (u8 (addr + 2), w)) s) (base, w0)
  with
  | inl s => write_inv base m w0 64 s
  | inr r => write_exit base msg m w0 r
  end.
Proof.
  intros Hb.
  apply (for_range_run (fun r => write_inv base m w0 (8 * r))
           (write_exit base msg m w0)).
  - unfold write_inv. cbn [Nat.mul]. split.
    + unfold element_addr, u8. change (2 ^ 8) with 256.
      destruct Hb as [-> | ->]; reflexivity.
    + split; [reflexivity|]. split; [reflexivity|].
      unfold matrix_frames. cbn [seq flat_map]. symmetry. apply app_nil_r.
  - intros r s Hr Hinv.
    replace (8 * S r)%nat with (8 * r + 8)%nat by lia.
    apply (for_range_run (fun c => write_inv base m w0 (8 * r + c))
             (write_exit base msg m w0)).
    + rewrite Nat.add_0_r. exact Hinv.
    + intros c [addr w] Hc (Ha & He & Hs & Hf).
      unfold MATRIX_SIZE in Hr, Hc.
      destruct (element_addr_small base (8 * r + c) Hb ltac:(lia))
        as (Hu & Hrange & Heven & Hcmd).
      rewrite Hu in Ha. subst addr.
      pose proof (tpu_write_fp16_run w (element_addr base (8 * r + c))
                    (m (0 + Z.of_nat r) (0 + Z.of_nat c)) Hrange Heven) as Hrun.
      cbv zeta in Hrun. rewrite Hcmd, <- element_at in Hrun by exact Hc.
      rewrite <- element_at by exact Hc.
      destruct (tpu_write_fp16 w (element_addr base (8 * r + c))
                  (element m (8 * r + c))) as [r1 w1].
      destruct Hrun as (He1 & Hs1 & [(-> & Hf1) | (-> & Hbad & n & Hn & Hf1)]);
        cbn [Z.eqb negb].
      * replace (8 * r + S c)%nat with (S (8 * r + c)) by lia.
        unfold write_inv. split; [rewrite <- Hu at 1; apply element_addr_next|].
        split; [congruence|]. split; [congruence|].
        rewrite Hf1, Hf, matrix_frames_S, <- app_assoc. reflexivity.
      * unfold write_exit. split; [reflexivity|].
        split.
        { destruct Hbad as (wn & c0 & a & d & Hen & Hx).
          exists wn, c0, a, d. split; [congruence | exact Hx]. }
        exists (8 * r + c)%nat. split.
        { split; [lia|]. split; [cbn [env fprintf_stderr]; congruence|].
          exists n. split; [exact Hn|].
          unfold sent in *. cbn [hist fprintf_stderr].
          rewrite Hf1, Hf, <- app_assoc. reflexivity. }
        destruct (index_at r c Hc) as (-> & ->).
        cbn [stderr fprintf_stderr]. rewrite Hs1, Hs, !Z.add_0_l. reflexivity.
Qed.

Lemma writeLoop_run (base : Z) (m : matrix) (w0 : world) :
  base = 0 \/ base = 128 ->
  match
    Cpp.TPUDriver.for_range_io Cpp.MATRIX_SIZE 0 (fun i addr =>
      Cpp.TPUDriver.for_range_io Cpp.MATRIX_SIZE 0 (fun j addr =>
        Cpp.bind (Cpp.TPUDriver.writeFP16 addr (m i j))
                 (fun _ => Cpp.ret (u8 (addr + 2)))) addr) base w0
  with
  | (Cpp.Returns addr, w) => write_inv base m w0 64 (addr, w)
  | (Cpp.Throws e, w) =>
      refused_cpp w0 /\ stderr w = stderr w0 /\ exists k, write_cut (write_cmd base) base m w0 w k
  end.
Proof.
  intros Hb.
  apply (for_range_io_run (fun r addr w => write_inv base m w0 (8 * r) (addr, w))
           (fun e w => refused_cpp w0 /\ stderr w = stderr w0 /\
                       exists k, write_cut (write_cmd base) base m w0 w k)).
  - unfold write_inv. cbn [Nat.mul]. split.
    + unfold element_addr, u8. change (2 ^ 8) with 256.
      destruct Hb as [-> | ->]; reflexivity.
    + split; [reflexivity|]. split; [reflexivity|].
      unfold matrix_frames. cbn [seq flat_map]. symmetry. apply app_nil_r.
  - intros r s w Hr Hinv.
    replace (8 * S r)%nat with (8 * r + 8)%nat by lia.
    apply (for_range_io_run (fun c addr w => write_inv base m w0 (8 * r + c) (addr, w))
             (fun e w => refused_cpp w0 /\ stderr w = stderr w0 /\
                         exists k, write_cut (write_cmd base) base m w0 w k)).
    + rewrite Nat.add_0_r. exact Hinv.
    + intros c addr w1 Hc (Ha & He & Hs & Hf).
      unfold Cpp.MATRIX_SIZE in Hr, Hc.
      destruct (element_addr_small base (8 * r + c) Hb ltac:(lia))
        as (Hu & Hrange & Heven & Hcmd).
      rewrite Hu in Ha. subst addr.
      pose proof (writeFP16_run w1 (element_addr base (8 * r + c))
                    (m (0 + Z.of_nat r) (0 + Z.of_nat c)) Hrange Heven) as Hrun.
      cbv zeta in Hrun. rewrite Hcmd, <- element_at in Hrun by exact Hc.
      rewrite <- element_at by exact Hc. unfold Cpp.bind.
      destruct (Cpp.TPUDriver.writeFP16 (element_addr base (8 * r + c))
                  (element m (8 * r + c)) w1) as [r1 w2].
      destruct Hrun as (He1 & Hs1 & [(-> & Hf1) | ((e & ->) & Hbad & n & Hn & Hf1)]).
      * replace (8 * r + S c)%nat with (S (8 * r + c)) by lia.
        unfold Cpp.ret, write_inv. split; [rewrite <- Hu at 1; apply element_addr_next|].
        split; [congruence|]. split; [congruence|].
        rewrite Hf1, Hf, matrix_frames_S, <- app_assoc. reflexivity.
      * split.
        { destruct Hbad as (wn & c0 & a & d & Hen & Hx).
          exists wn, c0, a, d. split; [congruence | exact Hx]. }
        split; [congruence|].
        exists (8 * r + c)%nat.
        split; [lia|]. split; [congruence|].
        exists n. split; [exact Hn|].
        rewrite Hf1, Hf, <- app_assoc. reflexivity.
Qed.

Lemma frames_region (cmd base : Z) (m : matrix) (k : nat) :
  Forall (fun f => frame_cmd f = cmd /\ List.length f = 3%nat /\
                   base <= frame_addr f < base + 2 * Z.of_nat k)
         (matrix_frames cmd base m k).
Proof.
  induction k as [|k IH].
  - constructor.
  - rewrite matrix_frames_S. apply Forall_app. split.
    + eapply Forall_impl; [|exact IH]. cbv beta. intros f (Hc & Hl & Ha).
      split; [exact Hc|]. split; [exact Hl|]. lia.
    + unfold half_frames, element_addr.
      repeat constructor; cbn [frame_addr nth]; lia.
Qed.

Lemma cut_region (cmd base : Z) (m : matrix) (k n : nat) :
  (k < 64)%nat ->
  Forall (fun f => frame_cmd f = cmd /\ List.length f = 3%nat /\
                   base <= frame_addr f < base + 128)
         (matrix_frames cmd base m k
          ++ firstn n (half_frames cmd (element_addr base k)
                         (float_to_fp16 (element m k)))).
Proof.
  intros Hk. apply Forall_app. split.
  - eapply Forall_impl; [|apply frames_region]. cbv beta. intros f (Hc & Hl & Ha).
    split; [exact Hc|]. split; [exact Hl|]. lia.
  - unfold half_frames, element_addr.
    destruct n as [|[|n]]; cbn [firstn]; rewrite ?firstn_nil;
      repeat (constructor; try (cbn [frame_cmd frame_addr nth List.length];
                                 split; [reflexivity|]; split; [reflexivity|]; lia)).
Qed.

Lemma matrix_frames_length (cmd base : Z) (m : matrix) (k : nat) :
  List.length (matrix_frames cmd base m k) = (2 * k)%nat.
Proof.
  induction k as [|k IH]; [reflexivity|].
  rewrite matrix_frames_S, length_app, IH. cbn [half_frames List.length]. lia.
Qed.

Lemma acknowledged (w0 : world) :
  acknowledges (env w0) -> ~ refused w0 /\ ~ refused_cpp w0.
Proof.
  intros ((Hw & Hr) & Hack & _).
  assert (Hex : forall wn c a d, env wn = env w0 ->
            write_count wn [c; a; d] = 3 /\ reply_to wn [c; a; d] = (1, ACK)).
  { intros wn c a d Hen. unfold reply_to. unfold write_count. rewrite Hen.
    split; [apply Hw|].
    specialize (Hr (hist wn ++ [Tx [c; a; d] (write_ret (env w0) (hist wn) [c; a; d])]) 1).
    specialize (Hack (hist wn) c a d (write_ret (env w0) (hist wn) [c; a; d]) 1).
    destruct (read_ret _ _ _) as [n b]. cbn [fst snd] in *. subst n b. reflexivity. }
  split; intros (wn & c & a & d & Hen & Hbad);
    destruct (Hex wn c a d Hen) as (H1 & H2); destruct Hbad as [Hb | Hb];
    try contradiction; lia.
Qed.

Lemma write_inv_region (base : Z) (m : matrix) (w0 w : world) (addr : Z) :
  write_inv base m w0 64 (addr, w) ->
  exists fs, sent w = sent w0 ++ fs /\ (List.length fs <= 128)%nat /\
             Forall (region_frame (write_cmd base) base) fs.
Proof.
  intros (_ & _ & _ & Hf). eexists. split; [exact Hf|].
  split; [rewrite matrix_frames_length; lia|].
  eapply Forall_impl; [|apply frames_region]. cbv beta. intros f (Hc & Hl & Ha).
  split; [exact Hc|]. split; [exact Hl|]. lia.
Qed.

Lemma write_cut_region (cmd base : Z) (m : matrix) (w0 w : world) (k : nat) :
  write_cut cmd base m w0 w k ->
  exists fs, sent w = sent w0 ++ fs /\ (List.length fs <= 128)%nat /\
             Forall (region_frame cmd base) fs.
Proof.
  intros (Hk & _ & n & Hn & Hf). eexists. split; [exact Hf|]. split.
  - rewrite length_app, matrix_frames_length, length_firstn.
    cbn [half_frames List.length]. lia.
  - apply cut_region. exact Hk.
Qed.



Lemma tpu_write_loop_region (base : Z) (msg : Z -> Z -> string) (m : matrix) (w : world) :
  base = 0 \/ base = 128 ->
  forall r w',
  match
    for_range MATRIX_SIZE 0 (fun i s =>
      for_range MATRIX_SIZE 0 (fun j '(addr, w) =>
        let '(r, w) := tpu_write_fp16 w addr (m i j) in
        if negb (r =? 0) then inr (-1, fprintf_stderr (msg i j) w)
        else inl (u8 (addr + 2), w)) s) (base, w)
  with
  | inl (_, w) => (0, w)
  | inr r => r
  end = (r, w') ->
  (r = 0 \/ (r = -1 /\ refused w)) /\
  exists fs, sent w' = sent w ++ fs /\ (List.length fs <= 128)%nat /\
             Forall (region_frame (write_cmd base) base) fs.
Proof.
  intros Hb r w' Hrun. pose proof (write_loop_run base msg m w Hb) as H.
  destruct (for_range MATRIX_SIZE 0 _ (base, w)) as [[addr w1] | [r1 w1]].
  - injection Hrun as <- <-. split; [left; reflexivity|].
    exact (write_inv_region _ _ _ _ _ H).
  - injection Hrun as <- <-. destruct H as (-> & Href & k & Hcut & _).
    split; [right; split; [reflexivity | exact Href]|].
    exact (write_cut_region _ _ _ _ _ _ Hcut).
Qed.

Lemma writeLoop_region (base : Z) (m : matrix) (w : world) :
  base = 0 \/ base = 128 ->
  forall r w',
  Cpp.bind
    (Cpp.TPUDriver.for_range_io Cpp.MATRIX_SIZE 0 (fun i addr =>
      Cpp.TPUDriver.for_range_io Cpp.MATRIX_SIZE 0 (fun j addr =>
        Cpp.bind (Cpp.TPUDriver.writeFP16 addr (m i j))
                 (fun _ => Cpp.ret (u8 (addr + 2)))) addr) base)
    (fun _ => Cpp.ret tt) w = (r, w') ->
  (r = Cpp.Returns tt \/ ((exists e, r = Cpp.Throws e) /\ refused_cpp w)) /\
  exists fs, sent w' = sent w ++ fs /\ (List.length fs <= 128)%nat /\
             Forall (region_frame (write_cmd base) base) fs.
Proof.
  intros Hb r w' Hrun. pose proof (writeLoop_run base m w Hb) as H.
  unfold Cpp.bind at 1 in Hrun.
  destruct (Cpp.TPUDriver.for_range_io Cpp.MATRIX_SIZE 0 _ base w) as [[addr | e] w1].
  - injection Hrun as <- <-. split; [left; reflexivity|].
    exact (write_inv_region _ _ _ _ _ H).
  - injection Hrun as <- <-. destruct H as (Href & _ & k & Hcut).
    split; [right; split; [eexists; reflexivity | exact Href]|].
    exact (write_cut_region _ _ _ _ _ _ Hcut).
Qed.

(** Property X11.  Whatever the device does and however a transfer
    ends, a weight transfer sends at most 128 frames, all of three
    bytes with command ['W'] and an address below 128, and an activation
    transfer at most 128 frames, all with command ['A'] and an address
    from 128 to 255. *)
Theorem matrix_writes_stay_in_region (w : world) (m : matrix) :
  (exists fs, sent (snd (tpu_write_weights w m)) = sent w ++ fs /\
     (List.length fs <= 128)%nat /\
     Forall (region_frame CMD_WRITE_WEIGHT WEIGHT_BASE) fs) /\
  (exists fs, sent (snd (Cpp.TPUDriver.writeWeights m w)) = sent w ++ fs /\
     (List.length fs <= 128)%nat /\
     Forall (region_frame CMD_WRITE_WEIGHT WEIGHT_BASE) fs) /\
  (exists fs, sent (snd (tpu_write_activations w m)) = sent w ++ fs /\
     (List.length fs <= 128)%nat /\
     Forall (region_frame CMD_WRITE_ACTIVATION ACTIVATION_BASE) fs) /\
  (exists fs, sent (snd (Cpp.TPUDriver.writeActivations m w)) = sent w ++ fs /\
     (List.length fs <= 128)%nat /\
     Forall (region_frame CMD_WRITE_ACTIVATION ACTIVATION_BASE) fs).
Proof.
  split; [|split; [|split]].
  - destruct (tpu_write_weights w m) as [r w'] eqn:Hrun.
    exact (proj2 (tpu_write_loop_region WEIGHT_BASE _ m w (or_introl eq_refl) r w' Hrun)).
  - destruct (Cpp.TPUDriver.writeWeights m w) as [r w'] eqn:Hrun.
    exact (proj2 (writeLoop_region WEIGHT_BASE m w (or_introl eq_refl) r w' Hrun)).
  - destruct (tpu_write_activations w m) as [r w'] eqn:Hrun.
    exact (proj2 (tpu_write_loop_region ACTIVATION_BASE _ m w (or_intror eq_refl) r w' Hrun)).
  - destruct (Cpp.TPUDriver.writeActivations m w) as [r w'] eqn:Hrun.
    exact (proj2 (writeLoop_region ACTIVATION_BASE m w (or_intror eq_refl) r w' Hrun)).
Qed.

Lemma tpu_write_loop_ok (base : Z) (msg : Z -> Z -> string) (m : matrix) (w : world) :
  base = 0 \/ base = 128 -> acknowledges (env w) ->
  exists w',
  match
    for_range MATRIX_SIZE 0 (fun i s =>
      for_range MATRIX_SIZE 0 (fun j '(addr, w) =>
        let '(r, w) := tpu_write_fp16 w addr (m i j) in
        if negb (r =? 0) then inr (-1, fprintf_stderr (msg i j) w)
        else inl (u8 (addr + 2), w)) s) (base, w)
  with
  | inl (_, w) => (0, w)
  | inr r => r
  end = (0, w') /\
  env w' = env w /\ stderr w' = stderr w /\
  sent w' = sent w ++ matrix_frames (write_cmd base) base m 64.
Proof.
  intros Hb Hack. pose proof (write_loop_run base msg m w Hb) as H.
  destruct (for_range MATRIX_SIZE 0 _ (base, w)) as [[addr w1] | [r1 w1]].
  - destruct H as (_ & He & Hs & Hf). exists w1. repeat split; assumption.
  - destruct H as (_ & Href & _). destruct (acknowledged w Hack) as (Hc & _).
    contradiction.
Qed.

Lemma writeLoop_ok (base : Z) (m : matrix) (w : world) :
  base = 0 \/ base = 128 -> acknowledges (env w) ->
  exists w',
  Cpp.bind
    (Cpp.TPUDriver.for_range_io Cpp.MATRIX_SIZE 0 (fun i addr =>
      Cpp.TPUDriver.for_range_io Cpp.MATRIX_SIZE 0 (fun j addr =>
        Cpp.bind (Cpp.TPUDriver.writeFP16 addr (m i j))
                 (fun _ => Cpp.ret (u8 (addr + 2)))) addr) base)
    (fun _ => Cpp.ret tt) w = (Cpp.Returns tt, w') /\
  env w' = env w /\ stderr w' = stderr w /\
  sent w' = sent w ++ matrix_frames (write_cmd base) base m 64.
Proof.
  intros Hb Hack. pose proof (writeLoop_run base m w Hb) as H.
  unfold Cpp.bind at 1.
  destruct (Cpp.TPUDriver.for_range_io Cpp.MATRIX_SIZE 0 _ base w) as [[addr | e] w1].
  - destruct H as (_ & He & Hs & Hf). exists w1. repeat split; assumption.
  - destruct H as (Href & _). destruct (acknowledged w Hack) as (_ & Hp).
    contradiction.
Qed.

(** Property X12.  Against a device that acknowledges every write, the
    four transfers succeed and send all 128 frames. *)
Theorem matrix_writes_acknowledged (w : world) (m : matrix) :
  acknowledges (env w) ->
  (exists w', tpu_write_weights w m = (0, w') /\
     sent w' = sent w ++ matrix_frames CMD_WRITE_WEIGHT WEIGHT_BASE m 64) /\
  (exists w', tpu_write_activations w m = (0, w') /\
     sent w' = sent w ++ matrix_frames CMD_WRITE_ACTIVATION ACTIVATION_BASE m 64) /\
  (exists w', Cpp.TPUDriver.writeWeights m w = (Cpp.Returns tt, w') /\
     sent w' = sent w ++ matrix_frames CMD_WRITE_WEIGHT WEIGHT_BASE m 64) /\
  (exists w', Cpp.TPUDriver.writeActivations m w = (Cpp.Returns tt, w') /\
     sent w' = sent w ++ matrix_frames CMD_WRITE_ACTIVATION ACTIVATION_BASE m 64).
Proof.
  intros Hack. split; [|split; [|split]].
  - destruct (tpu_write_loop_ok WEIGHT_BASE
                (fun i j => ("Error writing weight[" ++ fmt_d i ++ "]["
                             ++ fmt_d j ++ "]")%string) m w (or_introl eq_refl) Hack)
      as (w' & Hrun & _ & _ & Hf).
    exists w'. split; [exact Hrun | exact Hf].
  - destruct (tpu_write_loop_ok ACTIVATION_BASE
                (fun i j => ("Error writing activation[" ++ fmt_d i ++ "]["
                             ++ fmt_d j ++ "]")%string) m w (or_intror eq_refl) Hack)
      as (w' & Hrun & _ & _ & Hf).
    exists w'. split; [exact Hrun | exact Hf].
  - destruct (writeLoop_ok WEIGHT_BASE m w (or_introl eq_refl) Hack)
      as (w' & Hrun & _ & _ & Hf).
    exists w'. split; [exact Hrun | exact Hf].
  - destruct (writeLoop_ok ACTIVATION_BASE m w (or_intror eq_refl) Hack)
      as (w' & Hrun & _ & _ & Hf).
    exists w'. split; [exact Hrun | exact Hf].
Qed.

Lemma answering_acknowledges (wall cpu : Z) : acknowledges (answering ACK wall cpu).
Proof. repeat split. Qed.

Lemma matrix_writes_acknowledged_witness :
  exists w', tpu_write_weights (boot (answering ACK 100 50)) zeros = (0, w') /\
    sent w' = sent (boot (answering ACK 100 50))
              ++ matrix_frames CMD_WRITE_WEIGHT WEIGHT_BASE zeros 64.
Proof.
  apply (matrix_writes_acknowledged (boot (answering ACK 100 50)) zeros).
  split; [split; intros h x; reflexivity|].
  split; intros; reflexivity.
Defined.

Lemma u16_range (z : Z) : 0 <= u16 z < 2 ^ 16.
Proof. unfold u16. apply Z.mod_pos_bound. lia. Qed.

Lemma float_to_fp16_range (value : Z) : 0 <= float_to_fp16 value < 2 ^ 16.
Proof.
  unfold float_to_fp16. cbv zeta.
  repeat match goal with
         | |- context [if ?b then _ else _] => destruct b
         end; apply u16_range.
Qed.

Lemma bytes_join (h : Z) :
  0 <= h < 2 ^ 16 ->
  u16 (Z.lor (Z.shiftl (u16 (u8 (Z.land (Z.shiftr h 8) 0xFF))) 8)
             (u8 (Z.land h 0xFF))) = h.
Proof.
  intros Hh. change (2 ^ 16) with 65536 in Hh.
  rewrite !land_FF, Z.shiftr_div_pow2, Z.shiftl_mul_pow2 by lia.
  unfold u8, u16. change (2 ^ 8) with 256. change (2 ^ 16) with 65536.
  rewrite (Z.mod_small ((h / 256) mod 256)) by (Z.div_mod_to_equations; lia).
  rewrite (Z.mod_small ((h / 256) mod 256)) by (Z.div_mod_to_equations; lia).
  rewrite (Z.mod_small (h mod 256) 256) by (Z.div_mod_to_equations; lia).
  rewrite (lor_disjoint _ _ 8);
    [ | lia | change (2 ^ 8) with 256; Z.div_mod_to_equations; lia
      | change (2 ^ 8) with 256; Z.div_mod_to_equations; lia ].
  rewrite Z.mod_small; Z.div_mod_to_equations; lia.
Qed.

Lemma stored_snoc (h : list event) (ev : event) (a : Z) :
  stored (h ++ [ev]) a =
  match ev with
  | Tx [_; a'; d] _ => if a' =? a then d else stored h a
  | _ => stored h a
  end.
Proof. unfold stored. rewrite fold_left_app. reflexivity. Qed.

Lemma tpu_write_byte_ok (w : world) (addr data : Z) :
  acknowledges (env w) ->
  exists w',
    tpu_write_byte w addr data = (0, w') /\
    Cpp.TPUDriver.writeByte addr data w = (Cpp.Returns tt, w') /\
    env w' = env w /\ stderr w' = stderr w /\
    hist w' = hist w ++ [Tx [write_cmd addr; addr; data] 3; Rx 1 ACK].
Proof.
  intros Hack. pose proof Hack as ((Hw & Hr) & Hk & _).
  assert (Hc : write_count w [write_cmd addr; addr; data] = 3) by apply Hw.
  assert (Hrep : reply_to w [write_cmd addr; addr; data] = (1, ACK)).
  { unfold reply_to. rewrite Hc.
    specialize (Hr (hist w ++ [Tx [write_cmd addr; addr; data] 3]) 1).
    specialize (Hk (hist w) (write_cmd addr) addr data 3 1).
    destruct (read_ret _ _ _) as [n b]. cbn [fst snd] in *. subst. reflexivity. }
  eexists. rewrite tpu_write_byte_unfold, writeByte_unfold. cbv zeta.
  rewrite Hc, Hrep. cbn [fst snd Z.eqb Z.ltb Z.compare Pos.eqb negb orb].
  split; [reflexivity|]. split; [reflexivity|].
  cbn [env stderr hist io_step]. rewrite <- app_assoc. repeat split.
Qed.

Lemma tpu_read_byte_exact (w : world) (addr : Z) :
  no_io_error (env w) ->
  let b := snd (reply_to w [CMD_READ_RESULT; addr]) in
  exists w',
    tpu_read_byte w addr = (0, Some b, w') /\
    Cpp.TPUDriver.readByte addr w = (Cpp.Returns b, w') /\
    env w' = env w /\ stderr w' = stderr w /\
    hist w' = hist w ++ [Tx [CMD_READ_RESULT; addr] 2; Rx 1 b].
Proof.
  intros Hok b.
  destruct (no_io_error_exchange w [CMD_READ_RESULT; addr] Hok) as (Hw & Hr).
  cbn [List.length Z.of_nat Pos.of_succ_nat Pos.succ] in Hw.
  eexists.
  rewrite tpu_read_byte_unfold, readByte_unfold. cbv zeta.
  rewrite Hw, Hr. cbn [Z.eqb Z.ltb Z.compare Pos.eqb negb].
  split; [reflexivity|]. split; [reflexivity|].
  cbn [env stderr hist io_step]. rewrite <- app_assoc. repeat split.
Qed.

Lemma remembered (w : world) (a : Z) :
  no_io_error (env w) -> remembers (env w) ->
  snd (reply_to w [CMD_READ_RESULT; a]) = u8 (stored (hist w) a).
Proof.
  intros Hok Hrem. unfold reply_to.
  specialize (Hrem (hist w) a (write_count w [CMD_READ_RESULT; a]) 1).
  destruct (read_ret _ _ _) as [n b]. cbn [snd] in *. subst b. reflexivity.
Qed.

(** Property X13.  Against a device that acknowledges writes and
    answers a read with the byte last written at the address, a 16-bit
    write at an even address followed by a 16-bit read there succeeds
    and yields the value written, rounded to half precision:
    [fp16_to_float (float_to_fp16 value)].  The two bytes are split and
    joined in the same order; both drivers agree. *)
Theorem write_then_read_fp16 (w : world) (addr value : Z) :
  acknowledges (env w) -> remembers (env w) ->
  0 <= addr < 256 -> Z.even addr = true ->
  exists w1 w2,
    tpu_write_fp16 w addr value = (0, w1) /\
    tpu_read_fp16 w1 addr = (0, Some (fp16_to_float (float_to_fp16 value)), w2) /\
    Cpp.TPUDriver.writeFP16 addr value w = (Cpp.Returns tt, w1) /\
    Cpp.TPUDriver.readFP16 addr w1
    = (Cpp.Returns (fp16_to_float (float_to_fp16 value)), w2).
Proof.
  intros Hack Hrem Ha He.
  destruct (write_cmd_next addr Ha He) as (Hnext & Hcmd). apply even_rem in He.
  set (low := u8 (Z.land (float_to_fp16 value) 0xFF)).
  set (high := u8 (Z.land (Z.shiftr (float_to_fp16 value) 8) 0xFF)).
  destruct (tpu_write_byte_ok w addr low Hack) as (wa & Hc1 & Hp1 & He1 & _ & Hh1).
  assert (Hacka : acknowledges (env wa)) by (rewrite He1; exact Hack).
  destruct (tpu_write_byte_ok wa (addr + 1) high Hacka)
    as (w1 & Hc2 & Hp2 & He2 & _ & Hh2).
  assert (Hok1 : no_io_error (env w1)) by (rewrite He2, He1; apply Hack).
  assert (Hrem1 : remembers (env w1)) by (rewrite He2, He1; exact Hrem).
  pose proof (tpu_read_byte_exact w1 addr Hok1) as Hr1. cbv zeta in Hr1.
  destruct Hr1 as (wb & Hc3 & Hp3 & He3 & _ & Hh3).
  assert (Hokb : no_io_error (env wb)) by (rewrite He3; exact Hok1).
  assert (Hremb : remembers (env wb)) by (rewrite He3; exact Hrem1).
  pose proof (tpu_read_byte_exact wb (addr + 1) Hokb) as Hr2. cbv zeta in Hr2.
  destruct Hr2 as (w2 & Hc4 & Hp4 & _ & _ & _).
  assert (Hlo : snd (reply_to w1 [CMD_READ_RESULT; addr]) = low).
  { rewrite (remembered w1 addr Hok1 Hrem1), Hh2, Hh1.
    change [Tx [write_cmd (addr + 1); addr + 1; high] 3; Rx 1 ACK]
      with ([Tx [write_cmd (addr + 1); addr + 1; high] 3] ++ [Rx 1 ACK]).
    change [Tx [write_cmd addr; addr; low] 3; Rx 1 ACK]
      with ([Tx [write_cmd addr; addr; low] 3] ++ [Rx 1 ACK]).
    rewrite !app_assoc, !stored_snoc.
    destruct (Z.eqb_spec (addr + 1) addr); [lia|].
    rewrite Z.eqb_refl. unfold low, u8. apply Z.mod_mod. discriminate. }
  assert (Hhi : snd (reply_to wb [CMD_READ_RESULT; addr + 1]) = high).
  { rewrite (remembered wb (addr + 1) Hokb Hremb), Hh3, Hh2.
    change [Tx [CMD_READ_RESULT; addr] 2; Rx 1 (snd (reply_to w1 [CMD_READ_RESULT; addr]))]
      with ([Tx [CMD_READ_RESULT; addr] 2]
            ++ [Rx 1 (snd (reply_to w1 [CMD_READ_RESULT; addr]))]).
    change [Tx [write_cmd (addr + 1); addr + 1; high] 3; Rx 1 ACK]
      with ([Tx [write_cmd (addr + 1); addr + 1; high] 3] ++ [Rx 1 ACK]).
    rewrite !app_assoc, !stored_snoc.
    rewrite Z.eqb_refl. unfold high, u8. apply Z.mod_mod. discriminate. }
  rewrite Hlo in Hc3, Hp3. rewrite Hhi in Hc4, Hp4.
  exists w1, w2.
  unfold tpu_write_fp16, tpu_read_fp16, Cpp.TPUDriver.writeFP16,
    Cpp.TPUDriver.readFP16.
  rewrite He. cbn [negb]. rewrite Hnext.
  change (Cpp.FP16.fromFloat value) with (float_to_fp16 value).
  fold low high. unfold Cpp.bind.
  rewrite Hc1, Hp1. cbn [Z.eqb negb]. rewrite Hc2, Hp2. cbn [Z.eqb negb].
  rewrite Hc3, Hp3, Hc4, Hp4.
  change Cpp.FP16.toFloat with fp16_to_float.
  unfold low, high. rewrite bytes_join by apply float_to_fp16_range.
  repeat split.
Qed.

Lemma memory_device_serves :
  acknowledges memory_device /\ remembers memory_device /\ reports_done memory_device.
Proof.
  split; [|split].
  - split; [split; intros h x; [reflexivity|]|split].
    + cbn [read_ret memory_device].
      destruct (last h (Rx 0 0)) as [[|c [|a [|d l]]] r | r d]; try reflexivity.
      * destruct (c =? CMD_STATUS); reflexivity.
      * destruct (c =? CMD_READ_RESULT); reflexivity.
    + intros h c a d n len. cbn [read_ret memory_device].
      rewrite last_last. reflexivity.
    + intros h n len. cbn [read_ret memory_device].
      rewrite last_last. reflexivity.
  - intros h a n len. cbn [read_ret memory_device].
    rewrite last_last. cbn [Z.eqb CMD_READ_RESULT Pos.eqb snd].
    rewrite stored_snoc. reflexivity.
  - intros h n len. cbn [read_ret memory_device].
    rewrite last_last. reflexivity.
Qed.

Lemma write_then_read_fp16_witness :
  exists w1 w2,
    tpu_write_fp16 (boot memory_device) 6 0x3FC00000 = (0, w1) /\
    tpu_read_fp16 w1 6 = (0, Some 0x3FC00000, w2).
Proof.
  destruct (write_then_read_fp16 (boot memory_device) 6 0x3FC00000)
    as (w1 & w2 & Hw & Hr & _).
  - apply memory_device_serves.
  - apply memory_device_serves.
  - lia.
  - reflexivity.
  - exists w1, w2. split; [exact Hw | exact Hr].
Defined.

(** ** More on the poll loops *)

Lemma sent_app (w w' : world) (evs : list event) :
  hist w' = hist w ++ evs -> sent w' = sent w ++ frames evs.
Proof. intros H. unfold sent, frames. rewrite H. apply flat_map_app. Qed.

Lemma repeat_snoc {A : Type} (x : A) (n : nat) : x :: repeat x n = repeat x n ++ [x].
Proof. induction n as [|n IH]; [reflexivity|]. cbn [repeat app]. rewrite <- IH. reflexivity. Qed.

Lemma div_gt_bound (a c t : Z) : 0 < c -> t < a / c -> (t + 1) * c <= a.
Proof. intros Hc H. pose proof (Z.mul_div_le a c Hc). nia. Qed.

Section CProcessorTime.

Variables (T timeout_ms start : Z) (p : platform).
Hypothesis Hok : no_io_error p.
Hypothesis Hnd : never_done p.
Hypothesis Hcpu : forall h, 1 <= io_cpu_ticks p h <= T.
Hypothesis Hwall : forall h, 0 <= io_wall_us p h.
Hypothesis Hcps : 0 < CLOCKS_PER_SEC p.
Hypothesis Ht : 0 <= timeout_ms.

Lemma tpu_wait_until_done_loop_processor_time (n : nat) :
  forall w : world,
  env w = p -> start <= cpu_ticks w ->
  (timeout_ms + 1) * CLOCKS_PER_SEC p - (cpu_ticks w - start) * 1000
  <= 2000 * Z.of_nat n ->
  exists fuel w' k,
    tpu_wait_until_done_loop fuel start timeout_ms w = Some (-1, w') /\
    stderr w' = stderr w ++ ["Error: Timeout waiting for TPU"%string] /\
    sent w' = sent w ++ repeat [CMD_STATUS] k /\
    (timeout_ms + 1) * CLOCKS_PER_SEC p <= (cpu_ticks w' - start) * 1000 /\
    cpu_ticks w' - cpu_ticks w <= 2 * T * Z.of_nat k /\
    10000 * (Z.of_nat k - 1) <= wall_us w' - wall_us w.
Proof.
  induction n as [|n IH]; intros w Hp Hs Hn.
  - subst p. destruct (poll_not_done w Hok Hnd)
      as (b & w1 & _ & Hg & _ & _ & He & Herr & Hh & Hwl & Hc).
    pose proof (Hcpu (hist w)) as H1.
    pose proof (Hcpu (hist w ++ [Tx [CMD_STATUS] 1])) as H2.
    pose proof (Hwall (hist w)) as H3.
    pose proof (Hwall (hist w ++ [Tx [CMD_STATUS] 1])) as H4.
    exists 1%nat, (fprintf_stderr "Error: Timeout waiting for TPU" w1), 1%nat.
    cbn [tpu_wait_until_done_loop]. rewrite Hg. cbn [done truthy Z.eqb negb].
    unfold clock. rewrite He.
    rewrite Z.quot_div_nonneg by lia.
    destruct (Z.gtb_spec ((cpu_ticks w1 - start) * 1000 / CLOCKS_PER_SEC (env w))
                timeout_ms) as [Hgt | Hle].
    + split; [reflexivity|]. cbn [stderr sent hist cpu_ticks wall_us fprintf_stderr].
      split; [rewrite Herr; reflexivity|].
      split; [apply (sent_app w w1 _ Hh)|].
      split; [|lia].
      apply div_gt_bound in Hgt; lia.
    + exfalso.
      assert ((timeout_ms + 1) * CLOCKS_PER_SEC (env w) <= (cpu_ticks w1 - start) * 1000)
        by lia.
      assert (timeout_ms + 1 <= (cpu_ticks w1 - start) * 1000 / CLOCKS_PER_SEC (env w))
        by (apply Z.div_le_lower_bound; lia).
      lia.
  - subst p. destruct (poll_not_done w Hok Hnd)
      as (b & w1 & _ & Hg & _ & _ & He & Herr & Hh & Hwl & Hc).
    pose proof (Hcpu (hist w)) as H1.
    pose proof (Hcpu (hist w ++ [Tx [CMD_STATUS] 1])) as H2.
    pose proof (Hwall (hist w)) as H3.
    pose proof (Hwall (hist w ++ [Tx [CMD_STATUS] 1])) as H4.
    destruct (Z.gtb_spec ((cpu_ticks w1 - start) * 1000 / CLOCKS_PER_SEC (env w))
                timeout_ms) as [Hgt | Hle].
    + exists 1%nat, (fprintf_stderr "Error: Timeout waiting for TPU" w1), 1%nat.
      cbn [tpu_wait_until_done_loop]. rewrite Hg. cbn [done truthy Z.eqb negb].
      unfold clock. rewrite He. rewrite Z.quot_div_nonneg by lia.
      destruct (Z.gtb_spec ((cpu_ticks w1 - start) * 1000 / CLOCKS_PER_SEC (env w))
                  timeout_ms); [|lia].
      split; [reflexivity|]. cbn [stderr sent hist cpu_ticks wall_us fprintf_stderr].
      split; [rewrite Herr; reflexivity|].
      split; [apply (sent_app w w1 _ Hh)|].
      split; [|lia].
      apply div_gt_bound in Hgt; lia.
    + destruct (IH (usleep 10000 w1)) as (fuel & w' & k & Hrun & Herr' & Hs' & Hlow & Hup & Hwt).
      * cbn [env usleep]. exact He.
      * cbn [cpu_ticks usleep]. lia.
      * cbn [cpu_ticks usleep]. lia.
      * exists (S fuel), w', (S k). cbn [tpu_wait_until_done_loop].
        rewrite Hg. cbn [done truthy Z.eqb negb].
        unfold clock. rewrite He. rewrite Z.quot_div_nonneg by lia.
        destruct (Z.gtb_spec ((cpu_ticks w1 - start) * 1000 / CLOCKS_PER_SEC (env w))
                    timeout_ms); [lia|].
        split; [exact Hrun|].
        cbn [stderr sent hist cpu_ticks wall_us usleep] in *.
        split; [rewrite Herr', Herr; reflexivity|].
        split.
        { unfold sent in *. cbn [hist usleep] in Hs'. rewrite Hs'.
          fold (sent w1). rewrite (sent_app w w1 _ Hh). cbn [frames flat_map app].
          rewrite <- app_assoc. cbn [app repeat]. reflexivity. }
        split; [exact Hlow|]. lia.
Qed.

End CProcessorTime.

(** Property X14.  [tpu_wait_until_done] measures its timeout in
    processor time.  Against a device that never reports done, when
    every call on the line uses between 1 and [T] ticks, the loop ends
    with -1 and the timeout message after some [k] status requests; the
    processor time used by then is more than [timeout_ms] milliseconds
    and at most [2 * T * k] ticks, and [k - 1] sleeps of 10 ms have
    passed on the wall clock.  The fewer ticks a call uses, the more
    rounds the loop makes and the longer it sleeps past the timeout. *)
Theorem tpu_wait_until_done_processor_time (T timeout_ms : Z) (w : world) :
  no_io_error (env w) -> never_done (env w) ->
  (forall h, 1 <= io_cpu_ticks (env w) h <= T) ->
  (forall h, 0 <= io_wall_us (env w) h) ->
  0 < CLOCKS_PER_SEC (env w) -> 0 <= timeout_ms ->
  exists fuel w' k,
    tpu_wait_until_done fuel w timeout_ms = Some (-1, w') /\
    stderr w' = stderr w ++ ["Error: Timeout waiting for TPU"%string] /\
    sent w' = sent w ++ repeat [CMD_STATUS] k /\
    (timeout_ms + 1) * CLOCKS_PER_SEC (env w) <= (cpu_ticks w' - cpu_ticks w) * 1000 /\
    cpu_ticks w' - cpu_ticks w <= 2 * T * Z.of_nat k /\
    10000 * (Z.of_nat k - 1) <= wall_us w' - wall_us w.
Proof.
  intros Hok Hnd Hcpu Hwall Hcps Ht.
  apply (tpu_wait_until_done_loop_processor_time T timeout_ms (cpu_ticks w) (env w)
           Hok Hnd Hcpu Hwall Hcps Ht
           (Z.to_nat ((timeout_ms + 1) * CLOCKS_PER_SEC (env w)))); try reflexivity; nia.
Qed.

Lemma tpu_wait_until_done_processor_time_witness :
  exists fuel w' k,
    tpu_wait_until_done fuel (boot (answering 0 100 50)) 20 = Some (-1, w') /\
    sent w' = repeat [CMD_STATUS] k /\
    10000 * (Z.of_nat k - 1) <= wall_us w'.
Proof.
  destruct (tpu_wait_until_done_processor_time 50 20 (boot (answering 0 100 50)))
    as (fuel & w' & k & Hrun & _ & Hs & _ & _ & Hw).
  - split; intros h x; reflexivity.
  - intros h x. reflexivity.
  - intros h. cbn. lia.
  - intros h. cbn. lia.
  - reflexivity.
  - lia.
  - exists fuel, w', k. split; [exact Hrun|]. split; [exact Hs|].
    cbn [wall_us boot] in Hw. lia.
Defined.

Lemma land_bit (b : Z) (n : Z) :
  0 <= n -> Z.land b (2 ^ n) = if Z.testbit b n then 2 ^ n else 0.
Proof.
  intros Hn. apply Z.bits_inj'. intros k Hk.
  rewrite Z.land_spec, Z.pow2_bits_eqb by exact Hn.
  destruct (Z.eqb_spec n k) as [<- | Hne].
  - rewrite andb_true_r. destruct (Z.testbit b n) eqn:Hb.
    + rewrite Z.pow2_bits_true by exact Hn. reflexivity.
    + rewrite Z.bits_0. reflexivity.
  - rewrite andb_false_r. destruct (Z.testbit b n).
    + rewrite Z.pow2_bits_false by exact Hne. reflexivity.
    + rewrite Z.bits_0. reflexivity.
Qed.

Lemma flag_test (b : Z) :
  truthy (Z.land b STATUS_BUSY) = Z.testbit b 0 /\
  truthy (Z.land b STATUS_DONE) = Z.testbit b 1.
Proof.
  split.
  - change STATUS_BUSY with (2 ^ 0). rewrite land_bit by lia.
    destruct (Z.testbit b 0); reflexivity.
  - change STATUS_DONE with (2 ^ 1). rewrite land_bit by lia.
    destruct (Z.testbit b 1); reflexivity.
Qed.

(** Property X15.  [tpu_get_status] and [getStatus] report bit 0 of the
    status byte as [busy] and bit 1 as [done], the C driver as 0 or 1,
    and nothing else of the byte.  The C driver succeeds exactly when
    the one-byte frame was taken and one byte came back, and leaves
    [*status] unwritten otherwise; the C++ driver throws when [write]
    failed or no single byte came back. *)
Theorem status_flags (w : world) :
  let b := snd (reply_to w [CMD_STATUS]) in
  let n := fst (reply_to w [CMD_STATUS]) in
  let c := write_count w [CMD_STATUS] in
  (let '(r, st, _) := tpu_get_status w in
   (r = 0 /\ c = 1 /\ n = 1 /\
    st = Some {| busy := Z.b2z (Z.testbit b 0); done := Z.b2z (Z.testbit b 1) |}) \/
   (r = -1 /\ st = None /\ (c <> 1 \/ n <> 1))) /\
  (let '(r, _) := Cpp.TPUDriver.getStatus w in
   (0 <= c /\ n = 1 /\
    r = Cpp.Returns {| Cpp.busy := Z.testbit b 0; Cpp.done := Z.testbit b 1 |}) \/
   ((exists e, r = Cpp.Throws e) /\ (c < 0 \/ n <> 1))).
Proof.
  cbv zeta. destruct (flag_test (snd (reply_to w [CMD_STATUS]))) as (Hb & Hd).
  rewrite tpu_get_status_unfold, getStatus_unfold. cbv zeta.
  unfold Cpp.TPUStatus_of_byte. unfold STATUS_BUSY, STATUS_DONE in *.
  rewrite Hb, Hd.
  split.
  - destruct (Z.eqb_spec (write_count w [CMD_STATUS]) 1); cbn [negb];
      [|right; repeat split; left; assumption].
    destruct (Z.eqb_spec (fst (reply_to w [CMD_STATUS])) 1); cbn [negb];
      [|right; repeat split; right; assumption].
    left. repeat split; try assumption.
  - destruct (Z.ltb_spec (write_count w [CMD_STATUS]) 0);
      [right; split; [eexists; reflexivity | left; assumption]|].
    destruct (Z.ltb_spec (fst (reply_to w [CMD_STATUS])) 0);
      [right; split; [eexists; reflexivity | right; lia]|].
    destruct (Z.eqb_spec (fst (reply_to w [CMD_STATUS])) 1); cbn [negb];
      [|right; split; [eexists; reflexivity | right; assumption]].
    left. repeat split; assumption.
Qed.

Lemma tpu_wait_until_done_loop_sound (fuel : nat) :
  forall (start timeout_ms : Z) (w : world) (r : Z) (w' : world),
  tpu_wait_until_done_loop fuel start timeout_ms w = Some (r, w') ->
  env w' = env w /\
  exists n, (1 <= n <= fuel)%nat /\ sent w' = sent w ++ repeat [CMD_STATUS] n /\
  ((r = 0 /\ stderr w' = stderr w /\
    exists h b, hist w' = h ++ [Tx [CMD_STATUS] 1; Rx 1 b] /\ Z.testbit b 1 = true) \/
   (r = -1 /\ stderr w' = stderr w ++ ["Error: Timeout waiting for TPU"%string] /\
    timeout_ms < Z.quot ((cpu_ticks w' - start) * 1000) (CLOCKS_PER_SEC (env w))) \/
   (r = -1 /\ stderr w' = stderr w /\
    exists wn, env wn = env w /\
      (write_count wn [CMD_STATUS] <> 1 \/ fst (reply_to wn [CMD_STATUS]) <> 1))).
Proof.
  induction fuel as [|fuel IH]; intros start timeout_ms w r w' Hrun.
  - discriminate Hrun.
  - cbn [tpu_wait_until_done_loop] in Hrun.
    rewrite tpu_get_status_unfold in Hrun. cbv zeta in Hrun.
    destruct (flag_test (snd (reply_to w [CMD_STATUS]))) as (_ & Hd).
    set (c := write_count w [CMD_STATUS]) in *.
    set (n := fst (reply_to w [CMD_STATUS])) in *.
    set (b := snd (reply_to w [CMD_STATUS])) in *.
    set (w1 := io_step (Tx [CMD_STATUS] c) w) in *.
    set (w2 := io_step (Rx n b) w1) in *.
    assert (Hs1 : sent w1 = sent w ++ [[CMD_STATUS]]) by apply sent_tx.
    assert (Hs2 : sent w2 = sent w ++ [[CMD_STATUS]])
      by (unfold w2; rewrite sent_rx; exact Hs1).
    destruct (Z.eqb_spec c 1) as [Hc | Hc]; cbn [negb] in Hrun.
    2:{ injection Hrun as <- <-. split; [reflexivity|].
        exists 1%nat. split; [lia|]. split; [exact Hs1|].
        right. right. split; [reflexivity|]. split; [reflexivity|].
        exists w. split; [reflexivity|]. left. exact Hc. }
    destruct (Z.eqb_spec n 1) as [Hn | Hn]; cbn [negb] in Hrun.
    2:{ injection Hrun as <- <-. split; [reflexivity|].
        exists 1%nat. split; [lia|]. split; [exact Hs2|].
        right. right. split; [reflexivity|]. split; [reflexivity|].
        exists w. split; [reflexivity|]. right. exact Hn. }
    cbn [done] in Hrun. rewrite Hd in Hrun.
    destruct (Z.testbit b 1) eqn:Hbit; cbn [truthy Z.eqb negb] in Hrun.
    { injection Hrun as <- <-. split; [reflexivity|].
      exists 1%nat. split; [lia|]. split; [exact Hs2|].
      left. split; [reflexivity|]. split; [reflexivity|].
      exists (hist w), b. split; [|exact Hbit].
      unfold w2, w1. cbn [hist io_step]. rewrite Hc, Hn, <- app_assoc. reflexivity. }
    destruct (Z.gtb_spec (Z.quot ((clock w2 - start) * 1000) (CLOCKS_PER_SEC (env w2)))
                timeout_ms) as [Hgt | Hle].
    { injection Hrun as <- <-. split; [reflexivity|].
      exists 1%nat. split; [lia|]. split; [exact Hs2|].
      right. left. split; [reflexivity|]. split; [reflexivity|]. exact Hgt. }
    destruct (IH start timeout_ms (usleep 10000 w2) r w' Hrun)
      as (He & k & Hk & Hs & Hcase).
    split; [exact He|].
    exists (S k). split; [lia|]. split.
    { rewrite Hs. change (sent (usleep 10000 w2)) with (sent w2).
      rewrite Hs2, <- app_assoc. reflexivity. }
    exact Hcase.
Qed.

Lemma waitUntilDone_loop_sound (fuel : nat) :
  forall (start timeout_ms : Z) (w : world) (r : Cpp.outcome unit) (w' : world),
  Cpp.TPUDriver.waitUntilDone_loop fuel start timeout_ms w = Some (r, w') ->
  env w' = env w /\ stderr w' = stderr w /\
  exists n, (1 <= n <= fuel)%nat /\ sent w' = sent w ++ repeat [CMD_STATUS] n /\
  ((r = Cpp.Returns tt /\
    exists h c b, hist w' = h ++ [Tx [CMD_STATUS] c; Rx 1 b] /\ 0 <= c /\
                  Z.testbit b 1 = true) \/
   (r = Cpp.Throws (Cpp.runtime_error "Timeout waiting for TPU") /\
    timeout_ms < Z.quot (wall_us w' - start) 1000) \/
   ((r = Cpp.Throws (Cpp.runtime_error "Write failed") \/
     r = Cpp.Throws (Cpp.runtime_error "Read failed") \/
     r = Cpp.Throws (Cpp.runtime_error "Failed to read status")) /\
    exists wn, env wn = env w /\
      (write_count wn [CMD_STATUS] < 0 \/ fst (reply_to wn [CMD_STATUS]) <> 1))).
Proof.
  induction fuel as [|fuel IH]; intros start timeout_ms w r w' Hrun.
  - discriminate Hrun.
  - cbn [Cpp.TPUDriver.waitUntilDone_loop] in Hrun.
    rewrite getStatus_unfold in Hrun. cbv zeta in Hrun.
    destruct (flag_test (snd (reply_to w [CMD_STATUS]))) as (_ & Hd).
    set (c := write_count w [CMD_STATUS]) in *.
    set (n := fst (reply_to w [CMD_STATUS])) in *.
    set (b := snd (reply_to w [CMD_STATUS])) in *.
    set (w1 := io_step (Tx [CMD_STATUS] c) w) in *.
    set (w2 := io_step (Rx n b) w1) in *.
    assert (Hs1 : sent w1 = sent w ++ [[CMD_STATUS]]) by apply sent_tx.
    assert (Hs2 : sent w2 = sent w ++ [[CMD_STATUS]])
      by (unfold w2; rewrite sent_rx; exact Hs1).
    destruct (Z.ltb_spec c 0) as [Hc | Hc].
    { injection Hrun as <- <-. split; [reflexivity|]. split; [reflexivity|].
      exists 1%nat. split; [lia|]. split; [exact Hs1|].
      right. right. split; [left; reflexivity|].
      exists w. split; [reflexivity|]. left. exact Hc. }
    destruct (Z.ltb_spec n 0) as [Hn0 | Hn0].
    { injection Hrun as <- <-. split; [reflexivity|]. split; [reflexivity|].
      exists 1%nat. split; [lia|]. split; [exact Hs2|].
      right. right. split; [right; left; reflexivity|].
      exists w. split; [reflexivity|]. right. fold n. lia. }
    destruct (Z.eqb_spec n 1) as [Hn | Hn]; cbn [negb] in Hrun.
    2:{ injection Hrun as <- <-. split; [reflexivity|]. split; [reflexivity|].
        exists 1%nat. split; [lia|]. split; [exact Hs2|].
        right. right. split; [right; right; reflexivity|].
        exists w. split; [reflexivity|]. right. exact Hn. }
    unfold Cpp.TPUStatus_of_byte in Hrun. cbn [Cpp.done] in Hrun.
    unfold STATUS_DONE in Hd. rewrite Hd in Hrun.
    destruct (Z.testbit b 1) eqn:Hbit.
    { injection Hrun as <- <-. split; [reflexivity|]. split; [reflexivity|].
      exists 1%nat. split; [lia|]. split; [exact Hs2|].
      left. split; [reflexivity|].
      exists (hist w), c, b. split; [|split; [exact Hc | exact Hbit]].
      unfold w2, w1. cbn [hist io_step]. rewrite Hn, <- app_assoc. reflexivity. }
    destruct (Z.gtb_spec (Z.quot (steady_clock_now w2 - start) 1000) timeout_ms)
      as [Hgt | Hle].
    { injection Hrun as <- <-. split; [reflexivity|]. split; [reflexivity|].
      exists 1%nat. split; [lia|]. split; [exact Hs2|].
      right. left. split; [reflexivity | exact Hgt]. }
    unfold Cpp.TPUDriver.sleep_for_ms in Hrun.
    destruct (IH start timeout_ms (usleep (1000 * 10) w2) r w' Hrun)
      as (He & Herr & k & Hk & Hs & Hcase).
    split; [exact He|]. split; [exact Herr|].
    exists (S k). split; [lia|]. split.
    { rewrite Hs. change (sent (usleep (1000 * 10) w2)) with (sent w2).
      rewrite Hs2, <- app_assoc. reflexivity. }
    exact Hcase.
Qed.





(** ** Reading results on any device, and the whole multiplication *)

Lemma frames_read_log (addrs : list Z) :
  forall bs, List.length bs = List.length addrs ->
  frames (read_log addrs bs) = read_frames addrs.
Proof.
  induction addrs as [|a addrs IH]; intros [|[lo hi] bs] Hlen; try discriminate Hlen.
  - reflexivity.
  - cbn [read_log frames flat_map app read_frames].
    f_equal. f_equal. apply IH. cbn in Hlen. lia.
Qed.

Lemma read_frames_snoc (addrs : list Z) (a : Z) :
  read_frames (addrs ++ [a]) = read_frames addrs ++ read_frames [a].
Proof. unfold read_frames. apply flat_map_app. Qed.

Lemma tpu_read_byte_run (w : world) (addr : Z) :
  let '(r, v, w') := tpu_read_byte w addr in
  env w' = env w /\ stderr w' = stderr w /\
  sent w' = sent w ++ [[CMD_READ_RESULT; addr]] /\
  ((r = 0 /\ exists b, v = Some b /\
      hist w' = hist w ++ [Tx [CMD_READ_RESULT; addr] 2; Rx 1 b]) \/
   (r = -1 /\ v = None)).
Proof.
  rewrite tpu_read_byte_unfold. cbv zeta.
  set (c := write_count w [CMD_READ_RESULT; addr]).
  set (n := fst (reply_to w [CMD_READ_RESULT; addr])).
  set (b := snd (reply_to w [CMD_READ_RESULT; addr])).
  destruct (Z.eqb_spec c 2) as [Hc | Hc]; cbn [negb].
  2:{ split; [reflexivity|]. split; [reflexivity|]. split; [apply sent_tx|].
      right. split; reflexivity. }
  destruct (Z.eqb_spec n 1) as [Hn | Hn]; cbn [negb].
  2:{ split; [reflexivity|]. split; [reflexivity|].
      split; [rewrite sent_rx; apply sent_tx|]. right. split; reflexivity. }
  split; [reflexivity|]. split; [reflexivity|].
  split; [rewrite sent_rx; apply sent_tx|]. left. split; [reflexivity|].
  exists b. split; [reflexivity|]. cbn [hist io_step].
  rewrite Hc, Hn, <- app_assoc. reflexivity.
Qed.

Lemma readByte_run (w : world) (addr : Z) :
  let '(r, w') := Cpp.TPUDriver.readByte addr w in
  env w' = env w /\ stderr w' = stderr w /\
  sent w' = sent w ++ [[CMD_READ_RESULT; addr]].
Proof.
  rewrite readByte_unfold. cbv zeta.
  destruct (_ <? 0); [repeat split; apply sent_tx|].
  destruct (_ <? 0); [repeat split; rewrite sent_rx; apply sent_tx|].
  destruct (negb _); repeat split; rewrite sent_rx; apply sent_tx.
Qed.

Lemma tpu_read_fp16_run (w : world) (addr : Z) :
  0 <= addr < 256 -> Z.even addr = true ->
  let '(r, v, w') := tpu_read_fp16 w addr in
  env w' = env w /\ stderr w' = stderr w /\
  ((r = 0 /\ exists lo hi, v = Some (decode_half lo hi) /\
      hist w' = hist w ++ [Tx [CMD_READ_RESULT; addr] 2; Rx 1 lo;
                           Tx [CMD_READ_RESULT; addr + 1] 2; Rx 1 hi]) \/
   (r = -1 /\ v = None /\
    exists n, (1 <= n <= 2)%nat /\
      sent w' = sent w ++ firstn n (read_frames [addr]))).
Proof.
  intros Ha He.
  destruct (write_cmd_next addr Ha He) as (Hnext & _). apply even_rem in He.
  unfold tpu_read_fp16. rewrite He. cbn [negb]. rewrite Hnext.
  pose proof (tpu_read_byte_run w addr) as H1.
  destruct (tpu_read_byte w addr) as [[r1 v1] w1].
  destruct H1 as (He1 & Hs1 & Hf1 & [(-> & lo & -> & Hh1) | (-> & ->)]).
  2:{ split; [exact He1|]. split; [exact Hs1|]. right.
      split; [reflexivity|]. split; [reflexivity|].
      exists 1%nat. split; [lia | exact Hf1]. }
  pose proof (tpu_read_byte_run w1 (addr + 1)) as H2.
  destruct (tpu_read_byte w1 (addr + 1)) as [[r2 v2] w2].
  destruct H2 as (He2 & Hs2 & Hf2 & [(-> & hi & -> & Hh2) | (-> & ->)]).
  - split; [congruence|]. split; [congruence|]. left. split; [reflexivity|].
    exists lo, hi. split; [reflexivity|]. rewrite Hh2, Hh1, <- app_assoc. reflexivity.
  - split; [congruence|]. split; [congruence|]. right.
    split; [reflexivity|]. split; [reflexivity|].
    exists 2%nat. split; [lia|]. rewrite Hf2, Hf1, <- app_assoc. reflexivity.
Qed.

Lemma readFP16_run (w : world) (addr : Z) :
  0 <= addr < 256 -> Z.even addr = true ->
  let '(r, w') := Cpp.TPUDriver.readFP16 addr w in
  env w' = env w /\ stderr w' = stderr w /\
  (((exists v, r = Cpp.Returns v) /\ sent w' = sent w ++ read_frames [addr]) \/
   ((exists e, r = Cpp.Throws e) /\
    exists n, (1 <= n <= 2)%nat /\
      sent w' = sent w ++ firstn n (read_frames [addr]))).
Proof.
  intros Ha He.
  destruct (write_cmd_next addr Ha He) as (Hnext & _). apply even_rem in He.
  unfold Cpp.TPUDriver.readFP16. rewrite He. cbn [negb]. rewrite Hnext.
  unfold Cpp.bind.
  pose proof (readByte_run w addr) as H1.
  destruct (Cpp.TPUDriver.readByte addr w) as [[lo | e] w1];
    destruct H1 as (He1 & Hs1 & Hf1).
  2:{ split; [exact He1|]. split; [exact Hs1|]. right.
      split; [eexists; reflexivity|]. exists 1%nat. split; [lia | exact Hf1]. }
  pose proof (readByte_run w1 (addr + 1)) as H2.
  destruct (Cpp.TPUDriver.readByte (addr + 1) w1) as [[hi | e] w2];
    destruct H2 as (He2 & Hs2 & Hf2).
  - split; [congruence|]. split; [congruence|]. left.
    split; [eexists; reflexivity|]. rewrite Hf2, Hf1, <- app_assoc. reflexivity.
  - split; [congruence|]. split; [congruence|]. right.
    split; [eexists; reflexivity|].
    exists 2%nat. split; [lia|]. rewrite Hf2, Hf1, <- app_assoc. reflexivity.
Qed.

Lemma read_inv_sent (w0 : world) (k : nat) (addr : Z) (m : matrix) (w : world) :
  read_inv w0 k (addr, m, w) ->
  sent w = sent w0 ++ read_frames (stepped_addrs RESULT_BASE k).
Proof.
  intros (_ & _ & _ & bs & Hlen & Hh & _).
  rewrite (sent_app w0 w _ Hh), frames_read_log; [reflexivity|].
  rewrite stepped_addrs_length. exact Hlen.
Qed.

Lemma read_inv_decoded (w0 : world) (k : nat) (addr : Z) (m : matrix) (w : world) :
  read_inv w0 k (addr, m, w) ->
  exists bs, List.length bs = k /\ decoded m bs.
Proof.
  intros (_ & _ & _ & bs & Hlen & _ & Hres). exists bs. split; [exact Hlen|].
  intros n Hn. apply Hres. lia.
Qed.

Lemma read_inv_addr (w0 : world) (k : nat) (addr : Z) (m : matrix) (w : world) :
  read_inv w0 k (addr, m, w) ->
  addr = u8 (element_addr RESULT_BASE k) /\ 0 <= addr < 256 /\ Z.even addr = true.
Proof.
  intros (Ha & _). split; [exact Ha|]. rewrite Ha.
  split; [apply u8_range | apply element_addr_even; reflexivity].
Qed.

Lemma kept_set (results0 results : matrix) (r c : nat) (v : Z) :
  (c < 8)%nat ->
  kept results0 results (8 * r + c) ->
  kept results0 (matrix_set results (0 + Z.of_nat r) (0 + Z.of_nat c) v)
       (8 * r + S c).
Proof.
  intros Hc Hk n Hn. unfold matrix_set. rewrite !Z.add_0_l.
  pose proof (Nat.div_mod_eq n 8) as Hdm.
  pose proof (Nat.mod_upper_bound n 8 ltac:(lia)) as Hub.
  destruct (Z.eqb_spec (Z.of_nat (n / 8)) (Z.of_nat r));
    destruct (Z.eqb_spec (Z.of_nat (n mod 8)) (Z.of_nat c));
    cbn [andb]; try (apply Hk; lia).
  exfalso. lia.
Qed.

Lemma tpu_read_results_run (w0 : world) (results0 : matrix) :
  match
    for_range MATRIX_SIZE 0 (fun i s =>
      for_range MATRIX_SIZE 0 (fun j '(addr, results, w) =>
        match tpu_read_fp16 w addr with
        | (0, Some value, w) => inl (u8 (addr + 2), matrix_set results i j value, w)
        | (_, _, w) =>
            inr (-1, results,
                 fprintf_stderr
                   ("Error reading result[" ++ fmt_d i ++ "][" ++ fmt_d j ++ "]") w)
        end) s) (RESULT_BASE, results0, w0)
  with
  | inl s => read_part w0 results0 64 s
  | inr r => read_exit w0 results0 r
  end.
Proof.
  apply (for_range_run (fun r => read_part w0 results0 (8 * r))
           (read_exit w0 results0)).
  - split; [apply read_inv_start|]. intros n Hn. reflexivity.
  - intros r s Hr Hinv.
    replace (8 * S r)%nat with (8 * r + 8)%nat by lia.
    apply (for_range_run (fun c => read_part w0 results0 (8 * r + c))
             (read_exit w0 results0)).
    + rewrite Nat.add_0_r. exact Hinv.
    + intros c [[addr results] w] Hc (Hin & Hkept). cbn [fst snd] in Hkept.
      unfold MATRIX_SIZE in Hr, Hc.
      destruct (read_inv_addr _ _ _ _ _ Hin) as (Haddr & Ha & He).
      pose proof (tpu_read_fp16_run w addr Ha He) as Hrun.
      destruct (tpu_read_fp16 w addr) as [[r1 v1] w1].
      destruct Hrun as (He1 & Hs1 &
        [(-> & lo & hi & -> & Hh1) | (-> & -> & n & Hn & Hf1)]).
      * split.
        { apply (read_inv_step w0 w w1 r c addr lo hi results); assumption. }
        cbn [fst snd]. apply kept_set; assumption.
      * unfold read_exit. split; [reflexivity|].
        destruct (read_inv_decoded _ _ _ _ _ Hin) as (bs & Hlen & Hdec).
        exists (8 * r + c)%nat, bs.
        split.
        { split; [lia|]. split; [destruct Hin as (_ & Hen & _);
                                 cbn [env fprintf_stderr]; congruence|].
          exists n. split; [exact Hn|].
          change (sent (fprintf_stderr _ w1)) with (sent w1).
          rewrite Hf1, (read_inv_sent _ _ _ _ _ Hin), <- app_assoc, Haddr.
          reflexivity. }
        split; [exact Hlen|]. split; [exact Hdec|]. split; [exact Hkept|].
        destruct (index_at r c Hc) as (-> & ->).
        destruct Hin as (_ & _ & Hs & _).
        cbn [stderr fprintf_stderr]. rewrite Hs1, Hs, !Z.add_0_l. reflexivity.
Qed.

Lemma readResults_run (w0 : world) :
  match
    Cpp.TPUDriver.for_range_io Cpp.MATRIX_SIZE 0 (fun i s =>
      Cpp.TPUDriver.for_range_io Cpp.MATRIX_SIZE 0 (fun j '(addr, results) =>
        Cpp.bind (Cpp.TPUDriver.readFP16 addr)
          (fun value => Cpp.ret (u8 (addr + 2), matrix_set results i j value))) s)
      (Cpp.RESULT_BASE, Cpp.TPUDriver.unassigned) w0
  with
  | (Cpp.Returns s, w) => read_progress w0 64 s w
  | (Cpp.Throws e, w) => stderr w = stderr w0 /\ exists k, read_cut w0 w k
  end.
Proof.
  apply (for_range_io_run (fun r s w => read_progress w0 (8 * r) s w)
           (fun e w => stderr w = stderr w0 /\ exists k, read_cut w0 w k)).
  - split; [reflexivity|]. split; [reflexivity|]. split; [reflexivity|].
    cbn. symmetry. apply app_nil_r.
  - intros r s w Hr Hinv.
    replace (8 * S r)%nat with (8 * r + 8)%nat by lia.
    apply (for_range_io_run (fun c s w => read_progress w0 (8 * r + c) s w)
             (fun e w => stderr w = stderr w0 /\ exists k, read_cut w0 w k)).
    + rewrite Nat.add_0_r. exact Hinv.
    + intros c [addr results] w1 Hc (Haddr & Hen & Hs & Hf). cbn [fst] in Haddr.
      unfold Cpp.MATRIX_SIZE in Hr, Hc.
      assert (Ha : 0 <= addr < 256) by (rewrite Haddr; apply u8_range).
      assert (He : Z.even addr = true)
        by (rewrite Haddr; apply element_addr_even; reflexivity).
      pose proof (readFP16_run w1 addr Ha He) as Hrun. unfold Cpp.bind.
      destruct (Cpp.TPUDriver.readFP16 addr w1) as [r1 w2].
      destruct Hrun as (He1 & Hs1 & [((v & ->) & Hf1) | ((e & ->) & n & Hn & Hf1)]).
      * replace (8 * r + S c)%nat with (S (8 * r + c)) by lia.
        unfold Cpp.ret. split; [cbn [fst]; rewrite Haddr; apply element_addr_next|].
        split; [congruence|]. split; [congruence|].
        rewrite Hf1, Hf, stepped_addrs_S, read_frames_snoc, <- app_assoc, Haddr.
        reflexivity.
      * split; [congruence|]. exists (8 * r + c)%nat.
        split; [lia|]. split; [congruence|]. exists n. split; [exact Hn|].
        rewrite Hf1, Hf, <- app_assoc, Haddr. reflexivity.
Qed.

(** Property X18.  Reading the results, whatever the device does.
    [tpu_read_results] either succeeds after all 64 reads, or returns -1
    with the message naming row and column of the element [k] it
    stopped in; by then [results] holds the decoded elements before [k]
    and, from [k] on, what it held at the call, and the line has seen the
    read frames of the elements before [k] and one or both of [k].
    [readResults] either returns after the 128 read frames or throws
    after such a prefix; it prints nothing.  Neither sends anything but
    two-byte read requests. *)
Theorem read_results_any_device (w : world) (results : matrix) :
  (let '(r, results', w') := tpu_read_results w results in
   (r = 0 /\ reads_matrix w w' results') \/
   (r = -1 /\ exists (k : nat) (bs : list (Z * Z)),
      read_cut w w' k /\ List.length bs = k /\
      decoded results' bs /\ kept results results' k /\
      stderr w' = stderr w ++
        [("Error reading result[" ++ fmt_d (Z.of_nat (k / 8)) ++ "]["
          ++ fmt_d (Z.of_nat (k mod 8)) ++ "]")%string])) /\
  (let '(r, w') := Cpp.TPUDriver.readResults w in
   stderr w' = stderr w /\
   (((exists m, r = Cpp.Returns m) /\
     sent w' = sent w ++ read_frames (stepped_addrs RESULT_BASE 64)) \/
    ((exists e, r = Cpp.Throws e) /\ exists k, read_cut w w' k))).
Proof.
  split.
  - unfold tpu_read_results. cbv zeta.
    pose proof (tpu_read_results_run w results) as H.
    destruct (for_range MATRIX_SIZE 0 _ (RESULT_BASE, results, w))
      as [[[addr results'] w'] | [[r results'] w']].
    + left. split; [reflexivity|]. destruct H as (Hinv & _).
      exact (read_inv_reads_matrix _ _ _ _ Hinv).
    + destruct H as (-> & k & bs & H). right. split; [reflexivity|].
      exists k, bs. exact H.
  - unfold Cpp.TPUDriver.readResults. cbv zeta. unfold Cpp.bind at 1.
    pose proof (readResults_run w) as H.
    destruct (Cpp.TPUDriver.for_range_io Cpp.MATRIX_SIZE 0 _
                (Cpp.RESULT_BASE, Cpp.TPUDriver.unassigned) w)
      as [[[addr results'] | e] w'].
    + destruct H as (_ & _ & Hs & Hf). cbn [Cpp.ret]. split; [exact Hs|].
      left. split; [eexists; reflexivity | exact Hf].
    + destruct H as (Hs & k & Hcut). split; [exact Hs|]. right.
      split; [eexists; reflexivity|]. exists k. exact Hcut.
Qed.

Lemma start_sent (w : world) :
  env (snd (Cpp.TPUDriver.start w)) = env w /\
  stderr (snd (Cpp.TPUDriver.start w)) = stderr w /\
  sent (snd (Cpp.TPUDriver.start w)) = sent w ++ [[CMD_START]].
Proof.
  rewrite start_unfold. cbv zeta.
  destruct (_ <? 0); [repeat split; apply sent_tx|].
  destruct (_ <? 0); [repeat split; cbn [snd]; rewrite sent_rx; apply sent_tx|].
  destruct (_ || _); repeat split; cbn [snd]; rewrite sent_rx; apply sent_tx.
Qed.

Lemma writeWeights_run (m : matrix) (w : world) :
  let '(r, w') := Cpp.TPUDriver.writeWeights m w in
  env w' = env w /\ stderr w' = stderr w /\
  ((r = Cpp.Returns tt /\
    sent w' = sent w ++ matrix_frames CMD_WRITE_WEIGHT WEIGHT_BASE m 64) \/
   ((exists e, r = Cpp.Throws e) /\ refused_cpp w)).
Proof.
  unfold Cpp.TPUDriver.writeWeights. cbv zeta. unfold Cpp.bind at 1.
  pose proof (writeLoop_run WEIGHT_BASE m w (or_introl eq_refl)) as H.
  change Cpp.WEIGHT_BASE with WEIGHT_BASE.
  destruct (Cpp.TPUDriver.for_range_io Cpp.MATRIX_SIZE 0 _ WEIGHT_BASE w)
    as [[addr | e] w'].
  - destruct H as (_ & He & Hs & Hf). cbn [Cpp.ret].
    split; [exact He|]. split; [exact Hs|]. left. split; [reflexivity | exact Hf].
  - destruct H as (Href & Hs & k & _ & He & _).
    split; [exact He|]. split; [exact Hs|]. right.
    split; [eexists; reflexivity | exact Href].
Qed.

Lemma writeActivations_run (m : matrix) (w : world) :
  let '(r, w') := Cpp.TPUDriver.writeActivations m w in
  env w' = env w /\ stderr w' = stderr w /\
  ((r = Cpp.Returns tt /\
    sent w' = sent w ++ matrix_frames CMD_WRITE_ACTIVATION ACTIVATION_BASE m 64) \/
   ((exists e, r = Cpp.Throws e) /\ refused_cpp w)).
Proof.
  unfold Cpp.TPUDriver.writeActivations. cbv zeta. unfold Cpp.bind at 1.
  pose proof (writeLoop_run ACTIVATION_BASE m w (or_intror eq_refl)) as H.
  change Cpp.ACTIVATION_BASE with ACTIVATION_BASE.
  destruct (Cpp.TPUDriver.for_range_io Cpp.MATRIX_SIZE 0 _ ACTIVATION_BASE w)
    as [[addr | e] w'].
  - destruct H as (_ & He & Hs & Hf). cbn [Cpp.ret].
    split; [exact He|]. split; [exact Hs|]. left. split; [reflexivity | exact Hf].
  - destruct H as (Href & Hs & k & _ & He & _).
    split; [exact He|]. split; [exact Hs|]. right.
    split; [eexists; reflexivity | exact Href].
Qed.

Lemma readResults_sent (w : world) :
  let '(r, w') := Cpp.TPUDriver.readResults w in
  stderr w' = stderr w /\
  ((exists m, r = Cpp.Returns m) ->
   sent w' = sent w ++ read_frames (stepped_addrs RESULT_BASE 64)).
Proof.
  unfold Cpp.TPUDriver.readResults. cbv zeta. unfold Cpp.bind at 1.
  pose proof (readResults_run w) as H.
  destruct (Cpp.TPUDriver.for_range_io Cpp.MATRIX_SIZE 0 _
              (Cpp.RESULT_BASE, Cpp.TPUDriver.unassigned) w)
    as [[[addr results'] | e] w'].
  - destruct H as (_ & _ & Hs & Hf). cbn [Cpp.ret]. split; [exact Hs|].
    intros _. exact Hf.
  - destruct H as (Hs & _). split; [exact Hs|]. intros (m & Hm). discriminate Hm.
Qed.


Lemma start_ok (w : world) :
  acknowledges (env w) ->
  exists w', Cpp.TPUDriver.start w = (Cpp.Returns tt, w') /\ tpu_start w = (0, w') /\
    env w' = env w /\ stderr w' = stderr w /\ sent w' = sent w ++ [[CMD_START]].
Proof.
  intros ((Hw & Hr) & _ & Hk).
  assert (Hc : write_count w [CMD_START] = 1) by apply Hw.
  assert (Hrep : reply_to w [CMD_START] = (1, ACK)).
  { unfold reply_to. rewrite Hc.
    specialize (Hr (hist w ++ [Tx [CMD_START] 1]) 1).
    specialize (Hk (hist w) 1 1).
    destruct (read_ret _ _ _) as [n b]. cbn [fst snd] in *. subst. reflexivity. }
  eexists. rewrite start_unfold, tpu_start_unfold. cbv zeta.
  rewrite Hc, Hrep. cbn [fst snd Z.eqb Z.ltb Z.compare Pos.eqb negb orb].
  split; [reflexivity|]. split; [reflexivity|].
  split; [reflexivity|]. split; [reflexivity|].
  rewrite sent_rx. apply sent_tx.
Qed.

Lemma poll_done (w : world) (start timeout_ms : Z) :
  no_io_error (env w) -> reports_done (env w) ->
  exists w',
    Cpp.TPUDriver.waitUntilDone_loop 1 start timeout_ms w = Some (Cpp.Returns tt, w') /\
    tpu_wait_until_done_loop 1 start timeout_ms w = Some (0, w') /\
    env w' = env w /\ stderr w' = stderr w /\ sent w' = sent w ++ [[CMD_STATUS]].
Proof.
  intros Hok Hdone.
  destruct (no_io_error_exchange w [CMD_STATUS] Hok) as (Hc & Hn).
  cbn [List.length Z.of_nat Pos.of_succ_nat] in Hc.
  assert (Hbit : Z.testbit (snd (reply_to w [CMD_STATUS])) 1 = true).
  { unfold reply_to. specialize (Hdone (hist w) (write_count w [CMD_STATUS]) 1).
    destruct (read_ret _ _ _) as [n b]. exact Hdone. }
  destruct (flag_test (snd (reply_to w [CMD_STATUS]))) as (_ & Hd).
  rewrite Hbit in Hd.
  eexists. cbn [Cpp.TPUDriver.waitUntilDone_loop tpu_wait_until_done_loop].
  rewrite getStatus_unfold, tpu_get_status_unfold. cbv zeta.
  rewrite Hc, Hn. cbn [Z.eqb Z.ltb Z.compare Pos.eqb negb].
  unfold Cpp.TPUStatus_of_byte. cbn [Cpp.done done].
  rewrite Hd. unfold STATUS_DONE in Hd. rewrite Hd. cbn [truthy Z.eqb negb].
  split; [reflexivity|]. split; [reflexivity|].
  split; [reflexivity|]. split; [reflexivity|].
  rewrite sent_rx. apply sent_tx.
Qed.

Lemma matrixMultiply_run_ready (weights activations : matrix) (w : world) :
  acknowledges (env w) -> reports_done (env w) ->
  exists results w',
    Cpp.TPUDriver.matrixMultiply 1 weights activations w
    = Some (Cpp.Returns results, w') /\
    stderr w' = stderr w /\
    sent w' = sent w ++ full_run weights activations 1 /\
    exists bs, List.length bs = 64%nat /\ decoded results bs /\
      exists h, hist w' = h ++ read_log (stepped_addrs RESULT_BASE 64) bs.
Proof.
  intros Hack Hdone.
  destruct (writeLoop_ok WEIGHT_BASE weights w (or_introl eq_refl) Hack)
    as (w1 & Hr1 & He1 & Hs1 & Hf1).
  assert (Hack1 : acknowledges (env w1)) by (rewrite He1; exact Hack).
  destruct (writeLoop_ok ACTIVATION_BASE activations w1 (or_intror eq_refl) Hack1)
    as (w2 & Hr2 & He2 & Hs2 & Hf2).
  assert (Hack2 : acknowledges (env w2)) by (rewrite He2; exact Hack1).
  destruct (start_ok w2 Hack2) as (w3 & Hr3 & _ & He3 & Hs3 & Hf3).
  assert (Hok3 : no_io_error (env w3)) by (rewrite He3; apply Hack2).
  assert (Hdone3 : reports_done (env w3)) by (rewrite He3, He2, He1; exact Hdone).
  destruct (poll_done w3 (steady_clock_now w3) 10000 Hok3 Hdone3)
    as (w4 & Hr4 & _ & He4 & Hs4 & Hf4).
  assert (Hok4 : no_io_error (env w4)) by (rewrite He4; exact Hok3).
  destruct (readResults_inv w4 Hok4) as (addr & results & w5 & Hr5 & Hinv).
  exists results, w5.
  unfold Cpp.TPUDriver.matrixMultiply, Cpp.bind.
  change (Cpp.TPUDriver.writeWeights weights w) with
    (Cpp.bind
       (Cpp.TPUDriver.for_range_io Cpp.MATRIX_SIZE 0 (fun i addr =>
          Cpp.TPUDriver.for_range_io Cpp.MATRIX_SIZE 0 (fun j addr =>
            Cpp.bind (Cpp.TPUDriver.writeFP16 addr (weights i j))
                     (fun _ => Cpp.ret (u8 (addr + 2)))) addr) WEIGHT_BASE)
       (fun _ => Cpp.ret tt) w).
  rewrite Hr1.
  change (Cpp.TPUDriver.writeActivations activations w1) with
    (Cpp.bind
       (Cpp.TPUDriver.for_range_io Cpp.MATRIX_SIZE 0 (fun i addr =>
          Cpp.TPUDriver.for_range_io Cpp.MATRIX_SIZE 0 (fun j addr =>
            Cpp.bind (Cpp.TPUDriver.writeFP16 addr (activations i j))
                     (fun _ => Cpp.ret (u8 (addr + 2)))) addr) ACTIVATION_BASE)
       (fun _ => Cpp.ret tt) w1).
  rewrite Hr2, Hr3. unfold Cpp.TPUDriver.waitUntilDone. rewrite Hr4, Hr5.
  split; [reflexivity|].
  pose proof (read_inv_sent _ _ _ _ _ Hinv) as Hf5.
  destruct Hinv as (_ & _ & Hs5 & bs & Hlen & Hh & Hres).
  split; [congruence|]. split.
  { rewrite Hf5, Hf4, Hf3, Hf2, Hf1. unfold full_run. cbn [repeat].
    rewrite <- !app_assoc. reflexivity. }
  exists bs. split; [exact Hlen|]. split.
  { intros n Hn. apply Hres. lia. }
  exists (hist w4). exact Hh.
Qed.

(** Property X20.  Against a device that acknowledges writes and the
    start command and reports done, [matrixMultiply] returns after one
    status request; the matrix it returns is the 64 byte pairs the
    device answered the reads with, decoded in row-major order. *)
Theorem matrixMultiply_ready (weights activations : matrix) (w : world) :
  acknowledges (env w) -> reports_done (env w) ->
  exists results w',
    Cpp.TPUDriver.matrixMultiply 1 weights activations w
    = Some (Cpp.Returns results, w') /\
    stderr w' = stderr w /\
    sent w' = sent w ++ full_run weights activations 1 /\
    exists bs, List.length bs = 64%nat /\ decoded results bs /\
      exists h, hist w' = h ++ read_log (stepped_addrs RESULT_BASE 64) bs.
Proof. exact (matrixMultiply_run_ready weights activations w). Qed.

Lemma matrixMultiply_ready_witness :
  exists results w',
    Cpp.TPUDriver.matrixMultiply 1 zeros zeros (boot (answering ACK 100 50))
    = Some (Cpp.Returns results, w') /\
    sent w' = full_run zeros zeros 1.
Proof.
  destruct (matrixMultiply_ready zeros zeros (boot (answering ACK 100 50)))
    as (results & w' & Hrun & _ & Hs & _).
  - split; [split; intros h x; reflexivity|]. split; intros; reflexivity.
  - intros h n len. reflexivity.
  - exists results, w'. split; [exact Hrun | exact Hs].
Defined.


(** ** The two drivers side by side *)

Lemma whole_count (w : world) (frame : list Z) :
  whole_writes (env w) ->
  write_count w frame < 0 \/ write_count w frame = Z.of_nat (List.length frame).
Proof. intros H. apply H. Qed.

Ltac both_ok := eexists; split; [left; split; reflexivity | split; reflexivity].
Ltac both_fail :=
  eexists; split; [right; split; [reflexivity | eexists; reflexivity]
                  | split; reflexivity].

Lemma write_byte_agree (w : world) (addr data : Z) :
  whole_writes (env w) ->
  exists w',
    ((tpu_write_byte w addr data = (0, w') /\
      Cpp.TPUDriver.writeByte addr data w = (Cpp.Returns tt, w')) \/
     (tpu_write_byte w addr data = (-1, w') /\
      exists e, Cpp.TPUDriver.writeByte addr data w = (Cpp.Throws e, w'))) /\
    env w' = env w /\ stderr w' = stderr w.
Proof.
  intros Hw. rewrite tpu_write_byte_unfold, writeByte_unfold. cbv zeta.
  destruct (whole_count w [write_cmd addr; addr; data] Hw) as [Hc | Hc].
  - destruct (Z.eqb_spec (write_count w [write_cmd addr; addr; data]) 3); [lia|].
    destruct (Z.ltb_spec (write_count w [write_cmd addr; addr; data]) 0); [|lia].
    cbn [negb]. both_fail.
  - cbn [List.length Z.of_nat Pos.of_succ_nat Pos.succ] in Hc. rewrite Hc.
    cbn [Z.eqb Z.ltb Z.compare Pos.eqb negb].
    destruct (reply_to w [write_cmd addr; addr; data]) as [n b]. cbn [fst snd].
    destruct (Z.eqb_spec n 1) as [-> | Hn]; cbn [negb orb Z.ltb Z.compare].
    + change 75 with ACK. destruct (Z.eqb_spec b ACK); cbn [negb];
        [both_ok | both_fail].
    + destruct (Z.ltb_spec n 0); both_fail.
Qed.

Lemma start_agree (w : world) :
  whole_writes (env w) ->
  exists w',
    ((tpu_start w = (0, w') /\ Cpp.TPUDriver.start w = (Cpp.Returns tt, w')) \/
     (tpu_start w = (-1, w') /\
      exists e, Cpp.TPUDriver.start w = (Cpp.Throws e, w'))) /\
    env w' = env w /\ stderr w' = stderr w.
Proof.
  intros Hw. rewrite tpu_start_unfold, start_unfold. cbv zeta.
  destruct (whole_count w [CMD_START] Hw) as [Hc | Hc].
  - destruct (Z.eqb_spec (write_count w [CMD_START]) 1); [lia|].
    destruct (Z.ltb_spec (write_count w [CMD_START]) 0); [|lia].
    cbn [negb]. both_fail.
  - cbn [List.length Z.of_nat Pos.of_succ_nat Pos.succ] in Hc. rewrite Hc.
    cbn [Z.eqb Z.ltb Z.compare Pos.eqb negb].
    destruct (reply_to w [CMD_START]) as [n b]. cbn [fst snd].
    destruct (Z.eqb_spec n 1) as [-> | Hn]; cbn [negb orb Z.ltb Z.compare].
    + change 75 with ACK. destruct (Z.eqb_spec b ACK); cbn [negb];
        [both_ok | both_fail].
    + destruct (Z.ltb_spec n 0); both_fail.
Qed.

Lemma read_byte_agree (w : world) (addr : Z) :
  whole_writes (env w) ->
  exists w',
    ((exists b, tpu_read_byte w addr = (0, Some b, w') /\
                Cpp.TPUDriver.readByte addr w = (Cpp.Returns b, w')) \/
     (tpu_read_byte w addr = (-1, None, w') /\
      exists e, Cpp.TPUDriver.readByte addr w = (Cpp.Throws e, w'))) /\
    env w' = env w /\ stderr w' = stderr w.
Proof.
  intros Hw. rewrite tpu_read_byte_unfold, readByte_unfold. cbv zeta.
  destruct (whole_count w [CMD_READ_RESULT; addr] Hw) as [Hc | Hc].
  - destruct (Z.eqb_spec (write_count w [CMD_READ_RESULT; addr]) 2); [lia|].
    destruct (Z.ltb_spec (write_count w [CMD_READ_RESULT; addr]) 0); [|lia].
    cbn [negb]. both_fail.
  - cbn [List.length Z.of_nat Pos.of_succ_nat Pos.succ] in Hc. rewrite Hc.
    cbn [Z.eqb Z.ltb Z.compare Pos.eqb negb].
    destruct (reply_to w [CMD_READ_RESULT; addr]) as [n b]. cbn [fst snd].
    destruct (Z.eqb_spec n 1) as [-> | Hn]; cbn [negb orb Z.ltb Z.compare].
    + eexists. split; [left; exists b; split; reflexivity | split; reflexivity].
    + destruct (Z.ltb_spec n 0); both_fail.
Qed.

Lemma get_status_agree (w : world) :
  whole_writes (env w) ->
  exists w',
    ((exists st, tpu_get_status w
                 = (0, Some {| busy := Z.b2z (Cpp.busy st);
                               done := Z.b2z (Cpp.done st) |}, w') /\
                 Cpp.TPUDriver.getStatus w = (Cpp.Returns st, w')) \/
     (tpu_get_status w = (-1, None, w') /\
      exists e, Cpp.TPUDriver.getStatus w = (Cpp.Throws e, w'))) /\
    env w' = env w /\ stderr w' = stderr w.
Proof.
  intros Hw. rewrite tpu_get_status_unfold, getStatus_unfold. cbv zeta.
  destruct (whole_count w [CMD_STATUS] Hw) as [Hc | Hc].
  - destruct (Z.eqb_spec (write_count w [CMD_STATUS]) 1); [lia|].
    destruct (Z.ltb_spec (write_count w [CMD_STATUS]) 0); [|lia].
    cbn [negb]. both_fail.
  - cbn [List.length Z.of_nat Pos.of_succ_nat Pos.succ] in Hc. rewrite Hc.
    cbn [Z.eqb Z.ltb Z.compare Pos.eqb negb].
    destruct (reply_to w [CMD_STATUS]) as [n b]. cbn [fst snd].
    destruct (Z.eqb_spec n 1) as [-> | Hn]; cbn [negb orb Z.ltb Z.compare].
    + eexists. split; [left; exists (Cpp.TPUStatus_of_byte b); split; reflexivity
                      | split; reflexivity].
    + destruct (Z.ltb_spec n 0); both_fail.
Qed.

Lemma write_fp16_agree (w : world) (addr value : Z) :
  whole_writes (env w) -> 0 <= addr < 256 -> Z.even addr = true ->
  exists w',
    ((tpu_write_fp16 w addr value = (0, w') /\
      Cpp.TPUDriver.writeFP16 addr value w = (Cpp.Returns tt, w')) \/
     (tpu_write_fp16 w addr value = (-1, w') /\
      exists e, Cpp.TPUDriver.writeFP16 addr value w = (Cpp.Throws e, w'))) /\
    env w' = env w /\ stderr w' = stderr w.
Proof.
  intros Hw Ha He. apply even_rem in He.
  unfold tpu_write_fp16, Cpp.TPUDriver.writeFP16. rewrite He. cbn [negb].
  change (Cpp.FP16.fromFloat value) with (float_to_fp16 value).
  set (low := u8 (Z.land (float_to_fp16 value) 0xFF)).
  set (high := u8 (Z.land (Z.shiftr (float_to_fp16 value) 8) 0xFF)).
  unfold Cpp.bind.
  destruct (write_byte_agree w addr low Hw)
    as (w1 & [(Hc1 & Hp1) | (Hc1 & e1 & Hp1)] & He1 & Hs1); rewrite Hc1, Hp1;
    cbn [Z.eqb negb].
  2:{ exists w1. split; [right; split; [reflexivity | eexists; reflexivity]|].
      split; assumption. }
  assert (Hw1 : whole_writes (env w1)) by (rewrite He1; exact Hw).
  destruct (write_byte_agree w1 (u8 (addr + 1)) high Hw1)
    as (w2 & [(Hc2 & Hp2) | (Hc2 & e2 & Hp2)] & He2 & Hs2); rewrite Hc2, Hp2;
    cbn [Z.eqb negb].
  - exists w2. split; [left; split; reflexivity|]. split; congruence.
  - exists w2. split; [right; split; [reflexivity | eexists; reflexivity]|].
    split; congruence.
Qed.

Lemma read_fp16_agree (w : world) (addr : Z) :
  whole_writes (env w) -> 0 <= addr < 256 -> Z.even addr = true ->
  exists w',
    ((exists v, tpu_read_fp16 w addr = (0, Some v, w') /\
                Cpp.TPUDriver.readFP16 addr w = (Cpp.Returns v, w')) \/
     (tpu_read_fp16 w addr = (-1, None, w') /\
      exists e, Cpp.TPUDriver.readFP16 addr w = (Cpp.Throws e, w'))) /\
    env w' = env w /\ stderr w' = stderr w.
Proof.
  intros Hw Ha He. apply even_rem in He.
  unfold tpu_read_fp16, Cpp.TPUDriver.readFP16. rewrite He. cbn [negb].
  unfold Cpp.bind.
  destruct (read_byte_agree w addr Hw)
    as (w1 & [(lo & Hc1 & Hp1) | (Hc1 & e1 & Hp1)] & He1 & Hs1); rewrite Hc1, Hp1.
  2:{ exists w1. split; [right; split; [reflexivity | eexists; reflexivity]|].
      split; assumption. }
  assert (Hw1 : whole_writes (env w1)) by (rewrite He1; exact Hw).
  destruct (read_byte_agree w1 (u8 (addr + 1)) Hw1)
    as (w2 & [(hi & Hc2 & Hp2) | (Hc2 & e2 & Hp2)] & He2 & Hs2); rewrite Hc2, Hp2.
  - exists w2. split; [left; eexists; split; reflexivity|]. split; congruence.
  - exists w2. split; [right; split; [reflexivity | eexists; reflexivity]|].
    split; congruence.
Qed.

Lemma for_range_sim {Sc Sp R : Type} (Rel : nat -> Sc -> Sp -> world -> Prop)
    (Exit : R -> world -> Prop)
    (bc : Z -> Sc -> Sc + R) (bp : Z -> Sp -> Cpp.io Sp) (n : nat) :
  forall (i0 : Z) (sc : Sc) (sp : Sp) (w : world),
  Rel O sc sp w ->
  (forall k sc sp w, (k < n)%nat -> Rel k sc sp w ->
     match bc (i0 + Z.of_nat k) sc, bp (i0 + Z.of_nat k) sp w with
     | inl sc', (Cpp.Returns sp', w') => Rel (Datatypes.S k) sc' sp' w'
     | inr r, (Cpp.Throws e, w') => Exit r w'
     | _, _ => False
     end) ->
  match for_range n i0 bc sc, Cpp.TPUDriver.for_range_io n i0 bp sp w with
  | inl sc', (Cpp.Returns sp', w') => Rel n sc' sp' w'
  | inr r, (Cpp.Throws e, w') => Exit r w'
  | _, _ => False
  end.
Proof.
  revert Rel. induction n as [|n IH]; intros Rel i0 sc sp w H0 Hstep.
  - exact H0.
  - cbn [for_range Cpp.TPUDriver.for_range_io]. unfold Cpp.bind.
    pose proof (Hstep O sc sp w ltac:(lia) H0) as Hb. rewrite Z.add_0_r in Hb.
    destruct (bc i0 sc) as [sc1 | r], (bp i0 sp w) as [[sp1 | e] w1];
      try contradiction; [|exact Hb].
    apply (IH (fun k => Rel (Datatypes.S k))); [exact Hb|].
    intros k sc2 sp2 w2 Hk Hinv.
    pose proof (Hstep (Datatypes.S k) sc2 sp2 w2 ltac:(lia) Hinv) as H3.
    replace (i0 + 1 + Z.of_nat k) with (i0 + Z.of_nat (Datatypes.S k)) by lia.
    exact H3.
Qed.

Lemma write_loops_agree (base : Z) (msg : Z -> Z -> string) (m : matrix) (w0 : world) :
  Z.even base = true -> 0 <= base < 256 -> whole_writes (env w0) ->
  match
    for_range MATRIX_SIZE 0 (fun i s =>
      for_range MATRIX_SIZE 0 (fun j '(addr, w) =>
        let '(r, w) := tpu_write_fp16 w addr (m i j) in
        if negb (r =? 0) then inr (-1, fprintf_stderr (msg i j) w)
        else inl (u8 (addr + 2), w)) s) (base, w0),
    Cpp.TPUDriver.for_range_io Cpp.MATRIX_SIZE 0 (fun i addr =>
      Cpp.TPUDriver.for_range_io Cpp.MATRIX_SIZE 0 (fun j addr =>
        Cpp.bind (Cpp.TPUDriver.writeFP16 addr (m i j))
                 (fun _ => Cpp.ret (u8 (addr + 2)))) addr) base w0
  with
  | inl (_, wc), (Cpp.Returns _, wp) => wc = wp
  | inr (code, wc), (Cpp.Throws _, wp) =>
      code = -1 /\ exists s, wc = fprintf_stderr s wp
  | _, _ => False
  end.
Proof.
  intros Hbe Hbr Hw.
  pose (Rel := fun (k : nat) (sc : Z * world) (sp : Z) (w : world) =>
                 sc = (sp, w) /\ sp = u8 (element_addr base k) /\ env w = env w0).
  pose (Exit := fun (r : Z * world) (w : world) =>
                  fst r = -1 /\ exists s, snd r = fprintf_stderr s w).
  match goal with
  | |- context [for_range MATRIX_SIZE 0 ?bc (base, w0)] =>
      match goal with
      | |- context [Cpp.TPUDriver.for_range_io Cpp.MATRIX_SIZE 0 ?bp base w0] =>
          pose proof (for_range_sim (fun r => Rel (8 * r)%nat) Exit bc bp
                        MATRIX_SIZE 0 (base, w0) base w0) as Hsim
      end
  end.
  match type of Hsim with
  | ?A -> ?B -> _ => assert (H0 : A); [|assert (Hstep : B); [|specialize (Hsim H0 Hstep)]]
  end.
  - unfold Rel. split; [reflexivity|]. split; [|reflexivity].
    unfold element_addr, u8. cbn [Nat.mul Z.of_nat]. change (2 ^ 8) with 256.
    rewrite Z.mul_0_r, Z.add_0_r. symmetry. apply Z.mod_small. exact Hbr.
  - intros r sc sp w Hr Hrel.
    replace (8 * S r)%nat with (8 * r + 8)%nat by lia.
    apply (for_range_sim (fun c => Rel (8 * r + c)%nat) Exit).
    + rewrite Nat.add_0_r. exact Hrel.
    + intros c [addr w1] sp1 w2 Hc (Heq & Haddr & Hen). injection Heq as -> ->.
      assert (Hw2 : whole_writes (env w2)) by (rewrite Hen; exact Hw).
      assert (Ha : 0 <= sp1 < 256) by (rewrite Haddr; apply u8_range).
      assert (He : Z.even sp1 = true)
        by (rewrite Haddr; apply element_addr_even; exact Hbe).
      unfold Cpp.bind.
      destruct (write_fp16_agree w2 sp1 (m (0 + Z.of_nat r) (0 + Z.of_nat c)) Hw2 Ha He)
        as (w3 & [(Hc3 & Hp3) | (Hc3 & e3 & Hp3)] & He3 & _); rewrite Hc3, Hp3;
        cbn [Z.eqb negb Cpp.ret]; unfold Rel, Exit.
      * replace (8 * r + S c)%nat with (S (8 * r + c)) by lia.
        split; [reflexivity|]. split; [|congruence].
        rewrite Haddr. apply element_addr_next.
      * split; [reflexivity|]. eexists. reflexivity.
  - change Cpp.MATRIX_SIZE with MATRIX_SIZE in *.
    destruct (for_range MATRIX_SIZE 0 _ (base, w0)) as [[a wc] | [code wc]],
      (Cpp.TPUDriver.for_range_io MATRIX_SIZE 0 _ base w0) as [[a' | e] wp];
      try contradiction.
    + unfold Rel in Hsim. destruct Hsim as (Heq & _). congruence.
    + exact Hsim.
Qed.

Lemma read_loops_agree (results0 : matrix) (w0 : world) :
  whole_writes (env w0) ->
  match
    for_range MATRIX_SIZE 0 (fun i s =>
      for_range MATRIX_SIZE 0 (fun j '(addr, results, w) =>
        match tpu_read_fp16 w addr with
        | (0, Some value, w) => inl (u8 (addr + 2), matrix_set results i j value, w)
        | (_, _, w) =>
            inr (-1, results,
                 fprintf_stderr
                   ("Error reading result[" ++ fmt_d i ++ "][" ++ fmt_d j ++ "]") w)
        end) s) (RESULT_BASE, results0, w0),
    Cpp.TPUDriver.for_range_io Cpp.MATRIX_SIZE 0 (fun i s =>
      Cpp.TPUDriver.for_range_io Cpp.MATRIX_SIZE 0 (fun j '(addr, results) =>
        Cpp.bind (Cpp.TPUDriver.readFP16 addr)
          (fun value => Cpp.ret (u8 (addr + 2), matrix_set results i j value))) s)
      (Cpp.RESULT_BASE, Cpp.TPUDriver.unassigned) w0
  with
  | inl (_, rc, wc), (Cpp.Returns (_, rp), wp) =>
      wc = wp /\
      forall n, (n < 64)%nat ->
        rc (Z.of_nat (n / 8)) (Z.of_nat (n mod 8))
        = rp (Z.of_nat (n / 8)) (Z.of_nat (n mod 8))
  | inr (code, _, wc), (Cpp.Throws _, wp) =>
      code = -1 /\ exists s, wc = fprintf_stderr s wp
  | _, _ => False
  end.
Proof.
  intros Hw.
  pose (Rel := fun (k : nat) (sc : Z * matrix * world) (sp : Z * matrix) (w : world) =>
                 fst (fst sc) = fst sp /\ snd sc = w /\
                 fst sp = u8 (element_addr RESULT_BASE k) /\ env w = env w0 /\
                 forall n, (n < k)%nat ->
                   snd (fst sc) (Z.of_nat (n / 8)) (Z.of_nat (n mod 8))
                   = snd sp (Z.of_nat (n / 8)) (Z.of_nat (n mod 8))).
  pose (Exit := fun (r : Z * matrix * world) (w : world) =>
                  fst (fst r) = -1 /\ exists s, snd r = fprintf_stderr s w).
  change Cpp.RESULT_BASE with RESULT_BASE.
  match goal with
  | |- context [for_range MATRIX_SIZE 0 ?bc (RESULT_BASE, results0, w0)] =>
      match goal with
      | |- context [Cpp.TPUDriver.for_range_io Cpp.MATRIX_SIZE 0 ?bp
                      (RESULT_BASE, Cpp.TPUDriver.unassigned) w0] =>
          pose proof (for_range_sim (fun r => Rel (8 * r)%nat) Exit bc bp
                        MATRIX_SIZE 0 (RESULT_BASE, results0, w0)
                        (RESULT_BASE, Cpp.TPUDriver.unassigned) w0) as Hsim
      end
  end.
  match type of Hsim with
  | ?A -> ?B -> _ => assert (H0 : A); [|assert (Hstep : B); [|specialize (Hsim H0 Hstep)]]
  end.
  - unfold Rel. cbn [fst snd]. split; [reflexivity|]. split; [reflexivity|].
    split; [reflexivity|]. split; [reflexivity|]. intros n Hn. lia.
  - intros r sc sp w Hr Hrel.
    replace (8 * S r)%nat with (8 * r + 8)%nat by lia.
    apply (for_range_sim (fun c => Rel (8 * r + c)%nat) Exit).
    + rewrite Nat.add_0_r. exact Hrel.
    + intros c [[addr rc] w1] [addr' rp] w2 Hc (Heq & Hweq & Haddr & Hen & Hres).
      cbn [fst snd] in Heq, Hweq, Haddr, Hres. subst addr' w1.
      assert (Hw2 : whole_writes (env w2)) by (rewrite Hen; exact Hw).
      assert (Ha : 0 <= addr < 256) by (rewrite Haddr; apply u8_range).
      assert (He : Z.even addr = true)
        by (rewrite Haddr; apply element_addr_even; reflexivity).
      unfold Cpp.bind.
      destruct (read_fp16_agree w2 addr Hw2 Ha He)
        as (w3 & [(v & Hc3 & Hp3) | (Hc3 & e3 & Hp3)] & He3 & _); rewrite Hc3, Hp3;
        cbn [Cpp.ret]; unfold Rel, Exit; cbn [fst snd].
      * replace (8 * r + S c)%nat with (S (8 * r + c)) by lia.
        split; [reflexivity|]. split; [reflexivity|].
        split; [rewrite Haddr; apply element_addr_next|]. split; [congruence|].
        intros n Hn. unfold matrix_set.
        destruct ((Z.of_nat (n / 8) =? 0 + Z.of_nat r)
                  && (Z.of_nat (n mod 8) =? 0 + Z.of_nat c)) eqn:Hidx;
          [reflexivity|].
        apply Hres.
        destruct (Nat.eq_dec n (8 * r + c)) as [-> | Hne]; [|lia].
        unfold MATRIX_SIZE in Hc.
        destruct (index_at r c Hc) as (Hq & Hm). rewrite Hq, Hm, !Z.add_0_l, !Z.eqb_refl in Hidx.
        discriminate Hidx.
      * split; [reflexivity|]. eexists. reflexivity.
  - change Cpp.MATRIX_SIZE with MATRIX_SIZE in *.
    destruct (for_range MATRIX_SIZE 0 _ (RESULT_BASE, results0, w0))
      as [[[a rc] wc] | [[code rc] wc]],
      (Cpp.TPUDriver.for_range_io MATRIX_SIZE 0 _
         (RESULT_BASE, Cpp.TPUDriver.unassigned) w0) as [[[a' rp] | e] wp];
      try contradiction.
    + unfold Rel in Hsim. cbn [fst snd] in Hsim.
      destruct Hsim as (_ & Heq & _ & _ & Hres). split; [exact Heq | exact Hres].
    + exact Hsim.
Qed.



(** Property X22.  On such a line the same holds for the three matrix
    transfers: the C function and the C++ member make the same calls
    and succeed or fail together.  On success they end in the same
    world, and the matrices read agree on the 8x8 grid; on failure the
    worlds differ only by the message the C driver prints on
    [stderr]. *)
Theorem drivers_agree_on_transfers (w : world) (m results : matrix) :
  whole_writes (env w) ->
  (exists w',
     (tpu_write_weights w m = (0, w') /\
      Cpp.TPUDriver.writeWeights m w = (Cpp.Returns tt, w')) \/
     (exists s e, tpu_write_weights w m = (-1, fprintf_stderr s w') /\
                  Cpp.TPUDriver.writeWeights m w = (Cpp.Throws e, w'))) /\
  (exists w',
     (tpu_write_activations w m = (0, w') /\
      Cpp.TPUDriver.writeActivations m w = (Cpp.Returns tt, w')) \/
     (exists s e, tpu_write_activations w m = (-1, fprintf_stderr s w') /\
                  Cpp.TPUDriver.writeActivations m w = (Cpp.Throws e, w'))) /\
  (exists w',
     (exists rc rp, tpu_read_results w results = (0, rc, w') /\
                    Cpp.TPUDriver.readResults w = (Cpp.Returns rp, w') /\
                    forall i j : nat, (i < 8)%nat -> (j < 8)%nat ->
                      rc (Z.of_nat i) (Z.of_nat j) = rp (Z.of_nat i) (Z.of_nat j)) \/
     (exists s rc e, tpu_read_results w results = (-1, rc, fprintf_stderr s w') /\
                     Cpp.TPUDriver.readResults w = (Cpp.Throws e, w'))).
Proof.
  intros Hw. split; [|split].
  - pose proof (write_loops_agree WEIGHT_BASE
                  (fun i j => ("Error writing weight[" ++ fmt_d i ++ "]["
                               ++ fmt_d j ++ "]")%string)
                  m w eq_refl ltac:(unfold WEIGHT_BASE; lia) Hw) as H.
    destruct (tpu_write_weights w m) as [r1 w1] eqn:Hc.
    destruct (Cpp.TPUDriver.writeWeights m w) as [r2 w2] eqn:Hp.
    unfold tpu_write_weights in Hc. unfold Cpp.TPUDriver.writeWeights in Hp.
    cbv zeta in Hc, Hp. unfold Cpp.bind at 1 in Hp.
    change Cpp.WEIGHT_BASE with WEIGHT_BASE in Hp. cbv beta in H.
    destruct (for_range MATRIX_SIZE 0 _ (WEIGHT_BASE, w)) as [[a wc] | [code wc]],
      (Cpp.TPUDriver.for_range_io Cpp.MATRIX_SIZE 0 _ WEIGHT_BASE w)
      as [[a' | e] wp]; try contradiction.
    + subst wc. injection Hc as <- <-. injection Hp as <- <-.
      exists wp. left. split; reflexivity.
    + destruct H as (-> & s & ->). injection Hc as <- <-. injection Hp as <- <-.
      exists wp. right. exists s, e. split; reflexivity.
  - pose proof (write_loops_agree ACTIVATION_BASE
                  (fun i j => ("Error writing activation[" ++ fmt_d i ++ "]["
                               ++ fmt_d j ++ "]")%string)
                  m w eq_refl ltac:(unfold ACTIVATION_BASE; lia) Hw) as H.
    destruct (tpu_write_activations w m) as [r1 w1] eqn:Hc.
    destruct (Cpp.TPUDriver.writeActivations m w) as [r2 w2] eqn:Hp.
    unfold tpu_write_activations in Hc. unfold Cpp.TPUDriver.writeActivations in Hp.
    cbv zeta in Hc, Hp. unfold Cpp.bind at 1 in Hp.
    change Cpp.ACTIVATION_BASE with ACTIVATION_BASE in Hp. cbv beta in H.
    destruct (for_range MATRIX_SIZE 0 _ (ACTIVATION_BASE, w)) as [[a wc] | [code wc]],
      (Cpp.TPUDriver.for_range_io Cpp.MATRIX_SIZE 0 _ ACTIVATION_BASE w)
      as [[a' | e] wp]; try contradiction.
    + subst wc. injection Hc as <- <-. injection Hp as <- <-.
      exists wp. left. split; reflexivity.
    + destruct H as (-> & s & ->). injection Hc as <- <-. injection Hp as <- <-.
      exists wp. right. exists s, e. split; reflexivity.
  - pose proof (read_loops_agree results w Hw) as H.
    destruct (tpu_read_results w results) as [[r1 m1] w1] eqn:Hc.
    destruct (Cpp.TPUDriver.readResults w) as [r2 w2] eqn:Hp.
    unfold tpu_read_results in Hc. unfold Cpp.TPUDriver.readResults in Hp.
    cbv zeta in Hc, Hp. unfold Cpp.bind at 1 in Hp.
    destruct (for_range MATRIX_SIZE 0 _ (RESULT_BASE, results, w))
      as [[[a rc] wc] | [[code rc] wc]],
      (Cpp.TPUDriver.for_range_io Cpp.MATRIX_SIZE 0 _
         (Cpp.RESULT_BASE, Cpp.TPUDriver.unassigned) w) as [[[a' rp] | e] wp];
      try contradiction.
    + destruct H as (-> & Hres). injection Hc as <- <- <-. injection Hp as <- <-.
      exists wp. left. exists rc, rp.
      split; [reflexivity|]. split; [reflexivity|].
      intros i j Hi Hj. specialize (Hres (8 * i + j)%nat ltac:(lia)).
      destruct (index_at i j Hj) as (Hq & Hm). rewrite Hq, Hm in Hres. exact Hres.
    + destruct H as (-> & s & ->). injection Hc as <- <- <-. injection Hp as <- <-.
      exists wp. right. exists s, rc, e. split; reflexivity.
Qed.

Lemma drivers_agree_on_transfers_witness :
  exists w',
    (tpu_write_weights (boot silent) zeros = (0, w') /\
     Cpp.TPUDriver.writeWeights zeros (boot silent) = (Cpp.Returns tt, w')) \/
    (exists s e, tpu_write_weights (boot silent) zeros = (-1, fprintf_stderr s w') /\
                 Cpp.TPUDriver.writeWeights zeros (boot silent) = (Cpp.Throws e, w')).
Proof.
  destruct (drivers_agree_on_transfers (boot silent) zeros zeros) as (H & _).
  - intros h buf. right. reflexivity.
  - exact H.
Defined.

(** ** The two deadlines at a concrete device *)


(** Property X24, [tpu_wait_until_done_blind], where the calls on the
    line use no processor time: after 1000 rounds, ten seconds of
    sleeping, the C loop with a timeout of 20 ms is still polling. *)
Lemma tpu_wait_until_done_blind_witness :
  tpu_wait_until_done 1000 (boot (answering 0 100 0)) 20 = None.
Proof.
  unfold tpu_wait_until_done.
  apply (tpu_wait_until_done_blind 20 0 (answering 0 100 0)).
  - split; intros h x; reflexivity.
  - intros h x. reflexivity.
  - intros h. reflexivity.
  - lia.
  - reflexivity.
  - reflexivity.
Defined.
